(** * k8s-pilot: plan pipeline, diagnostics scoring, policy gate, plugin registry

    A shallow embedding of the Go packages [plan], [diagnose], [policy],
    [plugins] and [ai] (mock provider), followed by the properties
    established about them.

    Conventions.
    - A Go [string] is a byte sequence; it is modelled by [string]
      (a sequence of [ascii] bytes).
    - A Go [int] is a 64-bit two's-complement integer; it is modelled by
      [Z] and every arithmetic operation is wrapped by [Int.wrap].
    - A Go [(T, error)] result is modelled by [result T].
    - Standard-library functions of package [strings] are modelled in
      module [Strings]; [strings.ToLower], whose Unicode case tables are not
      part of the repository, is a parameter of the code that calls it. *)

From Stdlib Require Import ZArith QArith Lia List Bool Ascii String DecimalString.
From stdpp Require Import base option list gmap strings fin_maps.
Import ListNotations.

Local Open Scope Z_scope.

(** ** Go runtime: machine integers, errors *)

Module Int.

(** Go's [int] on 64-bit targets. *)
Definition min_int : Z := - 2 ^ 63.
Definition max_int : Z := 2 ^ 63 - 1.

Definition wrap (z : Z) : Z := (z + 2 ^ 63) mod 2 ^ 64 - 2 ^ 63.

Definition add (a b : Z) : Z := wrap (a + b).
Definition sub (a b : Z) : Z := wrap (a - b).
Definition mul (a b : Z) : Z := wrap (a * b).
(** Go's [/] truncates toward zero. *)
Definition div (a b : Z) : Z := wrap (Z.quot a b).

End Int.

Module Int32.

(** Go's [int32]. *)
Definition min_int : Z := - 2 ^ 31.
Definition max_int : Z := 2 ^ 31 - 1.

Definition wrap (z : Z) : Z := (z + 2 ^ 31) mod 2 ^ 32 - 2 ^ 31.

Definition add (a b : Z) : Z := wrap (a + b).

End Int32.

(** A Go [error] value, identified with its message. *)
Definition error := string.

Inductive result (A : Type) : Type :=
| Ok (a : A)
| Err (e : error).
Arguments Ok {A} a.
Arguments Err {A} e.

(** ** Package [strings] (the functions the repository calls) *)

Module Strings.

(** [len(s)] as a Go [int]. *)
Definition Len (s : string) : Z := Z.of_nat (String.length s).

(** [s[:n]] for [n <= len(s)]. *)
Fixpoint sliceTo (s : string) (n : nat) : string :=
  match n, s with
  | S n', String c s' => String c (sliceTo s' n')
  | _, _ => EmptyString
  end.

(** [s[n:]] for [n <= len(s)]. *)
Fixpoint sliceFrom (s : string) (n : nat) : string :=
  match n, s with
  | S n', String _ s' => sliceFrom s' n'
  | _, _ => s
  end.

Fixpoint HasPrefix (s prefix : string) {struct prefix} : bool :=
  match prefix, s with
  | EmptyString, _ => true
  | String p prefix', String c s' => Ascii.eqb c p && HasPrefix s' prefix'
  | String _ _, EmptyString => false
  end.

Definition TrimPrefix (s prefix : string) : string :=
  if HasPrefix s prefix then sliceFrom s (String.length prefix) else s.

(** [strings.Contains(s, substr)]: [substr] occurs at some offset of [s]. *)
Fixpoint Contains (s substr : string) : bool :=
  HasPrefix s substr ||
  match s with
  | EmptyString => false
  | String _ s' => Contains s' substr
  end.

(** [strings.Split(s, sep)] for a one-byte separator, the only kind the
    repository passes (a newline and a vertical bar).  The result always has
    at least one element. *)
Fixpoint Split (s : string) (sep : ascii) : list string :=
  match s with
  | EmptyString => [EmptyString]
  | String c s' =>
      if Ascii.eqb c sep then EmptyString :: Split s' sep
      else match Split s' sep with
           | piece :: rest => String c piece :: rest
           | [] => [String c EmptyString]
           end
  end.

(** White space as [unicode.IsSpace] sees it on UTF-8 input.  One-byte
    code points: tab, line feed, vertical tab, form feed, carriage return,
    space. *)
Definition isSpace1 (c : ascii) : bool :=
  let n := nat_of_ascii c in
  ((9 <=? n) && (n <=? 13))%nat || (n =? 32)%nat.

(** Two-byte encodings: U+0085 and U+00A0. *)
Definition isSpace2 (c1 c2 : ascii) : bool :=
  let n1 := nat_of_ascii c1 in
  let n2 := nat_of_ascii c2 in
  ((n1 =? 194) && ((n2 =? 133) || (n2 =? 160)))%nat.

(** Three-byte encodings: U+1680, U+2000..U+200A, U+2028, U+2029, U+202F,
    U+205F, U+3000. *)
Definition isSpace3 (c1 c2 c3 : ascii) : bool :=
  let n1 := nat_of_ascii c1 in
  let n2 := nat_of_ascii c2 in
  let n3 := nat_of_ascii c3 in
  ((n1 =? 225) && (n2 =? 154) && (n3 =? 128)
   || (n1 =? 226) && (n2 =? 128)
      && ((128 <=? n3) && (n3 <=? 138) || (n3 =? 168) || (n3 =? 169) || (n3 =? 175))
   || (n1 =? 226) && (n2 =? 129) && (n3 =? 159)
   || (n1 =? 227) && (n2 =? 128) && (n3 =? 128))%nat.

(** Strip leading white space.  With [back = true] the argument is a
    reversed string, so multi-byte encodings are met last byte first. *)
Fixpoint trimFront (back : bool) (s : string) : string :=
  match s with
  | EmptyString => EmptyString
  | String c1 s1 =>
      if isSpace1 c1 then trimFront back s1
      else
        match s1 with
        | EmptyString => s
        | String c2 s2 =>
            if (if back then isSpace2 c2 c1 else isSpace2 c1 c2)
            then trimFront back s2
            else
              match s2 with
              | EmptyString => s
              | String c3 s3 =>
                  if (if back then isSpace3 c3 c2 c1 else isSpace3 c1 c2 c3)
                  then trimFront back s3
                  else s
              end
        end
  end.

Fixpoint rev (s : string) : string :=
  match s with
  | EmptyString => EmptyString
  | String c s' => rev s' +:+ String c EmptyString
  end.

(** [strings.TrimSpace(s)]: leading, then trailing white space removed. *)
Definition TrimSpace (s : string) : string :=
  rev (trimFront true (rev (trimFront false s))).

(** [strings.Fields(s)]: the maximal runs of bytes between white space, as
    [unicode.IsSpace] sees it on UTF-8 input.  [cur] is the field being
    read. *)
Fixpoint fieldsFrom (cur : string) (s : string) : list string :=
  let flush := match cur with EmptyString => [] | _ => [cur] end in
  match s with
  | EmptyString => flush
  | String c1 s1 =>
      if isSpace1 c1 then flush ++ fieldsFrom EmptyString s1
      else
        match s1 with
        | EmptyString => fieldsFrom (cur +:+ String c1 EmptyString) s1
        | String c2 s2 =>
            if isSpace2 c1 c2 then flush ++ fieldsFrom EmptyString s2
            else
              match s2 with
              | EmptyString => fieldsFrom (cur +:+ String c1 EmptyString) s1
              | String c3 s3 =>
                  if isSpace3 c1 c2 c3 then flush ++ fieldsFrom EmptyString s3
                  else fieldsFrom (cur +:+ String c1 EmptyString) s1
              end
        end
  end.

Definition Fields (s : string) : list string := fieldsFrom EmptyString s.

(** ASCII case mapping, the restriction of [strings.ToLower] and
    [strings.ToUpper] to ASCII text. *)
Definition lowerByte (c : ascii) : ascii :=
  let n := nat_of_ascii c in
  if ((65 <=? n) && (n <=? 90))%nat then ascii_of_nat (n + 32) else c.

Definition upperByte (c : ascii) : ascii :=
  let n := nat_of_ascii c in
  if ((97 <=? n) && (n <=? 122))%nat then ascii_of_nat (n - 32) else c.

Fixpoint mapBytes (f : ascii -> ascii) (s : string) : string :=
  match s with
  | EmptyString => EmptyString
  | String c s' => String (f c) (mapBytes f s')
  end.

Definition ToLowerASCII : string -> string := mapBytes lowerByte.
Definition ToUpperASCII : string -> string := mapBytes upperByte.

End Strings.

(** ** Package [fmt]: the verbs the repository formats with *)

Module Fmt.

(** [%d] of an integer. *)
Definition d (z : Z) : string := NilEmpty.string_of_int (Z.to_int z).

(** [%v] of a [bool]. *)
Definition v (b : bool) : string := if b then "true" else "false".

End Fmt.

(** The line feed byte, as in the Go literal for a newline. *)
Definition LF : ascii := ascii_of_nat 10.
Definition nl : string := String LF EmptyString.
Definition bar : ascii := ascii_of_nat 124.

(** ** Package [policy] *)

Module policy.

Inductive Severity : Type :=
| SeverityHigh
| SeverityMedium
| SeverityLow.

Record Violation : Type := {
  Policy : string;
  VSeverity : Severity;
  Message : string
}.

Record ValidationResult : Type := {
  Allowed : bool;
  Violations : list Violation;
  Warnings : list string
}.

Record Validator : Type := { enabled : bool }.

Definition NewValidator (enabled : bool) : Validator := {| enabled := enabled |}.

(** [contains], as written: a recursive scan that compares bytes exactly. *)
Fixpoint contains (s substr : string) : bool :=
  (String.length substr <=? String.length s)%nat
  && (String.eqb s substr
      || (String.length substr <? String.length s)%nat
         && (String.eqb (Strings.sliceTo s (String.length substr)) substr
             || match s with
                | String _ tail => contains tail substr
                | EmptyString => false
                end)).

Definition dangerousOps : list string := ["delete"; "drain"; "cordon"].

(** The loop over [dangerousOps]: one warning per operation found. *)
Fixpoint scanDangerousOps (command : string) (ops : list string)
    (warnings : list string) : list string :=
  match ops with
  | [] => warnings
  | op :: ops' =>
      let warnings' :=
        if contains command op
        then warnings ++ ["Potentially dangerous operation detected: " +:+ op]
        else warnings in
      scanDangerousOps command ops' warnings'
  end.

Definition ValidateCommand (v : Validator) (command : string)
    : result ValidationResult :=
  if negb (enabled v) then
    Ok {| Allowed := true; Violations := []; Warnings := [] |}
  else
    let result := {| Allowed := true; Violations := []; Warnings := [] |} in
    let result :=
      {| Allowed := Allowed result;
         Violations := Violations result;
         Warnings := scanDangerousOps command dangerousOps (Warnings result) |} in
    let result :=
      if contains command "privileged" || contains command "hostNetwork" then
        {| Allowed := false;
           Violations := Violations result ++
             [{| Policy := "no-privileged-containers";
                 VSeverity := SeverityHigh;
                 Message := "Privileged containers are not allowed" |}];
           Warnings := Warnings result |}
      else result in
    let result :=
      if contains command "runAsUser: 0" then
        {| Allowed := false;
           Violations := Violations result ++
             [{| Policy := "no-root-containers";
                 VSeverity := SeverityHigh;
                 Message := "Running containers as root is not allowed" |}];
           Warnings := Warnings result |}
      else result in
    let result :=
      if Bool.eqb (contains command "limits") false && contains command "create" then
        {| Allowed := Allowed result;
           Violations := Violations result;
           Warnings := Warnings result ++
             ["No resource limits specified - consider adding limits"] |}
      else result in
    Ok result.

End policy.

(** ** Package [ai]: the provider interface and the mock provider *)

Module ai.

(** [Options]; [Temperature] is a [float64] in the source and is carried as
    the rational its literal denotes.  No provider modelled here reads it. *)
Record Options : Type := {
  Temperature : Q;
  MaxTokens : Z;
  OptModel : string;
  SystemPrompt : string;
  StopSequences : list string
}.

Record Response : Type := {
  Content : string;
  Model : string;
  TokensUsed : Z;
  FinishReason : string
}.

Inductive ProviderType : Type :=
| ProviderOpenAI
| ProviderAnthropic
| ProviderOllama
| ProviderMock.

Record Config : Type := {
  Provider_ : ProviderType;
  APIKey : string;
  BaseURL : string;
  CfgModel : string;
  CfgMaxTokens : Z;
  CfgTemperature : Q
}.

(** The [Provider] interface (the methods the pipeline calls). *)
Record Provider : Type := {
  Generate : string -> Options -> result Response;
  Name : string
}.

Definition DefaultOptions : Options :=
  {| Temperature := (7 # 10)%Q;
     MaxTokens := 2000;
     OptModel := "";
     SystemPrompt := "";
     StopSequences := [] |}.

Section Mock.

(** [strings.ToLower]. *)
Variable ToLower : string -> string.

Definition generateMockResponse (prompt : string) : string :=
  let promptLower := ToLower prompt in
  if Strings.Contains promptLower "restart" && Strings.Contains promptLower "pod" then
"To restart pods, I recommend using a rolling restart approach:

1. kubectl rollout restart deployment <deployment-name> -n <namespace>

This will gracefully restart all pods in the deployment without downtime.

Alternative: Delete specific pods to trigger recreation:
kubectl delete pod <pod-name> -n <namespace>

The scheduler will automatically create new pods to replace them."
  else if Strings.Contains promptLower "diagnose" || Strings.Contains promptLower "crashloop" then
"Based on the diagnostics:

Issue: CrashLoopBackOff detected
Root Cause: Application is likely failing at startup due to:
  - Missing environment variables
  - Database connection failure
  - Invalid configuration

Recommended Actions:
1. Check logs: kubectl logs <pod-name> -n <namespace>
2. Describe pod: kubectl describe pod <pod-name> -n <namespace>
3. Verify configmaps and secrets are mounted correctly
4. Check resource limits - pod may be OOMKilled"
  else if Strings.Contains promptLower "scale" then
"To scale the deployment:

kubectl scale deployment <deployment-name> --replicas=<count> -n <namespace>

This will adjust the number of pod replicas to the specified count.
Use 'kubectl get deployment' to verify the scaling operation."
  else "Mock AI response for prompt: " +:+ prompt.

(** [MockProvider.Generate]; the receiver's [config] is never read. *)
Definition MockProvider_Generate (config : Config) (prompt : string)
    (options : Options) : result Response :=
  let content := generateMockResponse prompt in
  Ok {| Content := content;
        Model := "mock-v1";
        TokensUsed := Int.div (Strings.Len content) 4;
        FinishReason := "stop" |}.

Definition NewMockProvider (config : Config) : result Provider :=
  Ok {| Generate := MockProvider_Generate config; Name := "mock" |}.

End Mock.

(** [Config] as the factory receives it.  [ProviderType] is a string type:
    the field holds whatever text the caller converted, not only the four
    constants. *)
Record Settings : Type := {
  SProvider : string;
  SAPIKey : string;
  SBaseURL : string;
  SModel : string;
  SMaxTokens : Z;
  STemperature : Q
}.

Definition setModel (config : Settings) (model : string) : Settings :=
  {| SProvider := SProvider config; SAPIKey := SAPIKey config;
     SBaseURL := SBaseURL config; SModel := model;
     SMaxTokens := SMaxTokens config; STemperature := STemperature config |}.

Definition setBaseURL (config : Settings) (url : string) : Settings :=
  {| SProvider := SProvider config; SAPIKey := SAPIKey config;
     SBaseURL := url; SModel := SModel config;
     SMaxTokens := SMaxTokens config; STemperature := STemperature config |}.

(** The three providers whose [Generate] is a stub. *)
Definition OpenAIProvider : Provider :=
  {| Generate := fun _ _ =>
       Err "OpenAI provider not yet implemented - please use mock provider for now";
     Name := "openai" |}.

Definition AnthropicProvider : Provider :=
  {| Generate := fun _ _ =>
       Err "Anthropic provider not yet implemented - please use mock provider for now";
     Name := "anthropic" |}.

Definition OllamaProvider : Provider :=
  {| Generate := fun _ _ =>
       Err "Ollama provider not yet implemented - please use mock provider for now";
     Name := "ollama" |}.

(** The constructors return the provider or the error, and the
    configuration as they leave it (they fill in defaults through the
    pointer they are given). *)
Definition NewOpenAIProvider (config : Settings) : result Provider * Settings :=
  if String.eqb (SAPIKey config) "" then (Err "OpenAI API key is required", config)
  else
    let config := if String.eqb (SModel config) "" then setModel config "gpt-4" else config in
    (Ok OpenAIProvider, config).

Definition NewAnthropicProvider (config : Settings) : result Provider * Settings :=
  if String.eqb (SAPIKey config) "" then (Err "Anthropic API key is required", config)
  else
    let config :=
      if String.eqb (SModel config) "" then setModel config "claude-sonnet-4-5-20250929"
      else config in
    (Ok AnthropicProvider, config).

Definition NewOllamaProvider (config : Settings) : result Provider * Settings :=
  let config :=
    if String.eqb (SBaseURL config) "" then setBaseURL config "http://localhost:11434"
    else config in
  let config := if String.eqb (SModel config) "" then setModel config "llama3" else config in
  (Ok OllamaProvider, config).

Section Factory.

Variable ToLower : string -> string.

Definition mockConfigOf (config : Settings) : Config :=
  {| Provider_ := ProviderMock; APIKey := SAPIKey config; BaseURL := SBaseURL config;
     CfgModel := SModel config; CfgMaxTokens := SMaxTokens config;
     CfgTemperature := STemperature config |}.

Definition NewProvider (config : Settings) : result Provider * Settings :=
  if String.eqb (SProvider config) "openai" then NewOpenAIProvider config
  else if String.eqb (SProvider config) "anthropic" then NewAnthropicProvider config
  else if String.eqb (SProvider config) "ollama" then NewOllamaProvider config
  else if String.eqb (SProvider config) "mock"
  then (NewMockProvider ToLower (mockConfigOf config), config)
  else (Err ("unsupported provider: " +:+ SProvider config), config).

End Factory.

End ai.

(** ** Package [plan] *)

Module plan.

Module Command.
Record t : Type := mk {
  Command : string;
  Description : string;
  Safe : bool;
  DryRun : bool
}.
End Command.

Module Plan.
Record t : Type := mk {
  Summary : string;
  Commands : list Command.t;
  Warnings : list string;
  RequiresAuth : bool;
  DryRun : bool
}.
End Plan.

Record Planner : Type := {
  aiProvider : ai.Provider;
  namespace : string;
  dryRun : bool
}.

Record Result : Type := {
  ExecutedCommands : list string;
  Errors : list string
}.

Definition systemPrompt : string :=
"You are a Kubernetes expert assistant. Your task is to translate natural language queries into safe kubectl commands.

Rules:
1. Always prefer dry-run commands when possible
2. Never suggest commands that delete critical resources without warning
3. Include explanations for each command
4. Warn about potentially dangerous operations
5. Use the namespace provided in context when applicable
6. Suggest RBAC-safe alternatives when possible

Format your response as:
SUMMARY: <brief summary>
COMMANDS:
- <kubectl command> | <description> | <safe: true/false>

WARNINGS:
- <warning if any>
".

Definition buildPrompt (p : Planner) (query : string) : string :=
  let namespace := if String.eqb (namespace p) "" then "default" else namespace p in
  let userPrompt :=
    "Namespace: " +:+ namespace +:+ nl +:+ "Query: " +:+ query +:+ nl +:+ nl
    +:+ "Generate a safe execution plan for this query." in
  systemPrompt +:+ nl +:+ nl +:+ userPrompt.

(** The scanner's variables: the plan under construction and the two
    mode flags. *)
Record scanState : Type := {
  plan : Plan.t;
  inCommands : bool;
  inWarnings : bool
}.

Definition setSummary (pl : Plan.t) (s : string) : Plan.t :=
  Plan.mk s (Plan.Commands pl) (Plan.Warnings pl) (Plan.RequiresAuth pl) (Plan.DryRun pl).

Definition appendCommand (pl : Plan.t) (c : Command.t) : Plan.t :=
  Plan.mk (Plan.Summary pl) (Plan.Commands pl ++ [c]) (Plan.Warnings pl)
    (Plan.RequiresAuth pl) (Plan.DryRun pl).

Definition appendWarning (pl : Plan.t) (w : string) : Plan.t :=
  Plan.mk (Plan.Summary pl) (Plan.Commands pl) (Plan.Warnings pl ++ [w])
    (Plan.RequiresAuth pl) (Plan.DryRun pl).

Definition setDryRun (pl : Plan.t) (b : bool) : Plan.t :=
  Plan.mk (Plan.Summary pl) (Plan.Commands pl) (Plan.Warnings pl)
    (Plan.RequiresAuth pl) b.

(** The command built from the fields of one [|]-separated line. *)
Definition commandOfParts (p : Planner) (parts : list string) : Command.t :=
  let cmd := Strings.TrimSpace (Strings.TrimPrefix (nth 0 parts "") "-") in
  let desc := Strings.TrimSpace (nth 1 parts "") in
  let safe :=
    if (3 <=? length parts)%nat && Strings.Contains (nth 2 parts "") "false"
    then false else true in
  Command.mk cmd desc safe (dryRun p).

(** One iteration of the loop over the lines of the response. *)
Definition scanLine (p : Planner) (st : scanState) (raw : string) : scanState :=
  let line := Strings.TrimSpace raw in
  if Strings.HasPrefix line "SUMMARY:" then
    {| plan := setSummary (plan st)
                 (Strings.TrimSpace (Strings.TrimPrefix line "SUMMARY:"));
       inCommands := inCommands st;
       inWarnings := inWarnings st |}
  else if Strings.HasPrefix line "COMMANDS:" then
    {| plan := plan st; inCommands := true; inWarnings := false |}
  else if Strings.HasPrefix line "WARNINGS:" then
    {| plan := plan st; inCommands := false; inWarnings := true |}
  else
    let plan1 :=
      if inCommands st && Strings.HasPrefix line "-" || Strings.HasPrefix line "kubectl"
      then
        let parts := Strings.Split line bar in
        if (2 <=? length parts)%nat
        then appendCommand (plan st) (commandOfParts p parts)
        else plan st
      else plan st in
    let plan2 :=
      if inWarnings st && Strings.HasPrefix line "-" then
        let warning := Strings.TrimSpace (Strings.TrimPrefix line "-") in
        if negb (String.eqb warning "") then appendWarning plan1 warning else plan1
      else plan1 in
    {| plan := plan2; inCommands := inCommands st; inWarnings := inWarnings st |}.

Definition initialState (p : Planner) (originalQuery : string) : scanState :=
  {| plan := Plan.mk ("Execution plan for: " +:+ originalQuery) [] [] false (dryRun p);
     inCommands := false;
     inWarnings := false |}.

(** The scanner proper: the state after the loop over all lines. *)
Definition scanResponse (p : Planner) (response originalQuery : string) : scanState :=
  fold_left (scanLine p) (Strings.Split response LF) (initialState p originalQuery).

Definition placeholder (p : Planner) (originalQuery : string) : Command.t :=
  Command.mk ("# Generated from: " +:+ originalQuery)
    "See AI response for details" true (dryRun p).

Definition parseResponse (p : Planner) (response originalQuery : string) : Plan.t :=
  let pl := plan (scanResponse p response originalQuery) in
  if (length (Plan.Commands pl) =? 0)%nat
  then appendCommand pl (placeholder p originalQuery)
  else pl.

Definition Generate (p : Planner) (query : string) : result Plan.t :=
  let prompt := buildPrompt p query in
  match ai.Generate (aiProvider p) prompt ai.DefaultOptions with
  | Err err => Err ("failed to generate plan: " +:+ err)
  | Ok response =>
      let pl := parseResponse p (ai.Content response) query in
      Ok (setDryRun pl (dryRun p))
  end.

(** One iteration of the loop of [Execute]. *)
Definition executeStep (p : Plan.t) (result : Result) (cmd : Command.t) : Result :=
  if Plan.DryRun p && negb (Command.DryRun cmd) then
    {| ExecutedCommands :=
         ExecutedCommands result ++ ["[DRY-RUN] " +:+ Command.Command cmd];
       Errors := Errors result |}
  else
    {| ExecutedCommands := ExecutedCommands result ++ [Command.Command cmd];
       Errors := Errors result |}.

Definition Execute (p : Plan.t) : result Result :=
  Ok (fold_left (executeStep p) (Plan.Commands p)
        {| ExecutedCommands := []; Errors := [] |}).

Section NewPlanner.

Variable ToLower : string -> string.

(** [NewPlanner]; [getenv] is the process environment as [os.Getenv] reads
    it (the empty string for an unset variable). *)
Definition NewPlanner (getenv : string -> string) (namespace : string)
    (dryRun : bool) : Planner :=
  let aiConfig :=
    {| ai.SProvider := "mock"; ai.SAPIKey := ""; ai.SBaseURL := ""; ai.SModel := "";
       ai.SMaxTokens := 0; ai.STemperature := 0%Q |} in
  let providerStr := getenv "K8S_PILOT_AI_PROVIDER" in
  let aiConfig :=
    if negb (String.eqb providerStr "") then
      {| ai.SProvider := providerStr;
         ai.SAPIKey := getenv "K8S_PILOT_AI_KEY";
         ai.SBaseURL := ai.SBaseURL aiConfig;
         ai.SModel := getenv "K8S_PILOT_AI_MODEL";
         ai.SMaxTokens := ai.SMaxTokens aiConfig;
         ai.STemperature := ai.STemperature aiConfig |}
    else aiConfig in
  let '(provider, aiConfig) := ai.NewProvider ToLower aiConfig in
  let provider :=
    match provider with
    | Ok provider => Ok provider
    | Err _ => ai.NewMockProvider ToLower (ai.mockConfigOf aiConfig)
    end in
  match provider with
  | Ok provider =>
      {| aiProvider := provider; namespace := namespace; dryRun := dryRun |}
  | Err _ =>
      (* [NewMockProvider] has no failing path; the field would be nil *)
      {| aiProvider := {| ai.Generate := fun _ _ => Err "nil provider"; ai.Name := "" |};
         namespace := namespace; dryRun := dryRun |}
  end.

End NewPlanner.

End plan.

(** ** Package [corev1]: pods as the cluster lists them *)

Module corev1.

Record ContainerStateWaiting : Type := { WaitingReason : string; WaitingMessage : string }.

Record ContainerStateTerminated : Type := { TerminatedReason : string }.

Module ContainerStatus.
Record t : Type := mk {
  Name : string;
  Image : string;
  Ready : bool;
  RestartCount : Z;
  Waiting : option ContainerStateWaiting;
  Terminated : option ContainerStateTerminated
}.
End ContainerStatus.

Module Pod.
Record t : Type := mk {
  Name : string;
  Namespace : string;
  Phase : string;
  ContainerStatuses : list ContainerStatus.t
}.
End Pod.

End corev1.

(** ** Package [k8s]: the data the diagnostics engine consumes *)

Module k8s.

(** [corev1.ContainerStateWaiting], [corev1.ContainerStatus] and
    [corev1.Pod], restricted to the fields the engine reads. *)
Record ContainerStateWaiting : Type := {
  Reason : string;
  WaitingMessage : string
}.

Record ContainerStatus : Type := {
  CSName : string;
  Waiting : option ContainerStateWaiting;
  RestartCount : Z
}.

Record Pod : Type := {
  StatusPhase : string;
  ContainerStatuses : list ContainerStatus
}.

Record ContainerInfo : Type := {
  CIName : string;
  Image : string;
  CIReady : bool;
  CIRestartCount : Z;
  State : string
}.

Record PodInfo : Type := {
  Name : string;
  Namespace : string;
  Phase : string;
  Restarts : Z;
  Ready : bool;
  ContainerInfos : list ContainerInfo
}.

(** The two queries of [*k8s.Client] the engine issues, as the cluster
    answers them. *)
Record Client : Type := {
  GetPod : string -> string -> result Pod;
  GetPods : string -> result (list PodInfo)
}.

(** The state string [GetPods] gives a container. *)
Definition containerState (cs : corev1.ContainerStatus.t) : string :=
  match corev1.ContainerStatus.Waiting cs with
  | Some waiting => corev1.WaitingReason waiting
  | None =>
      match corev1.ContainerStatus.Terminated cs with
      | Some terminated => corev1.TerminatedReason terminated
      | None => "running"
      end
  end.

(** One iteration of the inner loop of [GetPods]: the readiness so far, the
    restarts so far (an [int32]) and the container infos so far. *)
Definition addContainer (acc : bool * Z * list ContainerInfo)
    (cs : corev1.ContainerStatus.t) : bool * Z * list ContainerInfo :=
  let '(ready, totalRestarts, infos) := acc in
  (if negb (corev1.ContainerStatus.Ready cs) then false else ready,
   Int32.add totalRestarts (corev1.ContainerStatus.RestartCount cs),
   infos ++ [ {| CIName := corev1.ContainerStatus.Name cs;
                 Image := corev1.ContainerStatus.Image cs;
                 CIReady := corev1.ContainerStatus.Ready cs;
                 CIRestartCount := corev1.ContainerStatus.RestartCount cs;
                 State := containerState cs |} ]).

(** The body of the outer loop: the [PodInfo] built for one pod. *)
Definition podInfoOf (pod : corev1.Pod.t) : PodInfo :=
  let '(ready, totalRestarts, infos) :=
    fold_left addContainer (corev1.Pod.ContainerStatuses pod) (true, 0, []) in
  {| Name := corev1.Pod.Name pod;
     Namespace := corev1.Pod.Namespace pod;
     Phase := corev1.Pod.Phase pod;
     Restarts := totalRestarts;
     Ready := ready;
     ContainerInfos := infos |}.

(** [Client.GetPods]: [listPods] is the cluster's answer to the list call
    for a namespace and [clientNamespace] the client's own namespace. *)
Definition Client_GetPods (listPods : string -> result (list corev1.Pod.t))
    (clientNamespace namespace : string) : result (list PodInfo) :=
  let namespace := if String.eqb namespace "" then clientNamespace else namespace in
  match listPods namespace with
  | Err err => Err ("failed to list pods: " +:+ err)
  | Ok items =>
      Ok (fold_left (fun podInfos pod => podInfos ++ [podInfoOf pod]) items [])
  end.

End k8s.

(** ** Package [diagnose] *)

Module diagnose.

Inductive Severity : Type :=
| SeverityCritical
| SeverityHigh
| SeverityMedium
| SeverityLow.

(** The string a [Severity] constant holds. *)
Definition Severity_string (s : Severity) : string :=
  match s with
  | SeverityCritical => "critical"
  | SeverityHigh => "high"
  | SeverityMedium => "medium"
  | SeverityLow => "low"
  end.

(** [IssueType] is a string type: the engine also converts pod phases and
    waiting reasons into it. *)
Definition IssueType := string.
Definition IssueCrashLoopBackOff : IssueType := "CrashLoopBackOff".
Definition IssueImagePullBackOff : IssueType := "ImagePullBackOff".

(** [Issue]; the [Details] map is never set by the engine and is left out. *)
Record Issue : Type := {
  ISeverity : Severity;
  Type_ : IssueType;
  Resource : string;
  Description : string
}.

Record Remediation : Type := {
  Title : string;
  RDescription : string;
  Command : string;
  Confidence : string;
  Safe : bool
}.

Record Report : Type := {
  Summary : string;
  Issues : list Issue;
  Remediations : list Remediation;
  HealthScore : Z
}.

Record Engine : Type := {
  k8sClient : k8s.Client;
  aiProvider : ai.Provider;
  namespace : string;
  allNamespaces : bool
}.

Definition min (a b : Z) : Z := if a <? b then a else b.

Definition addIssue (r : Report) (i : Issue) : Report :=
  {| Summary := Summary r; Issues := Issues r ++ [i];
     Remediations := Remediations r; HealthScore := HealthScore r |}.

(** [report.HealthScore -= n]. *)
Definition deduct (r : Report) (n : Z) : Report :=
  {| Summary := Summary r; Issues := Issues r;
     Remediations := Remediations r; HealthScore := Int.sub (HealthScore r) n |}.

Definition generateRemediations (e : Engine) (issues : list Issue)
    (resourceName : string) : list Remediation :=
  let prompt :=
    "Kubernetes diagnostics for resource: " +:+ resourceName +:+ nl +:+ nl
    +:+ "Detected issues:" +:+ nl in
  let prompt :=
    fold_left
      (fun prompt issue =>
         prompt +:+ "- [" +:+ Severity_string (ISeverity issue) +:+ "] "
         +:+ Type_ issue +:+ ": " +:+ Description issue +:+ nl)
      issues prompt in
  let prompt := prompt +:+ nl +:+ "Provide 3 remediation steps with kubectl commands." in
  match ai.Generate (aiProvider e) prompt ai.DefaultOptions with
  | Err _ => []
  | Ok response =>
      [ {| Title := "Check pod logs";
           RDescription := "Inspect pod logs for error messages";
           Command := "kubectl logs " +:+ resourceName +:+ " -n " +:+ namespace e;
           Confidence := "High";
           Safe := true |};
        {| Title := "Describe pod";
           RDescription := "Get detailed pod information and events";
           Command := "kubectl describe pod " +:+ resourceName +:+ " -n " +:+ namespace e;
           Confidence := "High";
           Safe := true |};
        {| Title :=
             Strings.sliceTo (ai.Content response)
               (Z.to_nat (min (Strings.Len (ai.Content response)) 50)) +:+ "...";
           RDescription := "AI-suggested remediation";
           Command := "# See AI response for details";
           Confidence := "Medium";
           Safe := true |} ]
  end.

(** One iteration of the loop over [pod.Status.ContainerStatuses]. *)
Definition checkContainer (podName : string) (report : Report)
    (cs : k8s.ContainerStatus) : Report :=
  let report :=
    match k8s.Waiting cs with
    | Some waiting =>
        let reason := k8s.Reason waiting in
        let '(issueType, severity, report) :=
          if String.eqb reason "CrashLoopBackOff" then
            (IssueCrashLoopBackOff, SeverityCritical, deduct report 40)
          else if String.eqb reason "ImagePullBackOff" || String.eqb reason "ErrImagePull" then
            (IssueImagePullBackOff, SeverityHigh, deduct report 35)
          else
            (reason, SeverityMedium, deduct report 20) in
        addIssue report
          {| ISeverity := severity;
             Type_ := issueType;
             Resource := podName +:+ "/" +:+ k8s.CSName cs;
             Description :=
               "Container " +:+ k8s.CSName cs +:+ ": " +:+ reason +:+ " - "
               +:+ k8s.WaitingMessage waiting |}
    | None => report
    end in
  if 5 <? k8s.RestartCount cs then
    deduct
      (addIssue report
         {| ISeverity := SeverityMedium;
            Type_ := IssueCrashLoopBackOff;
            Resource := podName +:+ "/" +:+ k8s.CSName cs;
            Description :=
              "Container has restarted " +:+ Fmt.d (k8s.RestartCount cs) +:+ " times" |})
      15
  else report.

Definition diagnosePod (e : Engine) (podName : string) : result Report :=
  match k8s.GetPod (k8sClient e) podName (namespace e) with
  | Err err => Err ("failed to get pod: " +:+ err)
  | Ok pod =>
      let report :=
        {| Summary := "Diagnostics for pod: " +:+ podName;
           Issues := [];
           Remediations := [];
           HealthScore := 100 |} in
      let report :=
        if negb (String.eqb (k8s.StatusPhase pod) "Running") then
          deduct
            (addIssue report
               {| ISeverity := SeverityHigh;
                  Type_ := k8s.StatusPhase pod;
                  Resource := podName;
                  Description := "Pod is in " +:+ k8s.StatusPhase pod +:+ " phase" |})
            30
        else report in
      let report := fold_left (checkContainer podName) (k8s.ContainerStatuses pod) report in
      let report :=
        if (0 <? length (Issues report))%nat then
          {| Summary := Summary report; Issues := Issues report;
             Remediations := generateRemediations e (Issues report) podName;
             HealthScore := HealthScore report |}
        else report in
      Ok report
  end.

(** One iteration of the loop over the pod list: the running count of
    problem pods and the report. *)
Definition checkPod (acc : Z * Report) (pod : k8s.PodInfo) : Z * Report :=
  let '(problemPods, report) := acc in
  if negb (String.eqb (k8s.Phase pod) "Running") || negb (k8s.Ready pod)
     || (3 <? k8s.Restarts pod)
  then
    let problemPods := Int.add problemPods 1 in
    let issue :=
      {| ISeverity := SeverityMedium;
         Type_ := "";
         Resource := "pod/" +:+ k8s.Name pod;
         Description :=
           "Pod " +:+ k8s.Name pod +:+ ": Phase=" +:+ k8s.Phase pod
           +:+ ", Ready=" +:+ Fmt.v (k8s.Ready pod)
           +:+ ", Restarts=" +:+ Fmt.d (k8s.Restarts pod) |} in
    let issue :=
      if 10 <? k8s.Restarts pod then
        {| ISeverity := SeverityHigh; Type_ := Type_ issue;
           Resource := Resource issue; Description := Description issue |}
      else issue in
    (problemPods, addIssue report issue)
  else (problemPods, report).

Definition diagnoseAllPods (e : Engine) : result Report :=
  match k8s.GetPods (k8sClient e) (namespace e) with
  | Err err => Err ("failed to list pods: " +:+ err)
  | Ok pods =>
      let report :=
        {| Summary := "Cluster diagnostics";
           Issues := [];
           Remediations := [];
           HealthScore := 100 |} in
      let '(problemPods, report) := fold_left checkPod pods (0, report) in
      let report :=
        if 0 <? problemPods then
          let score := Int.sub 100 (Int.mul problemPods 10) in
          {| Summary := Summary report; Issues := Issues report;
             Remediations := Remediations report;
             HealthScore := if score <? 0 then 0 else score |}
        else report in
      Ok {| Summary :=
              "Found " +:+ Fmt.d (Z.of_nat (length (Issues report)))
              +:+ " issue(s) across " +:+ Fmt.d (Z.of_nat (length pods))
              +:+ " pods. Health score: " +:+ Fmt.d (HealthScore report) +:+ "/100";
            Issues := Issues report;
            Remediations := Remediations report;
            HealthScore := HealthScore report |}
  end.

(** [diagnoseDeployment]: a stub whose report has only a summary. *)
Definition diagnoseDeployment (e : Engine) (deploymentName : string) : result Report :=
  Ok {| Summary :=
          "Diagnostics for deployment: " +:+ deploymentName +:+ " (not yet implemented)";
        Issues := [];
        Remediations := [];
        HealthScore := 0 |}.

Definition DiagnoseCluster (e : Engine) : result Report := diagnoseAllPods e.

End diagnose.

(** ** Package [explain] *)

Module explain.

(** [corev1.Event], restricted to the fields the explainer prints. *)
Record Event : Type := {
  Type_ : string;
  Reason : string;
  Message : string
}.

(** The two queries of [k8s.Client] the explainer issues: the logs of a
    pod (pod, container, namespace, number of tail lines) and the events
    of a namespace. *)
Record Cluster : Type := {
  GetPodLogs : string -> string -> string -> Z -> result string;
  GetEvents : string -> result (list Event)
}.

Record Explainer : Type := {
  aiProvider : ai.Provider;
  k8sClient : Cluster;
  namespace : string
}.

Record Explanation : Type := {
  Query : string;
  Answer : string;
  RelatedCommands : list string;
  Tip : string
}.

Definition dquote : string := String (ascii_of_nat 34) EmptyString.

(** The loop of [explainLogs] over the words of the query: the word after
    the first "logs" that has a word after it. *)
Fixpoint findPodName (words : list string) : string :=
  match words with
  | [] => ""
  | word :: rest =>
      match rest with
      | [] => ""
      | next :: _ => if String.eqb word "logs" then next else findPodName rest
      end
  end.

Definition askProvider (e : Explainer) (prompt : string) : result string :=
  match ai.Generate (aiProvider e) prompt ai.DefaultOptions with
  | Err err => Err err
  | Ok response => Ok (ai.Content response)
  end.

Definition explainLogs (e : Explainer) (query : string) : result string :=
  let words := Strings.Fields query in
  let podName := findPodName words in
  if String.eqb podName "" then
    Ok "Please specify a pod name. Example: kubectl-pilot explain logs mypod"
  else
    match GetPodLogs (k8sClient e) podName "" (namespace e) 50 with
    | Err err => Ok ("Could not retrieve logs: " +:+ err)
    | Ok logs =>
        let prompt :=
"Analyze these Kubernetes pod logs and explain what's happening:

Pod: " +:+ podName +:+ "
Logs:
" +:+ logs +:+ "

Provide:
1. A summary of what the application is doing
2. Any errors or warnings present
3. Recommendations if issues are found" in
        askProvider e prompt
    end.

(** The loop of [explainEvents]: one line per event, the first ten only. *)
Fixpoint summarizeEvents (i : Z) (events : list Event) (eventSummary : string) : string :=
  match events with
  | [] => eventSummary
  | event :: rest =>
      if 10 <=? i then eventSummary
      else
        summarizeEvents (i + 1) rest
          (eventSummary +:+ "- [" +:+ Type_ event +:+ "] " +:+ Reason event +:+ ": "
           +:+ Message event +:+ nl)
  end.

Definition explainEvents (e : Explainer) (query : string) : result string :=
  match GetEvents (k8sClient e) (namespace e) with
  | Err err => Err ("failed to get events: " +:+ err)
  | Ok events =>
      let eventSummary :=
        "Recent events in namespace " +:+ namespace e +:+ ":" +:+ nl +:+ nl in
      let eventSummary := summarizeEvents 0 events eventSummary in
      let prompt :=
"Analyze these Kubernetes events and explain what they mean:

" +:+ eventSummary +:+ "

Provide a summary of cluster activity and any issues that need attention." in
      askProvider e prompt
  end.

Definition explainResource (e : Explainer) (query : string) : result string :=
  let prompt :=
    "User asked: " +:+ dquote +:+ query +:+ dquote +:+ "

Explain this Kubernetes resource or concept clearly and concisely.
Include:
1. What the resource does
2. Common use cases
3. Best practices
4. Example kubectl commands" in
  askProvider e prompt.

Definition explainConcept (e : Explainer) (query : string) : result string :=
  let prompt :=
"Explain this Kubernetes concept or question:

" +:+ dquote +:+ query +:+ dquote +:+ "

Provide a clear, educational explanation that helps the user understand the concept.
Include practical examples and kubectl commands where relevant." in
  askProvider e prompt.

Definition extractCommands (content : string) : list string :=
  fold_left
    (fun commands line =>
       let trimmed := Strings.TrimSpace line in
       if Strings.HasPrefix trimmed "kubectl" then commands ++ [trimmed] else commands)
    (Strings.Split content LF) [].

Section Explain.

Variable ToLower : string -> string.

Definition generateTip (query : string) : string :=
  let queryLower := ToLower query in
  if Strings.Contains queryLower "logs" then
    "Use -f flag to follow logs in real-time: kubectl logs -f <pod>"
  else if Strings.Contains queryLower "events" then
    "Filter events by type with --field-selector: kubectl get events --field-selector type=Warning"
  else if Strings.Contains queryLower "pod" then
    "Use 'kubectl describe pod' to see detailed information including events"
  else "Use 'kubectl explain <resource>' to see detailed documentation".

Definition Explain (e : Explainer) (query : string) : result Explanation :=
  let queryLower := ToLower query in
  let answer :=
    if Strings.Contains queryLower "logs" then explainLogs e query
    else if Strings.Contains queryLower "events" then explainEvents e query
    else if Strings.Contains queryLower "pod" || Strings.Contains queryLower "deployment"
    then explainResource e query
    else explainConcept e query in
  match answer with
  | Err err => Err err
  | Ok content =>
      Ok {| Query := query;
            Answer := content;
            RelatedCommands := extractCommands content;
            Tip := generateTip query |}
  end.

End Explain.

End explain.

(** ** Package [plugins] *)

Module plugins.

Record RemediationStep : Type := {
  StepDescription : string;
  StepCommand : string;
  Action : string;
  StepSafe : bool;
  StepConfidence : string
}.

(** [Issue]; the two free-form maps hold strings in every use the
    repository makes of them. *)
Record Issue : Type := {
  ID : string;
  Severity : string;
  Title : string;
  Description : string;
  Resource : string;
  Namespace : string;
  Type_ : string;
  Details : list (string * string);
  Metadata : list (string * string);
  Remediation : list RemediationStep
}.

Section Registry.

(** The type of the value handed to analyzers ([interface{}]). *)
Context {R : Type}.

(** The [Plugin] interface.  [Analyze] returns a pair, as in Go: the
    issues and an error that is [None] on success. *)
Record Plugin : Type := {
  Name : string;
  Version : string;
  PluginDescription : string;
  Analyze : R -> list Issue * option error
}.

Record Manager : Type := { plugins : gmap string Plugin }.

Definition NewManager : Manager := {| plugins := ∅ |}.

(** [Register] and [Unregister] return the manager after the call and
    the error, [None] for [nil]. *)
Definition Register (m : Manager) (plugin : Plugin) : Manager * option error :=
  let name := Name plugin in
  match plugins m !! name with
  | Some _ => (m, Some ("plugin " +:+ name +:+ " is already registered"))
  | None => ({| plugins := <[name := plugin]> (plugins m) |}, None)
  end.

Definition Unregister (m : Manager) (name : string) : Manager * option error :=
  match plugins m !! name with
  | None => (m, Some ("plugin " +:+ name +:+ " is not registered"))
  | Some _ => ({| plugins := delete name (plugins m) |}, None)
  end.

Definition Exists (m : Manager) (name : string) : bool :=
  bool_decide (is_Some (plugins m !! name)).

Definition Count (m : Manager) : Z := Z.of_nat (size (plugins m)).

Definition Get (m : Manager) (name : string) : result Plugin :=
  match plugins m !! name with
  | Some plugin => Ok plugin
  | None => Err ("plugin " +:+ name +:+ " not found")
  end.

Definition Clear (m : Manager) : Manager := {| plugins := ∅ |}.

Definition Install (m : Manager) (plugin : Plugin) : Manager * option error :=
  Register m plugin.

Definition Uninstall (m : Manager) (name : string) : Manager * option error :=
  Unregister m name.

(** One visit of the entries of [m], keys included. *)
Definition rangeEntries (m : Manager) (entries : list (string * Plugin)) : Prop :=
  entries ≡ₚ map_to_list (plugins m).

(** [List] and [ListNames] along a given visit: each appends to a slice
    that starts empty. *)
Definition ListIn (entries : list (string * Plugin)) : list Plugin :=
  fold_left (fun plugins entry => plugins ++ [entry.2]) entries [].

Definition ListNamesIn (entries : list (string * Plugin)) : list string :=
  fold_left (fun names entry => names ++ [entry.1]) entries [].

(** A [range] over a Go map visits every entry once, in an order the
    language leaves unspecified: [order] is one such visit of [m]. *)
Definition rangeOrder (m : Manager) (order : list Plugin) : Prop :=
  order ≡ₚ (map_to_list (plugins m)).*2.

(** One iteration of the loop of [RunAnalysis]: the lines printed so far
    and the issues collected so far. *)
Definition analysisStep (resource : R) (acc : list string * list Issue)
    (plugin : Plugin) : list string * list Issue :=
  let '(out, allIssues) := acc in
  match Analyze plugin resource with
  | (_, Some err) =>
      (out ++ ["Plugin " +:+ Name plugin +:+ " analysis failed: " +:+ err +:+ nl],
       allIssues)
  | (issues, None) => (out, allIssues ++ issues)
  end.

(** [RunAnalysis] along a given visit order: what is printed, and the
    returned pair. *)
Definition RunAnalysisIn (order : list Plugin) (resource : R)
    : list string * (list Issue * option error) :=
  let '(out, allIssues) := fold_left (analysisStep resource) order ([], []) in
  (out, (allIssues, None)).

(** [RunAnalysis] along the order in which the map lists its entries. *)
Definition RunAnalysis (m : Manager) (resource : R)
    : list string * (list Issue * option error) :=
  RunAnalysisIn (map_to_list (plugins m)).*2 resource.

End Registry.

Arguments Plugin R : clear implicits.
Arguments Manager R : clear implicits.

(** [ExamplePlugin.Analyze] for a plugin whose [initialized] flag is as
    given. *)
Definition ExamplePlugin_Analyze {R : Type} (initialized : bool) (resource : R)
    : list Issue * option error :=
  if negb initialized then ([], None)
  else
    ([ {| ID := "example-001";
          Severity := "low";
          Title := "";
          Description := "This is an example issue detected by the plugin";
          Resource := "example-resource";
          Namespace := "";
          Type_ := "";
          Details := [];
          Metadata := [("type", "example")];
          Remediation := [] |} ],
     None).

Definition NewExamplePlugin {R : Type} : Plugin R :=
  {| Name := "example-detector";
     Version := "1.0.0";
     PluginDescription := "Example diagnostic plugin that detects sample issues";
     Analyze := ExamplePlugin_Analyze true |}.

(** [InstallByName]: the two spellings of the one built-in plugin. *)
Definition InstallByName {R : Type} (m : Manager R) (name : string)
    : Manager R * option error :=
  if String.eqb name "example-detector" || String.eqb name "example" then
    Install m NewExamplePlugin
  else
    (m, Some ("unknown plugin: " +:+ name +:+ " (available: example-detector)")).

End plugins.

(** ** Package [utils] *)

Module utils.

Fixpoint Contains (slice : list string) (item : string) : bool :=
  match slice with
  | [] => false
  | s :: rest => if String.eqb s item then true else Contains rest item
  end.

Fixpoint ContainsAny (s : string) (substrings : list string) : bool :=
  match substrings with
  | [] => false
  | substr :: rest =>
      if Strings.Contains s substr then true else ContainsAny s rest
  end.

Definition FormatResourceName (resourceType name namespace : string) : string :=
  if negb (String.eqb namespace "") && negb (String.eqb namespace "default") then
    resourceType +:+ "/" +:+ name +:+ " (namespace: " +:+ namespace +:+ ")"
  else resourceType +:+ "/" +:+ name.

(** [TruncateString]; [None] stands for the run-time panic of a slice
    expression whose bound is negative or beyond the length. *)
Definition TruncateString (s : string) (maxLen : Z) : option string :=
  if Strings.Len s <=? maxLen then Some s
  else
    let high := Int.sub maxLen 3 in
    if (0 <=? high) && (high <=? Strings.Len s)
    then Some (Strings.sliceTo s (Z.to_nat high) +:+ "...")
    else None.

Definition Pluralize (word : string) (count : Z) : string :=
  if count =? 1 then word else word +:+ "s".

End utils.

(** ** Vocabulary of the statements *)

(** [sub] occurs in [s], byte for byte. *)
Definition Substring (sub s : string) : Prop :=
  exists pre post, s = pre +:+ sub +:+ post.

(** The trimmed line [raw] opens with the marker [m]. *)
Definition isMarker (m raw : string) : bool :=
  Strings.HasPrefix (Strings.TrimSpace raw) m.

(** A well-formed command line: a dash item that has the [|] separator. *)
Definition wellFormedCommandLine (raw : string) : bool :=
  let line := Strings.TrimSpace raw in
  Strings.HasPrefix line "-" && Strings.Contains line "|".

(** What follows a COMMANDS: block: nothing, or a WARNINGS: marker and
    lines none of which reopens a COMMANDS: block. *)
Definition closesBlock (post : list string) : bool :=
  match post with
  | [] => true
  | w :: post' =>
      isMarker "WARNINGS:" w
      && forallb (fun l => negb (isMarker "COMMANDS:" l)) post'
  end.

(** [lines] holds one COMMANDS: block: the lines [pre] before the marker,
    the [marker] line, the lines [block] of the block, and the lines [post]
    from the WARNINGS: marker on. *)
Definition oneCommandsBlock (lines pre : list string) (marker : string)
    (block post : list string) : Prop :=
  lines = pre ++ marker :: block ++ post
  /\ forallb (fun l => negb (isMarker "COMMANDS:" l)) pre = true
  /\ isMarker "COMMANDS:" marker = true
  /\ forallb (fun l => negb (isMarker "WARNINGS:" l)) block = true
  /\ closesBlock post = true.

(** No trimmed line opens with the literal [kubectl]. *)
Definition noBareKubectl (lines : list string) : bool :=
  forallb (fun l => negb (isMarker "kubectl" l)) lines.

(** The command a well-formed line stands for. *)
Definition commandOfLine (p : plan.Planner) (raw : string) : plan.Command.t :=
  plan.commandOfParts p (Strings.Split (Strings.TrimSpace raw) bar).

(** The commands held by a scanner state. *)
Abbreviation Commands_of st := (plan.Plan.Commands (plan.plan st)).

(** Each command of [cmds] carries the planner's dry-run flag. *)
Definition inheritsDryRun (p : plan.Planner) (cmds : list plan.Command.t) : Prop :=
  Forall (fun c => plan.Command.DryRun c = plan.dryRun p) cmds.

(** A problem pod of the namespace scan: not in phase Running, or not
    ready, or restarted more than 3 times. *)
Definition ProblemPod (pod : k8s.PodInfo) : Prop :=
  k8s.Phase pod <> "Running" \/ k8s.Ready pod = false \/ 3 < k8s.Restarts pod.

#[global] Instance ProblemPod_dec pod : Decision (ProblemPod pod).
Proof. unfold ProblemPod. apply _. Defined.

(** The severity the scan gives the issue of a problem pod. *)
Definition podSeverity (pod : k8s.PodInfo) : diagnose.Severity :=
  if decide (10 < k8s.Restarts pod) then diagnose.SeverityHigh
  else diagnose.SeverityMedium.

(** The issue the scan reports for a problem pod. *)
Definition podIssue (pod : k8s.PodInfo) : diagnose.Issue :=
  {| diagnose.ISeverity := podSeverity pod;
     diagnose.Type_ := "";
     diagnose.Resource := "pod/" +:+ k8s.Name pod;
     diagnose.Description :=
       "Pod " +:+ k8s.Name pod +:+ ": Phase=" +:+ k8s.Phase pod
       +:+ ", Ready=" +:+ Fmt.v (k8s.Ready pod)
       +:+ ", Restarts=" +:+ Fmt.d (k8s.Restarts pod) |}.

(** The analyzer [plugin] succeeds on [resource], and what it then
    contributes. *)
Definition succeeds {R : Type} (resource : R) (plugin : plugins.Plugin R) : Prop :=
  (plugins.Analyze plugin resource).2 = None.

#[global] Instance succeeds_dec {R : Type} (resource : R) (plugin : plugins.Plugin R)
  : Decision (succeeds resource plugin).
Proof. unfold succeeds. apply _. Defined.

Definition contribution {R : Type} (resource : R) (plugin : plugins.Plugin R)
    : list plugins.Issue :=
  (plugins.Analyze plugin resource).1.

(** Every plugin of the registry is stored under its own name. *)
Definition keyedByName {R : Type} (m : plugins.Manager R) : Prop :=
  forall name plugin,
    plugins.plugins m !! name = Some plugin -> plugins.Name plugin = name.

(** The calls that change a registry, and a registry after a sequence of
    them. *)
Inductive registryCall (R : Type) : Type :=
| CallRegister (plugin : plugins.Plugin R)
| CallUnregister (name : string)
| CallClear
| CallInstallByName (name : string).
Arguments CallRegister {R} plugin.
Arguments CallUnregister {R} name.
Arguments CallClear {R}.
Arguments CallInstallByName {R} name.

Definition applyCall {R : Type} (m : plugins.Manager R) (call : registryCall R)
    : plugins.Manager R :=
  match call with
  | CallRegister plugin => (plugins.Register m plugin).1
  | CallUnregister name => (plugins.Unregister m name).1
  | CallClear => plugins.Clear m
  | CallInstallByName name => (plugins.InstallByName m name).1
  end.

Definition applyCalls {R : Type} (calls : list (registryCall R)) : plugins.Manager R :=
  fold_left applyCall calls plugins.NewManager.

(** The entry [Execute] records for a command of plan [pl]. *)
Definition executedEntry (pl : plan.Plan.t) (cmd : plan.Command.t) : string :=
  if plan.Plan.DryRun pl && negb (plan.Command.DryRun cmd)
  then "[DRY-RUN] " +:+ plan.Command.Command cmd
  else plan.Command.Command cmd.

(** The summary a SUMMARY: line carries. *)
Definition summaryOfLine (raw : string) : string :=
  Strings.TrimSpace (Strings.TrimPrefix (Strings.TrimSpace raw) "SUMMARY:").

(** What the single-pod inspection deducts for a waiting reason, for a
    container, and for a pod; and how many issues it reports. *)
Definition waitingDeduction (reason : string) : Z :=
  if String.eqb reason "CrashLoopBackOff" then 40
  else if String.eqb reason "ImagePullBackOff" || String.eqb reason "ErrImagePull" then 35
  else 20.

Definition containerDeduction (cs : k8s.ContainerStatus) : Z :=
  match k8s.Waiting cs with
  | Some waiting => waitingDeduction (k8s.Reason waiting)
  | None => 0
  end
  + (if 5 <? k8s.RestartCount cs then 15 else 0).

Definition containerFindings (cs : k8s.ContainerStatus) : nat :=
  (match k8s.Waiting cs with Some _ => 1 | None => 0 end
   + (if (5 <? k8s.RestartCount cs)%Z then 1 else 0))%nat.

Definition podDeduction (pod : k8s.Pod) : Z :=
  (if String.eqb (k8s.StatusPhase pod) "Running" then 0 else 30)
  + foldr Z.add 0 (map containerDeduction (k8s.ContainerStatuses pod)).

Definition podFindings (pod : k8s.Pod) : nat :=
  ((if String.eqb (k8s.StatusPhase pod) "Running" then 0 else 1)
   + foldr Nat.add 0 (map containerFindings (k8s.ContainerStatuses pod)))%nat.

(** A container the inspection has nothing to say about. *)
Definition quietContainer (cs : k8s.ContainerStatus) : Prop :=
  k8s.Waiting cs = None /\ k8s.RestartCount cs <= 5.

(** The restarts of all containers of a pod, and whether all are ready. *)
Definition sumRestarts (pod : corev1.Pod.t) : Z :=
  foldr Z.add 0 (map corev1.ContainerStatus.RestartCount (corev1.Pod.ContainerStatuses pod)).

Definition allReady (pod : corev1.Pod.t) : Prop :=
  Forall (fun cs => corev1.ContainerStatus.Ready cs = true) (corev1.Pod.ContainerStatuses pod).

(** Restart counts as the cluster reports them: not negative, and with a
    sum that fits an [int32]. *)
Definition restartsInRange (pod : corev1.Pod.t) : Prop :=
  Forall (fun cs => 0 <= corev1.ContainerStatus.RestartCount cs)
    (corev1.Pod.ContainerStatuses pod)
  /\ sumRestarts pod <= Int32.max_int.

(** A pod the namespace scan reports, in terms of what the cluster lists. *)
Definition reportedPod (pod : corev1.Pod.t) : Prop :=
  corev1.Pod.Phase pod <> "Running" \/ ~ allReady pod \/ 3 < sumRestarts pod.

#[global] Instance reportedPod_dec pod : Decision (reportedPod pod).
Proof. unfold reportedPod, allReady. apply _. Defined.

(** The provider answers every prompt, or refuses every prompt. *)
Definition alwaysAnswers (provider : ai.Provider) : Prop :=
  forall prompt options, exists response, ai.Generate provider prompt options = Ok response.

Definition neverAnswers (provider : ai.Provider) : Prop :=
  forall prompt options, exists err, ai.Generate provider prompt options = Err err.

(** Settings that make [NewProvider] build one of the stub providers. *)
Definition selectsStub (provider key : string) : Prop :=
  provider = "ollama" \/ ((provider = "openai" \/ provider = "anthropic") /\ key <> "").

#[global] Instance selectsStub_dec provider key : Decision (selectsStub provider key).
Proof. unfold selectsStub. apply _. Defined.


(** ** Sample collaborators *)

(** A provider that answers every prompt with the same text. *)
Definition scriptedProvider (response : string) : ai.Provider :=
  {| ai.Generate := fun _ _ =>
       Ok {| ai.Content := response; ai.Model := "scripted";
             ai.TokensUsed := 0; ai.FinishReason := "stop" |};
     ai.Name := "scripted" |}.

Definition mockConfig : ai.Config :=
  {| ai.Provider_ := ai.ProviderMock; ai.APIKey := ""; ai.BaseURL := "";
     ai.CfgModel := ""; ai.CfgMaxTokens := 0; ai.CfgTemperature := 0%Q |}.

(** The mock provider on ASCII prompts. *)
Definition mockProvider : ai.Provider :=
  {| ai.Generate := ai.MockProvider_Generate Strings.ToLowerASCII mockConfig;
     ai.Name := "mock" |}.

(** [NewPlanner] when no provider is configured in the environment. *)
Definition mockPlanner (namespace : string) (dryRun : bool) : plan.Planner :=
  {| plan.aiProvider := mockProvider; plan.namespace := namespace; plan.dryRun := dryRun |}.

Definition scriptedPlanner (response : string) (dryRun : bool) : plan.Planner :=
  {| plan.aiProvider := scriptedProvider response;
     plan.namespace := "default"; plan.dryRun := dryRun |}.

(** A response in the documented format whose COMMANDS: block is empty. *)
Definition responseNoCommands : string :=
  "SUMMARY: nothing to change" +:+ nl +:+ "COMMANDS:" +:+ nl +:+ nl
  +:+ "WARNINGS:" +:+ nl +:+ "- cluster is healthy".

(** A response in the documented format with two well-formed command
    lines and one line that lacks the separator. *)
Definition responseTwoCommands : string :=
  "Here is the plan." +:+ nl
  +:+ "SUMMARY: replace the web pod" +:+ nl
  +:+ "COMMANDS:" +:+ nl
  +:+ "- kubectl get pods | list the pods | true" +:+ nl
  +:+ "- please review before applying" +:+ nl
  +:+ "- kubectl delete pod web | remove the pod | false" +:+ nl
  +:+ nl
  +:+ "WARNINGS:" +:+ nl
  +:+ "- deleting a pod | restarts it".

(** A response in the documented format with one command line in its
    COMMANDS: block, a sentence before the block and a warning that runs
    over two lines.  The sentence and the second line of the warning open
    with [kubectl] and hold a [|]. *)
Definition responseKubectlOutside : string :=
  "kubectl get pods | grep web shows what is running." +:+ nl
  +:+ "SUMMARY: list the pods" +:+ nl
  +:+ "COMMANDS:" +:+ nl
  +:+ "- kubectl get pods | list the pods | true" +:+ nl
  +:+ "WARNINGS:" +:+ nl
  +:+ "- never run the following by hand:" +:+ nl
  +:+ "kubectl delete pod web | it would drop live traffic".

(** A planner in dry-run mode whose provider sends [responseTwoCommands]. *)
Definition samplePlanner : plan.Planner := scriptedPlanner responseTwoCommands true.

(** A cluster that answers [GetPod] with [pod] and [GetPods] with [pods]. *)
Definition sampleClient (pod : k8s.Pod) (pods : list k8s.PodInfo) : k8s.Client :=
  {| k8s.GetPod := fun _ _ => Ok pod; k8s.GetPods := fun _ => Ok pods |}.

Definition sampleEngine (pod : k8s.Pod) (pods : list k8s.PodInfo) : diagnose.Engine :=
  {| diagnose.k8sClient := sampleClient pod pods;
     diagnose.aiProvider := mockProvider;
     diagnose.namespace := "default";
     diagnose.allNamespaces := false |}.

Definition crashLooping (name : string) : k8s.ContainerStatus :=
  {| k8s.CSName := name;
     k8s.Waiting := Some {| k8s.Reason := "CrashLoopBackOff";
                            k8s.WaitingMessage := "back-off restarting failed container" |};
     k8s.RestartCount := 2 |}.

(** A running pod with three containers in CrashLoopBackOff. *)
Definition crashingPod : k8s.Pod :=
  {| k8s.StatusPhase := "Running";
     k8s.ContainerStatuses := [crashLooping "app"; crashLooping "sidecar"; crashLooping "proxy"] |}.

Definition healthyPod (name : string) : k8s.PodInfo :=
  {| k8s.Name := name; k8s.Namespace := "default"; k8s.Phase := "Running";
     k8s.Restarts := 0; k8s.Ready := true; k8s.ContainerInfos := [] |}.

(** Ten pods, three of them problem pods, none restarted more than 10
    times. *)
Definition tenPods : list k8s.PodInfo :=
  [ healthyPod "web-0"; healthyPod "web-1";
    {| k8s.Name := "db-0"; k8s.Namespace := "default"; k8s.Phase := "Pending";
       k8s.Restarts := 0; k8s.Ready := false; k8s.ContainerInfos := [] |};
    healthyPod "web-2"; healthyPod "web-3";
    {| k8s.Name := "cache-0"; k8s.Namespace := "default"; k8s.Phase := "Running";
       k8s.Restarts := 1; k8s.Ready := false; k8s.ContainerInfos := [] |};
    healthyPod "web-4";
    {| k8s.Name := "job-0"; k8s.Namespace := "default"; k8s.Phase := "Running";
       k8s.Restarts := 7; k8s.Ready := true; k8s.ContainerInfos := [] |};
    healthyPod "web-5"; healthyPod "web-6" ].

(** An analyzer that always fails. *)
Definition brokenPlugin : plugins.Plugin unit :=
  {| plugins.Name := "broken";
     plugins.Version := "0.1.0";
     plugins.PluginDescription := "fails on every resource";
     plugins.Analyze := fun _ => ([], Some "connection refused") |}.

(** A registry holding the example plugin and the failing one. *)
Definition sampleManager : plugins.Manager unit :=
  (plugins.Register (plugins.Register plugins.NewManager brokenPlugin).1
     plugins.NewExamplePlugin).1.

(** A provider that refuses every prompt. *)
Definition failingProvider (message : string) : ai.Provider :=
  {| ai.Generate := fun _ _ => Err message; ai.Name := "failing" |}.

(** A running pod whose one container has restarted 5 times. *)
Definition quietPod : k8s.Pod :=
  {| k8s.StatusPhase := "Running";
     k8s.ContainerStatuses :=
       [{| k8s.CSName := "app"; k8s.Waiting := None; k8s.RestartCount := 5 |}] |}.

(** An engine whose pod list comes from [Client.GetPods] over a cluster
    that answers the list call with [listPods]. *)
Definition listingEngine (listPods : string -> result (list corev1.Pod.t))
    (namespace : string) : diagnose.Engine :=
  {| diagnose.k8sClient :=
       {| k8s.GetPod := fun _ _ => Err "not found";
          k8s.GetPods := k8s.Client_GetPods listPods namespace |};
     diagnose.aiProvider := mockProvider;
     diagnose.namespace := namespace;
     diagnose.allNamespaces := false |}.

Definition sampleContainer (name : string) (ready : bool) (restarts : Z)
    : corev1.ContainerStatus.t :=
  corev1.ContainerStatus.mk name "nginx:1.27" ready restarts None None.

(** Three pods: one fine, one with a container that is not ready, one whose
    two containers restarted 2 times each. *)
Definition listedPods : list corev1.Pod.t :=
  [ corev1.Pod.mk "web-0" "default" "Running" [sampleContainer "app" true 0];
    corev1.Pod.mk "web-1" "default" "Running"
      [sampleContainer "app" true 1; sampleContainer "proxy" false 0];
    corev1.Pod.mk "web-2" "default" "Running"
      [sampleContainer "app" true 2; sampleContainer "proxy" true 2] ].

(** An environment with the three variables of [NewPlanner] set as given. *)
Definition sampleEnv (provider key model : string) (name : string) : string :=
  if String.eqb name "K8S_PILOT_AI_PROVIDER" then provider
  else if String.eqb name "K8S_PILOT_AI_KEY" then key
  else if String.eqb name "K8S_PILOT_AI_MODEL" then model
  else "".

(** An explainer over a cluster without logs, backed by the mock
    provider. *)
Definition sampleExplainer (events : list explain.Event) : explain.Explainer :=
  {| explain.aiProvider := mockProvider;
     explain.k8sClient :=
       {| explain.GetPodLogs := fun _ _ _ _ => Err "pods web not found";
          explain.GetEvents := fun _ => Ok events |};
     explain.namespace := "default" |}.

(** * Properties *)

(** ** Strings *)

Lemma append_cons c s t : String c s +:+ t = String c (s +:+ t).
Proof. reflexivity. Qed.

Lemma append_nil_r s : s +:+ "" = s.
Proof. induction s as [|c s IH]; [reflexivity|]. now rewrite append_cons, IH. Qed.

Lemma length_append s t :
  String.length (s +:+ t) = (String.length s + String.length t)%nat.
Proof.
  induction s as [|c s IH]; [reflexivity|].
  rewrite append_cons. simpl. now rewrite IH.
Qed.

Lemma sliceTo_prefix sub s :
  Strings.sliceTo s (String.length sub) = sub <-> exists post, s = sub +:+ post.
Proof.
  revert s. induction sub as [|a sub IH]; intros s.
  - split; [intros _; now exists s|]. intros _. now destruct s.
  - destruct s as [|c s]; simpl.
    + split; [discriminate|]. intros [post H]. discriminate H.
    + split.
      * intros H. injection H as -> H. apply IH in H as [post ->]. now exists post.
      * intros [post H]. rewrite append_cons in H. injection H as -> H.
        f_equal. apply IH. now exists post.
Qed.

(** The policy gate's [contains], unfolded once. *)
Lemma contains_unfold s substr :
  policy.contains s substr =
  (String.length substr <=? String.length s)%nat
  && (String.eqb s substr
      || (String.length substr <? String.length s)%nat
         && (String.eqb (Strings.sliceTo s (String.length substr)) substr
             || match s with
                | String _ tail => policy.contains tail substr
                | EmptyString => false
                end)).
Proof. destruct s; reflexivity. Qed.

Lemma contains_Substring s sub : policy.contains s sub = true -> Substring sub s.
Proof.
  induction s as [|c s IH]; rewrite contains_unfold; intros H.
  - apply andb_true_iff in H as [_ H]. apply orb_true_iff in H as [H|H].
    + apply String.eqb_eq in H as <-. now exists "", "".
    + apply andb_true_iff in H as [H _]. apply Nat.ltb_lt in H. simpl in H. lia.
  - apply andb_true_iff in H as [_ H]. apply orb_true_iff in H as [H|H].
    + apply String.eqb_eq in H as <-. exists "", "". now rewrite append_nil_r.
    + apply andb_true_iff in H as [_ H]. apply orb_true_iff in H as [H|H].
      * apply String.eqb_eq in H. apply sliceTo_prefix in H as [post ->].
        now exists "", post.
      * destruct (IH H) as (pre & post & ->). now exists (String c pre), post.
Qed.

Lemma Substring_contains s sub : Substring sub s -> policy.contains s sub = true.
Proof.
  intros (pre & post & ->). induction pre as [|c pre IH].
  - change ("" +:+ sub +:+ post) with (sub +:+ post).
    rewrite contains_unfold, length_append.
    replace (String.length sub <=? String.length sub + String.length post)%nat
      with true by (symmetry; apply Nat.leb_le; lia).
    destruct post as [|d post].
    + now rewrite append_nil_r, String.eqb_refl.
    + replace (String.length sub <? String.length sub + String.length (String d post))%nat
        with true by (symmetry; apply Nat.ltb_lt; simpl; lia).
      replace (Strings.sliceTo (sub +:+ String d post) (String.length sub)) with sub
        by (symmetry; apply sliceTo_prefix; now eexists).
      rewrite String.eqb_refl. simpl. apply orb_true_r.
  - rewrite append_cons, contains_unfold, IH.
    replace (String.length sub <=? String.length (String c (pre +:+ sub +:+ post)))%nat
      with true by (symmetry; apply Nat.leb_le; simpl; rewrite !length_append; lia).
    replace (String.length sub <? String.length (String c (pre +:+ sub +:+ post)))%nat
      with true by (symmetry; apply Nat.ltb_lt; simpl; rewrite !length_append; lia).
    rewrite !orb_true_r. reflexivity.
Qed.

(** [contains] decides byte-exact occurrence. *)
Lemma contains_iff s sub : policy.contains s sub = true <-> Substring sub s.
Proof. split; [apply contains_Substring | apply Substring_contains]. Qed.

Lemma not_Substring_contains s sub : ~ Substring sub s -> policy.contains s sub = false.
Proof.
  intros H. destruct (policy.contains s sub) eqn:E; [|reflexivity].
  now apply contains_iff in E.
Qed.

(** ** Policy gate *)

(** The scan over the dangerous operations only ever appends warnings. *)
Lemma scanDangerousOps_extends command ops warnings :
  exists extra, policy.scanDangerousOps command ops warnings = warnings ++ extra.
Proof.
  revert warnings. induction ops as [|op ops IH]; intros warnings; simpl.
  - exists []. now rewrite app_nil_r.
  - destruct (policy.contains command op).
    + destruct (IH (warnings ++ ["Potentially dangerous operation detected: " +:+ op]))
        as [extra ->].
      rewrite <- app_assoc. now eexists.
    + apply IH.
Qed.

Lemma scanDangerousOps_delete command :
  policy.contains command "delete" = true ->
  policy.scanDangerousOps command policy.dangerousOps [] <> [].
Proof.
  intros H. unfold policy.dangerousOps.
  change (policy.scanDangerousOps command ["delete"; "drain"; "cordon"] [])
    with (policy.scanDangerousOps command ["drain"; "cordon"]
            (if policy.contains command "delete"
             then [] ++ ["Potentially dangerous operation detected: " +:+ "delete"]
             else [])).
  rewrite H.
  destruct (scanDangerousOps_extends command ["drain"; "cordon"]
              ([] ++ ["Potentially dangerous operation detected: " +:+ "delete"]))
    as [extra ->].
  discriminate.
Qed.

Ltac case_contains :=
  repeat match goal with
         | |- context [policy.contains ?c ?m] => destruct (policy.contains c m)
         end.

(** C5. Whether enforcement is enabled or not, the result of
    [ValidateCommand] has [Allowed = false] exactly when its list of
    violations is not empty. *)
Theorem ValidateCommand_allowed_iff_no_violation (v : policy.Validator) (command : string) :
  exists r, policy.ValidateCommand v command = Ok r
            /\ (policy.Allowed r = false <-> policy.Violations r <> []).
Proof.
  unfold policy.ValidateCommand.
  destruct (policy.enabled v); cbn [negb].
  - eexists. split; [reflexivity|].
    cbn -[policy.scanDangerousOps policy.contains].
    generalize (policy.scanDangerousOps command policy.dangerousOps []); intros ws.
    case_contains; cbn; split; intros H; congruence.
  - eexists. split; [reflexivity|]. cbn. split; intros H; congruence.
Qed.

(** C6. With enforcement enabled, a command in which "privileged" occurs is
    denied with a violation of high severity; a command in which "delete"
    occurs and none of "privileged", "hostNetwork", "runAsUser: 0" does is
    allowed, without violation and with at least one warning. *)
Theorem ValidateCommand_privileged_delete (v : policy.Validator) (command : string)
    (Henabled : policy.enabled v = true) :
  exists r, policy.ValidateCommand v command = Ok r
    /\ (Substring "privileged" command ->
        policy.Allowed r = false
        /\ exists viol, In viol (policy.Violations r)
                        /\ policy.VSeverity viol = policy.SeverityHigh)
    /\ (Substring "delete" command ->
        ~ Substring "privileged" command ->
        ~ Substring "hostNetwork" command ->
        ~ Substring "runAsUser: 0" command ->
        policy.Allowed r = true
        /\ policy.Violations r = []
        /\ policy.Warnings r <> []).
Proof.
  unfold policy.ValidateCommand. rewrite Henabled. cbn [negb].
  eexists. split; [reflexivity|]. split.
  - intros Hp%Substring_contains. rewrite Hp.
    cbn -[policy.scanDangerousOps policy.contains].
    generalize (policy.scanDangerousOps command policy.dangerousOps []); intros ws.
    case_contains; cbn; (split; [reflexivity|]); eexists; (split; [left; reflexivity|]);
      reflexivity.
  - intros Hd%Substring_contains Hp%not_Substring_contains
      Hh%not_Substring_contains Hr%not_Substring_contains.
    rewrite Hp, Hh, Hr.
    cbn -[policy.scanDangerousOps policy.contains].
    pose proof (scanDangerousOps_delete command Hd) as Hw.
    revert Hw.
    generalize (policy.scanDangerousOps command policy.dangerousOps []); intros ws Hw.
    case_contains; cbn; (split; [reflexivity|]); (split; [reflexivity|]);
      try assumption; destruct ws; cbn; try discriminate; congruence.
Qed.

Lemma ValidateCommand_privileged_delete_witness :
  (exists r, policy.ValidateCommand (policy.NewValidator true)
               "kubectl run web --privileged" = Ok r
             /\ policy.Allowed r = false
             /\ exists viol, In viol (policy.Violations r)
                             /\ policy.VSeverity viol = policy.SeverityHigh)
  /\ (exists r, policy.ValidateCommand (policy.NewValidator true)
                  "kubectl delete pod web" = Ok r
                /\ policy.Allowed r = true
                /\ policy.Violations r = []
                /\ policy.Warnings r <> []).
Proof.
  split.
  - destruct (ValidateCommand_privileged_delete (policy.NewValidator true)
                "kubectl run web --privileged" eq_refl) as (r & Hr & Hpriv & _).
    exists r. split; [exact Hr|]. apply Hpriv.
    exists "kubectl run web --", "". reflexivity.
  - destruct (ValidateCommand_privileged_delete (policy.NewValidator true)
                "kubectl delete pod web" eq_refl) as (r & Hr & _ & Hdel).
    exists r. split; [exact Hr|]. apply Hdel.
    + exists "kubectl ", " pod web". reflexivity.
    + intros H%Substring_contains. vm_compute in H. discriminate H.
    + intros H%Substring_contains. vm_compute in H. discriminate H.
    + intros H%Substring_contains. vm_compute in H. discriminate H.
Defined.

(** C2. The scan compares bytes exactly, so letter case changes the
    verdict: "privileged" is denied and its upper-cased variant is allowed
    without any violation; likewise the warning for "delete" is lost. *)
Theorem ValidateCommand_depends_on_case :
  Strings.ToUpperASCII "kubectl run web --privileged" = "KUBECTL RUN WEB --PRIVILEGED"
  /\ policy.ValidateCommand (policy.NewValidator true) "kubectl run web --privileged"
     = Ok {| policy.Allowed := false;
             policy.Violations :=
               [{| policy.Policy := "no-privileged-containers";
                   policy.VSeverity := policy.SeverityHigh;
                   policy.Message := "Privileged containers are not allowed" |}];
             policy.Warnings := [] |}
  /\ policy.ValidateCommand (policy.NewValidator true) "KUBECTL RUN WEB --PRIVILEGED"
     = Ok {| policy.Allowed := true; policy.Violations := []; policy.Warnings := [] |}
  /\ policy.ValidateCommand (policy.NewValidator true) "kubectl delete pod web"
     = Ok {| policy.Allowed := true;
             policy.Violations := [];
             policy.Warnings := ["Potentially dangerous operation detected: delete"] |}
  /\ policy.ValidateCommand (policy.NewValidator true) "kubectl DELETE pod web"
     = Ok {| policy.Allowed := true; policy.Violations := []; policy.Warnings := [] |}.
Proof. repeat split; vm_compute; reflexivity. Qed.

(** ** Plan pipeline: the scanner *)

Lemma HasPrefix_head_ne a b m1 m2 s :
  a <> b ->
  Strings.HasPrefix s (String a m1) = true ->
  Strings.HasPrefix s (String b m2) = false.
Proof.
  intros Hab. destruct s as [|c s]; simpl; [discriminate|].
  destruct (Ascii.eqb_spec c a) as [->|]; [|discriminate].
  intros _. destruct (Ascii.eqb_spec a b); [contradiction|reflexivity].
Qed.

Lemma Split_nonempty s sep : Strings.Split s sep <> [].
Proof.
  destruct s as [|c s]; simpl; [discriminate|].
  destruct (Ascii.eqb c sep); [discriminate|].
  destruct (Strings.Split s sep); discriminate.
Qed.

(** A line splits into two fields or more exactly when it has the
    separator. *)
Lemma Split_two_fields s sep :
  (2 <=? length (Strings.Split s sep))%nat = Strings.Contains s (String sep "").
Proof.
  induction s as [|c s IH]; [reflexivity|].
  cbn [Strings.Split Strings.Contains Strings.HasPrefix].
  destruct (Ascii.eqb c sep) eqn:E.
  - cbn [andb orb length].
    pose proof (Split_nonempty s sep).
    destruct (Strings.Split s sep); [contradiction|reflexivity].
  - cbn [andb orb]. rewrite <- IH.
    pose proof (Split_nonempty s sep).
    destruct (Strings.Split s sep); [contradiction|reflexivity].
Qed.

(** Outside a COMMANDS: block a line that is neither the COMMANDS: marker
    nor a bare [kubectl] line leaves the commands as they are. *)
Lemma scanLine_outside p st raw :
  plan.inCommands st = false ->
  isMarker "COMMANDS:" raw = false ->
  isMarker "kubectl" raw = false ->
  plan.inCommands (plan.scanLine p st raw) = false
  /\ Commands_of (plan.scanLine p st raw) = Commands_of st.
Proof.
  unfold isMarker, plan.scanLine. intros Hin Hc Hk.
  rewrite Hin, Hc, Hk. cbn [andb orb].
  destruct (Strings.HasPrefix _ "SUMMARY:"); [now split|].
  destruct (Strings.HasPrefix _ "WARNINGS:"); [now split|].
  cbn [plan.inCommands plan.plan]. split; [reflexivity|].
  destruct (plan.inWarnings st && _); [|reflexivity].
  destruct (negb _); reflexivity.
Qed.

(** Inside the block a line adds a command exactly when it is
    well-formed. *)
Lemma scanLine_inside p st raw :
  plan.inCommands st = true ->
  plan.inWarnings st = false ->
  isMarker "WARNINGS:" raw = false ->
  isMarker "kubectl" raw = false ->
  plan.inCommands (plan.scanLine p st raw) = true
  /\ plan.inWarnings (plan.scanLine p st raw) = false
  /\ Commands_of (plan.scanLine p st raw)
     = Commands_of st
       ++ (if wellFormedCommandLine raw then [commandOfLine p raw] else []).
Proof.
  unfold isMarker, wellFormedCommandLine, commandOfLine, plan.scanLine.
  intros Hin Hw Hm Hk. rewrite Hin, Hw, Hm, Hk. cbn [andb orb].
  set (line := Strings.TrimSpace raw).
  destruct (Strings.HasPrefix line "SUMMARY:") eqn:Hs.
  { rewrite (HasPrefix_head_ne "S" "-" "UMMARY:" "" line) by (discriminate || assumption).
    cbn. now rewrite app_nil_r. }
  destruct (Strings.HasPrefix line "COMMANDS:") eqn:Hc.
  { rewrite (HasPrefix_head_ne "C" "-" "OMMANDS:" "" line) by (discriminate || assumption).
    cbn. now rewrite app_nil_r. }
  cbn [plan.inCommands plan.inWarnings plan.plan]. do 2 (split; [reflexivity|]).
  rewrite orb_false_r.
  destruct (Strings.HasPrefix line "-"); cbn [andb].
  - rewrite Split_two_fields. change (String bar "") with "|".
    destruct (Strings.Contains line "|"); [reflexivity|]. now rewrite app_nil_r.
  - now rewrite app_nil_r.
Qed.

Lemma scanLine_COMMANDS p st raw :
  isMarker "COMMANDS:" raw = true ->
  plan.scanLine p st raw
  = {| plan.plan := plan.plan st; plan.inCommands := true; plan.inWarnings := false |}.
Proof.
  unfold isMarker, plan.scanLine. intros H.
  rewrite (HasPrefix_head_ne "C" "S" "OMMANDS:" "UMMARY:" _) by (discriminate || assumption).
  now rewrite H.
Qed.

Lemma scanLine_WARNINGS p st raw :
  isMarker "WARNINGS:" raw = true ->
  plan.scanLine p st raw
  = {| plan.plan := plan.plan st; plan.inCommands := false; plan.inWarnings := true |}.
Proof.
  unfold isMarker, plan.scanLine. intros H.
  rewrite (HasPrefix_head_ne "W" "S" "ARNINGS:" "UMMARY:" _) by (discriminate || assumption).
  rewrite (HasPrefix_head_ne "W" "C" "ARNINGS:" "OMMANDS:" _) by (discriminate || assumption).
  now rewrite H.
Qed.

Lemma scan_outside p lines : forall st,
  plan.inCommands st = false ->
  forallb (fun l => negb (isMarker "COMMANDS:" l)) lines = true ->
  noBareKubectl lines = true ->
  plan.inCommands (fold_left (plan.scanLine p) lines st) = false
  /\ Commands_of (fold_left (plan.scanLine p) lines st) = Commands_of st.
Proof.
  unfold noBareKubectl.
  induction lines as [|raw lines IH]; intros st Hin Hc Hk; [now split|].
  cbn [forallb] in Hc, Hk.
  apply andb_true_iff in Hc as [Hc Hcs]. apply andb_true_iff in Hk as [Hk Hks].
  apply negb_true_iff in Hc, Hk.
  destruct (scanLine_outside p st raw Hin Hc Hk) as [Hin' Hcmds].
  cbn [fold_left]. destruct (IH _ Hin' Hcs Hks) as [? ->]. now split.
Qed.

Lemma scan_inside p block : forall st,
  plan.inCommands st = true ->
  plan.inWarnings st = false ->
  forallb (fun l => negb (isMarker "WARNINGS:" l)) block = true ->
  noBareKubectl block = true ->
  plan.inCommands (fold_left (plan.scanLine p) block st) = true
  /\ plan.inWarnings (fold_left (plan.scanLine p) block st) = false
  /\ Commands_of (fold_left (plan.scanLine p) block st)
     = Commands_of st ++ map (commandOfLine p) (List.filter wellFormedCommandLine block).
Proof.
  unfold noBareKubectl.
  induction block as [|raw block IH]; intros st Hin Hw Hm Hk.
  { cbn. now rewrite app_nil_r. }
  cbn [forallb] in Hm, Hk.
  apply andb_true_iff in Hm as [Hm Hms]. apply andb_true_iff in Hk as [Hk Hks].
  apply negb_true_iff in Hm, Hk.
  destruct (scanLine_inside p st raw Hin Hw Hm Hk) as (Hin' & Hw' & Hcmds).
  cbn [fold_left List.filter].
  destruct (IH _ Hin' Hw' Hms Hks) as (? & ? & ->).
  do 2 (split; [assumption|]). rewrite Hcmds, <- app_assoc.
  now destruct (wellFormedCommandLine raw).
Qed.

Lemma scan_post p post st :
  closesBlock post = true ->
  noBareKubectl post = true ->
  Commands_of (fold_left (plan.scanLine p) post st) = Commands_of st.
Proof.
  destruct post as [|w post]; [reflexivity|].
  unfold noBareKubectl. cbn [closesBlock forallb fold_left].
  intros [Hw Hc]%andb_true_iff [_ Hk]%andb_true_iff.
  rewrite (scanLine_WARNINGS p st w Hw).
  now destruct (scan_outside p post
                  {| plan.plan := plan.plan st; plan.inCommands := false;
                     plan.inWarnings := true |} eq_refl Hc Hk) as [_ ->].
Qed.

Lemma noBareKubectl_app l1 l2 :
  noBareKubectl (l1 ++ l2) = noBareKubectl l1 && noBareKubectl l2.
Proof. unfold noBareKubectl. apply forallb_app. Qed.

(** The scanner on a response with one COMMANDS: block and no bare
    [kubectl] line: the commands are those of the well-formed lines of the
    block, in order. *)
Lemma scanResponse_one_block p response query pre marker block post :
  oneCommandsBlock (Strings.Split response LF) pre marker block post ->
  noBareKubectl (Strings.Split response LF) = true ->
  Commands_of (plan.scanResponse p response query)
  = map (commandOfLine p) (List.filter wellFormedCommandLine block).
Proof.
  intros (Hlines & Hpre & Hmarker & Hblock & Hpost) Hk.
  unfold plan.scanResponse. rewrite Hlines in *.
  rewrite noBareKubectl_app in Hk. apply andb_true_iff in Hk as [Hkpre Hk].
  change (marker :: block ++ post) with ([marker] ++ block ++ post) in Hk.
  rewrite !noBareKubectl_app in Hk.
  apply andb_true_iff in Hk as [_ Hk]. apply andb_true_iff in Hk as [Hkblock Hkpost].
  rewrite fold_left_app. cbn [fold_left]. rewrite fold_left_app.
  rewrite scan_post by assumption.
  rewrite (scanLine_COMMANDS p _ marker Hmarker).
  destruct (scan_inside p block
              {| plan.plan :=
                   plan.plan (fold_left (plan.scanLine p) pre (plan.initialState p query));
                 plan.inCommands := true; plan.inWarnings := false |}
              eq_refl eq_refl Hblock Hkblock) as (_ & _ & ->).
  cbn [plan.plan].
  now destruct (scan_outside p pre (plan.initialState p query) eq_refl Hpre Hkpre)
    as [_ ->].
Qed.

(** Away from lines that open with [kubectl] the scanner keeps to the
    block.  For a response with one COMMANDS: block in which no trimmed line
    opens with [kubectl], it extracts exactly the well-formed
    [- cmd | desc | safe] lines of the block, in order: lines without the
    separator and lines outside the block add nothing.  The plan returned
    holds these commands when there is at least one (so their number is the
    number of well-formed lines) and the single placeholder when there is
    none. *)
Lemma parseResponse_commands_of_block p response query pre marker block post :
  oneCommandsBlock (Strings.Split response LF) pre marker block post ->
  noBareKubectl (Strings.Split response LF) = true ->
  let wellFormed := List.filter wellFormedCommandLine block in
  Commands_of (plan.scanResponse p response query) = map (commandOfLine p) wellFormed
  /\ (wellFormed <> [] ->
      plan.Plan.Commands (plan.parseResponse p response query)
      = map (commandOfLine p) wellFormed
      /\ length (plan.Plan.Commands (plan.parseResponse p response query))
         = length wellFormed)
  /\ (wellFormed = [] ->
      plan.Plan.Commands (plan.parseResponse p response query)
      = [plan.placeholder p query]).
Proof.
  intros Hblock Hk wellFormed.
  pose proof (scanResponse_one_block p response query pre marker block post Hblock Hk)
    as Hscan.
  fold wellFormed in Hscan. split; [exact Hscan|].
  unfold plan.parseResponse. cbv zeta. rewrite Hscan. split; intros Hwf.
  - destruct wellFormed as [|l wellFormed']; [contradiction|].
    cbn [map length Nat.eqb]. rewrite Hscan. split; [reflexivity|].
    cbn [map length]. now rewrite length_map.
  - rewrite Hwf. cbn [map length Nat.eqb]. unfold plan.appendCommand.
    cbn [plan.Plan.Commands]. now rewrite Hscan, Hwf.
Qed.

Lemma parseResponse_commands_of_block_witness :
  plan.Plan.Commands (plan.parseResponse samplePlanner responseTwoCommands "replace web")
  = [ plan.Command.mk "kubectl get pods" "list the pods" true true;
      plan.Command.mk "kubectl delete pod web" "remove the pod" false true ]
  /\ plan.Plan.Commands (plan.parseResponse samplePlanner responseNoCommands "replace web")
     = [plan.placeholder samplePlanner "replace web"].
Proof.
  split.
  - refine (proj1 (proj1 (proj2
      (parseResponse_commands_of_block samplePlanner responseTwoCommands "replace web"
         ["Here is the plan."; "SUMMARY: replace the web pod"]
         "COMMANDS:"
         ["- kubectl get pods | list the pods | true";
          "- please review before applying";
          "- kubectl delete pod web | remove the pod | false";
          ""]
         ["WARNINGS:"; "- deleting a pod | restarts it"] _ _)) _)).
    + repeat split; vm_compute; reflexivity.
    + vm_compute; reflexivity.
    + vm_compute. discriminate.
  - refine (proj2 (proj2
      (parseResponse_commands_of_block samplePlanner responseNoCommands "replace web"
         ["SUMMARY: nothing to change"] "COMMANDS:" [""]
         ["WARNINGS:"; "- cluster is healthy"] _ _)) _).
    + repeat split; vm_compute; reflexivity.
    + vm_compute; reflexivity.
    + vm_compute; reflexivity.
Defined.

(** The guard of the command branch reads
    [inCommands && HasPrefix(line, "-") || HasPrefix(line, "kubectl")]:
    the conjunction binds tighter, so the second alternative is not under
    the mode flag.  A line whose trimmed text opens with [kubectl] and holds
    the separator is appended as a command in every state of the scanner. *)
Lemma scanLine_kubectl_line p st raw :
  isMarker "kubectl" raw = true ->
  Strings.Contains (Strings.TrimSpace raw) "|" = true ->
  Commands_of (plan.scanLine p st raw) = Commands_of st ++ [commandOfLine p raw].
Proof.
  unfold isMarker, commandOfLine, plan.scanLine. intros Hk Hbar.
  set (line := Strings.TrimSpace raw) in *.
  rewrite (HasPrefix_head_ne "k" "S" "ubectl" "UMMARY:" line) by (discriminate || assumption).
  rewrite (HasPrefix_head_ne "k" "C" "ubectl" "OMMANDS:" line) by (discriminate || assumption).
  rewrite (HasPrefix_head_ne "k" "W" "ubectl" "ARNINGS:" line) by (discriminate || assumption).
  rewrite (HasPrefix_head_ne "k" "-" "ubectl" "" line) by (discriminate || assumption).
  rewrite Hk, !andb_false_r. cbn [orb plan.plan].
  rewrite Split_two_fields. change (String bar "") with "|". now rewrite Hbar.
Qed.

(** C4. The scanner parses lines outside the COMMANDS: block as commands.
    In every state, also before COMMANDS: and after WARNINGS:, a line that
    opens with [kubectl] and holds the separator is appended to the
    commands.  So on [responseKubectlOutside], which has one COMMANDS: block
    with one well-formed command line, the plan holds three commands: the
    sentence before the block, the line of the block, and the second line
    of the warning, all three marked safe. *)
Theorem parseResponse_kubectl_outside_block :
  (forall p st raw,
     isMarker "kubectl" raw = true ->
     Strings.Contains (Strings.TrimSpace raw) "|" = true ->
     Commands_of (plan.scanLine p st raw) = Commands_of st ++ [commandOfLine p raw])
  /\ oneCommandsBlock (Strings.Split responseKubectlOutside LF)
       ["kubectl get pods | grep web shows what is running."; "SUMMARY: list the pods"]
       "COMMANDS:"
       ["- kubectl get pods | list the pods | true"]
       ["WARNINGS:"; "- never run the following by hand:";
        "kubectl delete pod web | it would drop live traffic"]
  /\ List.filter wellFormedCommandLine ["- kubectl get pods | list the pods | true"]
     = ["- kubectl get pods | list the pods | true"]
  /\ Commands_of
       (plan.scanResponse (scriptedPlanner responseKubectlOutside true)
          responseKubectlOutside "list pods")
     = [ plan.Command.mk "kubectl get pods" "grep web shows what is running." true true;
         plan.Command.mk "kubectl get pods" "list the pods" true true;
         plan.Command.mk "kubectl delete pod web" "it would drop live traffic" true true ]
  /\ plan.Plan.Commands
       (plan.parseResponse (scriptedPlanner responseKubectlOutside true)
          responseKubectlOutside "list pods")
     = Commands_of
         (plan.scanResponse (scriptedPlanner responseKubectlOutside true)
            responseKubectlOutside "list pods")
  /\ plan.Plan.Warnings
       (plan.parseResponse (scriptedPlanner responseKubectlOutside true)
          responseKubectlOutside "list pods")
     = ["never run the following by hand:"].
Proof.
  split; [exact scanLine_kubectl_line|].
  split; [repeat split; vm_compute; reflexivity|].
  repeat split; vm_compute; reflexivity.
Qed.

(** A line that opens with [kubectl] and has the separator is taken as a
    command in every state, here before the COMMANDS: marker. *)
Example scanResponse_bare_kubectl :
  let response :=
    "kubectl get pods | grep web" +:+ nl +:+ "COMMANDS:" +:+ nl
    +:+ "- kubectl get pods | list the pods" in
  map plan.Command.Command
      (Commands_of (plan.scanResponse (scriptedPlanner response true) response "q"))
  = ["kubectl get pods"; "kubectl get pods"].
Proof. vm_compute. reflexivity. Qed.

(** C7. When the scanner extracts no command from the response, the plan
    holds exactly one command, the placeholder built from the query, and it
    is marked safe. *)
Theorem parseResponse_placeholder p response query :
  Commands_of (plan.scanResponse p response query) = [] ->
  plan.Plan.Commands (plan.parseResponse p response query) = [plan.placeholder p query]
  /\ plan.Command.Command (plan.placeholder p query) = "# Generated from: " +:+ query
  /\ plan.Command.Safe (plan.placeholder p query) = true.
Proof.
  intros H. unfold plan.parseResponse. cbv zeta. rewrite H. cbn [length Nat.eqb].
  unfold plan.appendCommand. cbn [plan.Plan.Commands]. rewrite H.
  repeat split; reflexivity.
Qed.

Lemma parseResponse_placeholder_witness :
  plan.Plan.Commands
    (plan.parseResponse (mockPlanner "" true)
       "To scale the deployment: see the documentation." "scale web")
  = [plan.placeholder (mockPlanner "" true) "scale web"]
  /\ plan.Command.Command (plan.placeholder (mockPlanner "" true) "scale web")
     = "# Generated from: " +:+ "scale web"
  /\ plan.Command.Safe (plan.placeholder (mockPlanner "" true) "scale web") = true.
Proof.
  apply (parseResponse_placeholder (mockPlanner "" true)
           "To scale the deployment: see the documentation." "scale web").
  vm_compute. reflexivity.
Defined.

(** The fallback carries over to [Generate]: the plan it returns is never
    without a command. *)
Lemma Generate_commands_nonempty p query pl :
  plan.Generate p query = Ok pl -> plan.Plan.Commands pl <> [].
Proof.
  unfold plan.Generate.
  destruct (ai.Generate _ _ _) as [response|]; [|discriminate].
  intros [= <-]. unfold plan.setDryRun, plan.parseResponse. cbv zeta.
  cbn [plan.Plan.Commands].
  destruct (plan.Plan.Commands (plan.plan (plan.scanResponse p _ query))) eqn:E;
    cbn [length Nat.eqb].
  - unfold plan.appendCommand. cbn [plan.Plan.Commands]. rewrite E. discriminate.
  - rewrite E. discriminate.
Qed.

(** ** Plan pipeline: dry-run and execution *)

(** Every command the scanner builds carries the planner's dry-run flag. *)
Lemma scanLine_inheritsDryRun p st raw :
  inheritsDryRun p (Commands_of st) ->
  inheritsDryRun p (Commands_of (plan.scanLine p st raw)).
Proof.
  unfold inheritsDryRun, plan.scanLine. intros H.
  repeat match goal with
         | |- context [if ?b then _ else _] => destruct b
         end;
    cbn [plan.plan plan.setSummary plan.appendCommand plan.appendWarning
         plan.Plan.Commands];
    try assumption;
    apply Forall_app; (split; [assumption|]); repeat constructor.
Qed.

Lemma scanResponse_inheritsDryRun p response query :
  inheritsDryRun p (Commands_of (plan.scanResponse p response query)).
Proof.
  unfold plan.scanResponse.
  assert (H : inheritsDryRun p (Commands_of (plan.initialState p query)))
    by constructor.
  revert H. generalize (plan.initialState p query).
  induction (Strings.Split response LF) as [|raw lines IH]; intros st H; [exact H|].
  cbn [fold_left]. apply IH. now apply scanLine_inheritsDryRun.
Qed.

(** A plan that [Generate] returns has the planner's dry-run flag, and so
    has each of its commands. *)
Lemma Generate_inheritsDryRun p query pl :
  plan.Generate p query = Ok pl ->
  plan.Plan.DryRun pl = plan.dryRun p
  /\ inheritsDryRun p (plan.Plan.Commands pl).
Proof.
  unfold plan.Generate.
  destruct (ai.Generate _ _ _) as [response|]; [|discriminate].
  intros [= <-]. split; [reflexivity|].
  unfold plan.setDryRun, plan.parseResponse. cbv zeta. cbn [plan.Plan.Commands].
  pose proof (scanResponse_inheritsDryRun p (ai.Content response) query) as H.
  destruct (length _ =? 0)%nat; [|exact H].
  unfold plan.appendCommand. cbn [plan.Plan.Commands].
  apply Forall_app. split; [exact H|]. repeat constructor.
Qed.

Lemma Execute_fold pl cmds : forall acc,
  Forall (fun c => plan.Command.DryRun c = plan.Plan.DryRun pl) cmds ->
  fold_left (plan.executeStep pl) cmds acc
  = {| plan.ExecutedCommands :=
         plan.ExecutedCommands acc ++ map plan.Command.Command cmds;
       plan.Errors := plan.Errors acc |}.
Proof.
  induction cmds as [|c cmds IH]; intros acc H.
  - cbn. rewrite app_nil_r. now destruct acc.
  - inversion H as [|? ? Hc Hcs]; subst. cbn [fold_left map].
    rewrite (IH _ Hcs). unfold plan.executeStep. rewrite Hc.
    destruct (plan.Plan.DryRun pl); cbn [andb negb plan.ExecutedCommands plan.Errors];
      now rewrite <- app_assoc.
Qed.

(** When every command carries the plan's own flag, [Execute] takes the
    branch that hands the command over for each of them, in dry-run mode
    as well. *)
Lemma Execute_same_flag pl :
  Forall (fun c => plan.Command.DryRun c = plan.Plan.DryRun pl) (plan.Plan.Commands pl) ->
  plan.Execute pl
  = Ok {| plan.ExecutedCommands := map plan.Command.Command (plan.Plan.Commands pl);
          plan.Errors := [] |}.
Proof. intros H. unfold plan.Execute. now rewrite (Execute_fold pl _ _ H). Qed.

(** No plan of the pipeline reaches the preview branch of [Execute]. *)
Lemma Generate_Execute p query pl :
  plan.Generate p query = Ok pl ->
  plan.Execute pl
  = Ok {| plan.ExecutedCommands := map plan.Command.Command (plan.Plan.Commands pl);
          plan.Errors := [] |}.
Proof.
  intros [Hflag Hcmds]%Generate_inheritsDryRun. apply Execute_same_flag.
  unfold inheritsDryRun in Hcmds. now rewrite Hflag.
Qed.

(** C3. In dry-run mode the plan generated from a response with two
    commands has its flag set, as has each command, and [Execute] records
    both commands as handed over, none as a preview entry; the same holds
    for the placeholder plan the mock provider leads to. *)
Theorem Execute_dry_run_plan_hands_over :
  (exists pl,
      plan.Generate samplePlanner "replace web" = Ok pl
      /\ plan.Plan.DryRun pl = true
      /\ map plan.Command.DryRun (plan.Plan.Commands pl) = [true; true]
      /\ plan.Execute pl
         = Ok {| plan.ExecutedCommands := ["kubectl get pods"; "kubectl delete pod web"];
                 plan.Errors := [] |})
  /\ (exists pl,
         plan.Generate (mockPlanner "" true) "restart pods" = Ok pl
         /\ plan.Plan.DryRun pl = true
         /\ plan.Execute pl
            = Ok {| plan.ExecutedCommands := ["# Generated from: restart pods"];
                    plan.Errors := [] |}).
Proof.
  split; eexists; (split; [vm_compute; reflexivity|]); repeat split; vm_compute; reflexivity.
Qed.

(** ** Diagnostics: machine integers *)

Lemma wrap_in_range z : Int.min_int <= z <= Int.max_int -> Int.wrap z = z.
Proof.
  unfold Int.wrap, Int.min_int, Int.max_int. intros H.
  rewrite Z.mod_small by lia. lia.
Qed.

(** ** Diagnostics: the namespace scan *)

Lemma checkPod_condition pod :
  negb (String.eqb (k8s.Phase pod) "Running") || negb (k8s.Ready pod)
  || (3 <? k8s.Restarts pod)
  = bool_decide (ProblemPod pod).
Proof.
  destruct (decide (ProblemPod pod)) as [H|H].
  - rewrite bool_decide_eq_true_2 by assumption. destruct H as [H|[H|H]].
    + apply String.eqb_neq in H. now rewrite H.
    + rewrite H. cbn [negb]. now rewrite orb_true_r.
    + apply Z.ltb_lt in H. rewrite H. apply orb_true_r.
  - rewrite bool_decide_eq_false_2 by assumption. unfold ProblemPod in H.
    destruct (String.eqb_spec (k8s.Phase pod) "Running") as [E|E];
      [|exfalso; apply H; left; exact E].
    destruct (k8s.Ready pod) eqn:Hready; [|exfalso; apply H; right; left; reflexivity].
    destruct (Z.ltb_spec 3 (k8s.Restarts pod));
      [exfalso; apply H; right; right; assumption | reflexivity].
Qed.

Lemma checkPod_problem k report pod :
  ProblemPod pod ->
  diagnose.checkPod (k, report) pod
  = (Int.add k 1, diagnose.addIssue report (podIssue pod)).
Proof.
  intros H. unfold diagnose.checkPod. rewrite checkPod_condition.
  rewrite bool_decide_eq_true_2 by assumption.
  unfold podIssue, podSeverity. f_equal. f_equal.
  destruct (Z.ltb_spec 10 (k8s.Restarts pod)); case_decide; (reflexivity || lia).
Qed.

Lemma checkPod_fine k report pod :
  ~ ProblemPod pod -> diagnose.checkPod (k, report) pod = (k, report).
Proof.
  intros H. unfold diagnose.checkPod. rewrite checkPod_condition.
  now rewrite bool_decide_eq_false_2 by assumption.
Qed.

Lemma length_filter_le {A} (P : A -> Prop) `{forall x, Decision (P x)} (l : list A) :
  (length (filter P l) <= length l)%nat.
Proof. apply length_filter. Qed.

(** The loop of the scan: the counter grows by one and the report by one
    issue for each problem pod, in order. *)
Lemma checkPod_fold pods : forall k report,
  0 <= k ->
  k + Z.of_nat (length pods) <= Int.max_int ->
  fold_left diagnose.checkPod pods (k, report)
  = (k + Z.of_nat (length (filter ProblemPod pods)),
     {| diagnose.Summary := diagnose.Summary report;
        diagnose.Issues := diagnose.Issues report ++ map podIssue (filter ProblemPod pods);
        diagnose.Remediations := diagnose.Remediations report;
        diagnose.HealthScore := diagnose.HealthScore report |}).
Proof.
  induction pods as [|pod pods IH]; intros k report Hk Hmax.
  - cbn. rewrite Z.add_0_r, app_nil_r. now destruct report.
  - cbn [fold_left]. cbn [length] in Hmax. rewrite Nat2Z.inj_succ in Hmax.
    destruct (decide (ProblemPod pod)) as [Hp|Hp].
    + rewrite (checkPod_problem _ _ _ Hp), filter_cons_True by assumption.
      unfold Int.add. rewrite wrap_in_range by (unfold Int.min_int; lia).
      rewrite IH by lia. cbn [length map]. rewrite Nat2Z.inj_succ.
      unfold diagnose.addIssue. cbn [diagnose.Summary diagnose.Issues
        diagnose.Remediations diagnose.HealthScore].
      rewrite <- app_assoc. f_equal. lia.
    + rewrite (checkPod_fine _ _ _ Hp), filter_cons_False by assumption.
      apply IH; lia.
Qed.

(** The report of the scan, in closed form. *)
Lemma diagnoseAllPods_report e pods :
  k8s.GetPods (diagnose.k8sClient e) (diagnose.namespace e) = Ok pods ->
  10 * Z.of_nat (length pods) <= Int.max_int ->
  exists r, diagnose.diagnoseAllPods e = Ok r
    /\ diagnose.Issues r = map podIssue (filter ProblemPod pods)
    /\ diagnose.Remediations r = []
    /\ diagnose.HealthScore r
       = Z.max 0 (100 - 10 * Z.of_nat (length (filter ProblemPod pods))).
Proof.
  intros Hpods Hmax. unfold diagnose.diagnoseAllPods. rewrite Hpods.
  rewrite checkPod_fold by lia.
  pose proof (length_filter_le ProblemPod pods) as Hle.
  set (n := Z.of_nat (length (filter ProblemPod pods))) in *.
  assert (Hn : 0 <= n <= Z.of_nat (length pods)) by (subst n; lia).
  eexists. split; [reflexivity|].
  cbn [diagnose.Summary diagnose.Issues diagnose.Remediations diagnose.HealthScore].
  rewrite Z.add_0_l.
  destruct (Z.ltb_spec 0 n) as [Hpos|Hzero];
    cbn [diagnose.Summary diagnose.Issues diagnose.Remediations diagnose.HealthScore app];
    (split; [reflexivity|]); (split; [reflexivity|]).
  - unfold Int.sub, Int.mul.
    rewrite (wrap_in_range (n * 10)) by (unfold Int.min_int; lia).
    rewrite wrap_in_range by (unfold Int.min_int, Int.max_int in *; lia).
    destruct (Z.ltb_spec (100 - n * 10) 0); lia.
  - lia.
Qed.

(** C8. In the namespace scan the issues are those of the problem pods, one
    each and in order, of severity medium unless the pod restarted more than
    10 times, and the health score is 100 minus 10 per problem pod, not
    below 0; so 10 pods of which 3 are problem pods, none restarted more
    than 10 times, give a score of 70 and 3 issues of severity medium. *)
Theorem diagnoseAllPods_problem_pods e pods :
  k8s.GetPods (diagnose.k8sClient e) (diagnose.namespace e) = Ok pods ->
  10 * Z.of_nat (length pods) <= Int.max_int ->
  exists r, diagnose.diagnoseAllPods e = Ok r
    /\ map diagnose.Resource (diagnose.Issues r)
       = map (fun pod => "pod/" +:+ k8s.Name pod) (filter ProblemPod pods)
    /\ map diagnose.ISeverity (diagnose.Issues r)
       = map podSeverity (filter ProblemPod pods)
    /\ diagnose.HealthScore r
       = Z.max 0 (100 - 10 * Z.of_nat (length (filter ProblemPod pods)))
    /\ (length pods = 10%nat ->
        length (filter ProblemPod pods) = 3%nat ->
        Forall (fun pod => k8s.Restarts pod <= 10) (filter ProblemPod pods) ->
        diagnose.HealthScore r = 70
        /\ length (diagnose.Issues r) = 3%nat
        /\ Forall (fun i => diagnose.ISeverity i = diagnose.SeverityMedium)
             (diagnose.Issues r)).
Proof.
  intros Hpods Hmax.
  destruct (diagnoseAllPods_report e pods Hpods Hmax) as (r & Hr & Hissues & _ & Hscore).
  exists r. split; [exact Hr|]. rewrite Hissues, Hscore, !map_map. cbn [podIssue
    diagnose.Resource diagnose.ISeverity].
  do 3 (split; [reflexivity|]).
  intros _ H3 Hrestarts. rewrite H3, length_map, H3.
  split; [reflexivity|]. split; [reflexivity|].
  apply Forall_map. eapply Forall_impl; [exact Hrestarts|].
  intros pod Hle. cbn beta in Hle. cbn. unfold podSeverity.
  case_decide; [lia|reflexivity].
Qed.

Lemma diagnoseAllPods_problem_pods_witness :
  exists r, diagnose.diagnoseAllPods (sampleEngine crashingPod tenPods) = Ok r
    /\ diagnose.HealthScore r = 70
    /\ length (diagnose.Issues r) = 3%nat
    /\ Forall (fun i => diagnose.ISeverity i = diagnose.SeverityMedium) (diagnose.Issues r).
Proof.
  destruct (diagnoseAllPods_problem_pods (sampleEngine crashingPod tenPods) tenPods eq_refl)
    as (r & Hr & _ & _ & _ & H).
  - vm_compute. discriminate.
  - exists r. split; [exact Hr|]. apply H.
    + reflexivity.
    + vm_compute. reflexivity.
    + vm_compute. repeat constructor; discriminate.
Defined.

(** The score of the scan lies between 0 and 100. *)
Lemma diagnoseAllPods_score_range e pods r :
  k8s.GetPods (diagnose.k8sClient e) (diagnose.namespace e) = Ok pods ->
  10 * Z.of_nat (length pods) <= Int.max_int ->
  diagnose.diagnoseAllPods e = Ok r ->
  0 <= diagnose.HealthScore r <= 100.
Proof.
  intros Hpods Hmax Hr.
  destruct (diagnoseAllPods_report e pods Hpods Hmax) as (r' & Hr' & _ & _ & Hscore).
  rewrite Hr in Hr'. injection Hr' as <-. rewrite Hscore. lia.
Qed.

(** ** Diagnostics: single-pod inspection *)

(** C1. The single-pod inspection subtracts without a floor: for a running
    pod with three containers waiting in CrashLoopBackOff the report has
    three critical issues and a health score of -20. *)
Theorem diagnosePod_score_below_zero :
  exists r, diagnose.diagnosePod (sampleEngine crashingPod tenPods) "web" = Ok r
    /\ map diagnose.ISeverity (diagnose.Issues r)
       = [diagnose.SeverityCritical; diagnose.SeverityCritical; diagnose.SeverityCritical]
    /\ diagnose.HealthScore r = -20.
Proof. eexists. split; [vm_compute; reflexivity|]. split; reflexivity. Qed.

(** ** Plugin registry *)

Section RunAnalysis.

Context {R : Type}.
Implicit Types (m : plugins.Manager R) (plugin : plugins.Plugin R) (resource : R).

(** One step of the loop: a failing analyzer leaves the issues as they
    are, a succeeding one appends its issues. *)
Lemma analysisStep_issues resource out allIssues plugin :
  (plugins.analysisStep resource (out, allIssues) plugin).2
  = allIssues ++ (if decide (succeeds resource plugin)
                  then contribution resource plugin else []).
Proof.
  destruct (decide (succeeds resource plugin)) as [H|H];
    unfold succeeds, contribution, plugins.analysisStep in *;
    destruct (plugins.Analyze plugin resource) as [issues [err|]]; cbn [fst snd] in *;
    try reflexivity; try discriminate.
  - now rewrite app_nil_r.
  - contradiction.
Qed.

Lemma analysis_fold resource order : forall acc,
  (fold_left (plugins.analysisStep resource) order acc).2
  = acc.2 ++ concat (map (contribution resource) (filter (succeeds resource) order)).
Proof.
  induction order as [|plugin order IH]; intros [out allIssues].
  - cbn. now rewrite app_nil_r.
  - cbn [fold_left]. rewrite IH.
    destruct (plugins.analysisStep resource (out, allIssues) plugin) as [out' issues'] eqn:E.
    pose proof (analysisStep_issues resource out allIssues plugin) as Hstep.
    rewrite E in Hstep. cbn [snd] in *. rewrite Hstep.
    destruct (decide (succeeds resource plugin)) as [Hs|Hs].
    + rewrite filter_cons_True by assumption. cbn [map concat].
      now rewrite <- !app_assoc.
    + rewrite filter_cons_False by assumption. now rewrite app_nil_r.
Qed.

(** [RunAnalysis] never returns an error, whatever the analyzers do. *)
Lemma RunAnalysisIn_shape order resource :
  exists out,
    plugins.RunAnalysisIn order resource
    = (out, (concat (map (contribution resource) (filter (succeeds resource) order)),
             None)).
Proof.
  unfold plugins.RunAnalysisIn.
  pose proof (analysis_fold resource order ([], [])) as H.
  destruct (fold_left _ order _) as [out allIssues]. cbn [snd app] in H.
  exists out. now rewrite H.
Qed.

(** The plugins a visit of the registry meets are the registered ones. *)
Lemma rangeOrder_elem m order plugin :
  plugins.rangeOrder m order ->
  In plugin order <-> exists name, plugins.plugins m !! name = Some plugin.
Proof.
  unfold plugins.rangeOrder. intros Hperm.
  rewrite <- list_elem_of_In, Hperm, list_elem_of_fmap. split.
  - intros [[name plugin'] [-> Hin]]. exists name. now apply elem_of_map_to_list.
  - intros [name Hin]. exists (name, plugin). split; [reflexivity|].
    now apply elem_of_map_to_list.
Qed.

(** C9. Along every order in which the registry can be visited,
    [RunAnalysis] returns no error, and its issues are the concatenation, in
    visit order, of the issues of the analyzers that succeed: each issue of
    a registered analyzer that succeeds is returned, whichever other
    analyzers fail, and nothing else is. *)
Theorem RunAnalysis_collects_successful m order resource :
  plugins.rangeOrder m order ->
  exists out issues,
    plugins.RunAnalysisIn order resource = (out, (issues, None))
    /\ issues = concat (map (contribution resource) (filter (succeeds resource) order))
    /\ (forall name plugin issue,
          plugins.plugins m !! name = Some plugin ->
          succeeds resource plugin ->
          In issue (contribution resource plugin) ->
          In issue issues)
    /\ (forall issue,
          In issue issues ->
          exists name plugin,
            plugins.plugins m !! name = Some plugin
            /\ succeeds resource plugin
            /\ In issue (contribution resource plugin)).
Proof.
  intros Horder.
  destruct (RunAnalysisIn_shape order resource) as [out Hrun].
  exists out, (concat (map (contribution resource) (filter (succeeds resource) order))).
  split; [exact Hrun|]. split; [reflexivity|]. split.
  - intros name plugin issue Hreg Hok Hin.
    apply in_concat. exists (contribution resource plugin). split; [|exact Hin].
    apply in_map, list_elem_of_In, list_elem_of_filter. split; [exact Hok|].
    apply list_elem_of_In, (rangeOrder_elem m order plugin Horder). now exists name.
  - intros issue Hin. apply in_concat in Hin as (issues & Hissues & Hin).
    apply in_map_iff in Hissues as (plugin & <- & Hplugin).
    apply list_elem_of_In, list_elem_of_filter in Hplugin as [Hok Hplugin].
    apply list_elem_of_In, (rangeOrder_elem m order plugin Horder) in Hplugin as [name Hreg].
    now exists name, plugin.
Qed.

End RunAnalysis.

Lemma sampleManager_example :
  plugins.plugins sampleManager !! "example-detector" = Some plugins.NewExamplePlugin.
Proof.
  unfold sampleManager, plugins.Register, plugins.NewManager.
  cbn [plugins.plugins plugins.Name brokenPlugin plugins.NewExamplePlugin fst].
  rewrite lookup_empty. cbn [plugins.plugins fst].
  rewrite lookup_insert_ne by discriminate. rewrite lookup_empty.
  cbn [plugins.plugins fst]. apply lookup_insert_eq.
Qed.

Lemma RunAnalysis_collects_successful_witness :
  exists out issues,
    plugins.RunAnalysis sampleManager tt = (out, (issues, None))
    /\ Exists (fun issue => plugins.ID issue = "example-001") issues.
Proof.
  destruct (RunAnalysis_collects_successful sampleManager
              (map_to_list (plugins.plugins sampleManager)).*2 tt
              (Permutation_refl _))
    as (out & issues & Hrun & _ & Hall & _).
  exists out, issues. split; [exact Hrun|].
  apply Exists_exists.
  eexists. split.
  - apply list_elem_of_In.
    apply (Hall "example-detector" plugins.NewExamplePlugin _ sampleManager_example eq_refl).
    left. reflexivity.
  - reflexivity.
Defined.

(** ** Mock provider *)

Lemma Len_nonneg s : 0 <= Strings.Len s.
Proof. unfold Strings.Len. lia. Qed.

(** On the length of a string, Go's division by 4 is the plain quotient. *)
Lemma div_Len_4 s :
  Strings.Len s <= Int.max_int -> Int.div (Strings.Len s) 4 = Strings.Len s / 4.
Proof.
  intros Hmax. pose proof (Len_nonneg s) as H0. unfold Int.div.
  rewrite Z.quot_div_nonneg by lia.
  apply wrap_in_range. unfold Int.min_int, Int.max_int in *.
  split; [transitivity 0; [lia | apply Z.div_pos; lia]|].
  transitivity (Strings.Len s); [|exact Hmax].
  apply Z.div_le_upper_bound; lia.
Qed.

(** C10. For every lower-casing function, configuration, prompt and
    options the mock provider returns a response and no error; the response
    is a function of the prompt alone; its token count is the length of the
    content divided by 4 and its finish reason is "stop".  A planner backed
    by the mock provider therefore always obtains a plan. *)
Theorem MockProvider_Generate_total_deterministic
    (ToLower : string -> string) (config : ai.Config) (prompt : string)
    (options : ai.Options) :
  exists response,
    ai.MockProvider_Generate ToLower config prompt options = Ok response
    /\ ai.Content response = ai.generateMockResponse ToLower prompt
    /\ ai.Model response = "mock-v1"
    /\ ai.FinishReason response = "stop"
    /\ ai.TokensUsed response = Int.div (Strings.Len (ai.Content response)) 4
    /\ (Strings.Len (ai.Content response) <= Int.max_int ->
        ai.TokensUsed response = Strings.Len (ai.Content response) / 4)
    /\ (forall config' options',
          ai.MockProvider_Generate ToLower config' prompt options' = Ok response)
    /\ (forall (p : plan.Planner) query,
          ai.Generate (plan.aiProvider p) = ai.MockProvider_Generate ToLower config ->
          exists pl, plan.Generate p query = Ok pl).
Proof.
  eexists. split; [reflexivity|].
  cbn [ai.Content ai.Model ai.FinishReason ai.TokensUsed].
  do 4 (split; [reflexivity|]). split; [apply div_Len_4|]. split; [reflexivity|].
  intros p query Hp. unfold plan.Generate. rewrite Hp. cbn. now eexists.
Qed.

Lemma MockProvider_Generate_total_deterministic_witness :
  exists response,
    ai.MockProvider_Generate Strings.ToLowerASCII mockConfig "Restart the web pods"
      ai.DefaultOptions = Ok response
    /\ ai.TokensUsed response = 94
    /\ exists pl, plan.Generate (mockPlanner "default" true) "Restart the web pods" = Ok pl.
Proof.
  destruct (MockProvider_Generate_total_deterministic Strings.ToLowerASCII mockConfig
              "Restart the web pods" ai.DefaultOptions)
    as (response & Hrun & Hcontent & _ & _ & _ & Htokens & _ & Hplan).
  exists response. split; [exact Hrun|]. split.
  - rewrite Htokens; rewrite Hcontent; vm_compute; [reflexivity | discriminate].
  - apply Hplan. reflexivity.
Defined.

(** * Further properties *)

(** ** Plugin registry: registration *)

Section RegistryCalls.

Context {R : Type}.
Implicit Types (m : plugins.Manager R) (plugin : plugins.Plugin R).

Lemma Register_fresh m plugin :
  plugins.plugins m !! plugins.Name plugin = None ->
  plugins.Register m plugin
  = ({| plugins.plugins := <[plugins.Name plugin := plugin]> (plugins.plugins m) |}, None).
Proof. intros H. unfold plugins.Register. now rewrite H. Qed.

Lemma Register_taken m plugin :
  is_Some (plugins.plugins m !! plugins.Name plugin) ->
  plugins.Register m plugin
  = (m, Some ("plugin " +:+ plugins.Name plugin +:+ " is already registered")).
Proof. intros [old H]. unfold plugins.Register. now rewrite H. Qed.

Lemma Manager_eta m : {| plugins.plugins := plugins.plugins m |} = m.
Proof. now destruct m. Qed.

(** Registering a second plugin under a name just registered always fails
    and leaves the registry as the first call left it. *)
Lemma Register_same_name_twice m first second :
  plugins.Name second = plugins.Name first ->
  (plugins.Register (plugins.Register m first).1 second).2
  = Some ("plugin " +:+ plugins.Name first +:+ " is already registered")
  /\ (plugins.Register (plugins.Register m first).1 second).1
     = (plugins.Register m first).1.
Proof.
  intros Hname.
  assert (Htaken : is_Some (plugins.plugins (plugins.Register m first).1
                              !! plugins.Name second)).
  { rewrite Hname. destruct (plugins.plugins m !! plugins.Name first) as [old|] eqn:E.
    - rewrite (Register_taken m first) by (now exists old). cbn [fst]. now exists old.
    - rewrite (Register_fresh m first E). cbn [fst plugins.plugins].
      exists first. apply lookup_insert_eq. }
  rewrite (Register_taken _ second Htaken), Hname. now split.
Qed.

(** X1. [Register] succeeds exactly when the plugin's name is free.  On
    success the plugin is found under its name, every other name is as
    before and the count grows by one; on failure the registry is
    unchanged.  So registering a second plugin under the name of the first
    always fails and keeps the first. *)
Theorem Register_outcome m plugin :
  (forall second,
     plugins.Name second = plugins.Name plugin ->
     plugins.Register (plugins.Register m plugin).1 second
     = ((plugins.Register m plugin).1,
        Some ("plugin " +:+ plugins.Name plugin +:+ " is already registered")))
  /\ (plugins.plugins m !! plugins.Name plugin = None ->
   (plugins.Register m plugin).2 = None
   /\ plugins.Get (plugins.Register m plugin).1 (plugins.Name plugin) = Ok plugin
   /\ (forall other, other <> plugins.Name plugin ->
         plugins.plugins (plugins.Register m plugin).1 !! other
         = plugins.plugins m !! other)
   /\ plugins.Count (plugins.Register m plugin).1 = plugins.Count m + 1)
  /\ (is_Some (plugins.plugins m !! plugins.Name plugin) ->
      (plugins.Register m plugin).2
      = Some ("plugin " +:+ plugins.Name plugin +:+ " is already registered")
      /\ (plugins.Register m plugin).1 = m).
Proof.
  split; [|split].
  - intros second Hname.
    destruct (Register_same_name_twice m plugin second Hname) as [H2 H1].
    destruct (plugins.Register (plugins.Register m plugin).1 second) as [m' err].
    cbn [fst snd] in *. now subst.
  - intros Hfree. rewrite (Register_fresh m plugin Hfree). cbn [fst snd].
    split; [reflexivity|]. split; [|split].
    + unfold plugins.Get. cbn [plugins.plugins]. now rewrite lookup_insert_eq.
    + intros other Hne. cbn [plugins.plugins]. now rewrite lookup_insert_ne.
    + unfold plugins.Count. cbn [plugins.plugins].
      rewrite map_size_insert_None by assumption. lia.
  - intros Htaken. now rewrite (Register_taken m plugin Htaken).
Qed.

(** X2. [Unregister] succeeds exactly when the name is registered; after it
    the name is gone, other names are untouched, and a second [Unregister]
    of the same name fails without changing the registry. *)
Theorem Unregister_outcome m name :
  ((plugins.Unregister m name).2 = None <-> plugins.Exists m name = true)
  /\ plugins.Exists (plugins.Unregister m name).1 name = false
  /\ (forall other, other <> name ->
        plugins.plugins (plugins.Unregister m name).1 !! other
        = plugins.plugins m !! other)
  /\ plugins.Unregister (plugins.Unregister m name).1 name
     = ((plugins.Unregister m name).1,
        Some ("plugin " +:+ name +:+ " is not registered")).
Proof.
  unfold plugins.Unregister, plugins.Exists.
  destruct (plugins.plugins m !! name) as [old|] eqn:E; cbn [fst snd plugins.plugins].
  - split; [split; [intros _|reflexivity]|].
    { apply bool_decide_eq_true. now exists old. }
    rewrite lookup_delete_eq. split; [|split].
    + apply bool_decide_eq_false. now intros [? ?].
    + intros other Hne. now rewrite lookup_delete_ne.
    + reflexivity.
  - rewrite E. split; [split; [discriminate|]|].
    { intros H%bool_decide_eq_true. now destruct H. }
    split; [|split; [reflexivity|reflexivity]].
    apply bool_decide_eq_false. now intros [? ?].
Qed.

(** X3. Registering under a free name and unregistering that name gives
    back the registry as it was; unregistering a plugin and registering it
    again does too. *)
Theorem Register_Unregister_round_trip m plugin :
  (plugins.plugins m !! plugins.Name plugin = None ->
   plugins.Unregister (plugins.Register m plugin).1 (plugins.Name plugin) = (m, None))
  /\ (plugins.plugins m !! plugins.Name plugin = Some plugin ->
      plugins.Register (plugins.Unregister m (plugins.Name plugin)).1 plugin = (m, None)).
Proof.
  split; intros H.
  - rewrite (Register_fresh m plugin H). unfold plugins.Unregister.
    cbn [fst plugins.plugins]. rewrite lookup_insert_eq.
    rewrite delete_insert_id by assumption. now rewrite Manager_eta.
  - unfold plugins.Unregister. rewrite H. cbn [fst].
    rewrite Register_fresh by (cbn [plugins.plugins]; apply lookup_delete_eq).
    cbn [plugins.plugins]. rewrite insert_delete_eq, insert_id by assumption.
    now rewrite Manager_eta.
Qed.

(** ** Plugin registry: names *)

Lemma Register_keyedByName m plugin :
  keyedByName m -> keyedByName (plugins.Register m plugin).1.
Proof.
  intros Hm. unfold plugins.Register.
  destruct (plugins.plugins m !! plugins.Name plugin) eqn:E; [exact Hm|].
  intros name q. cbn [fst plugins.plugins].
  destruct (decide (plugins.Name plugin = name)) as [<-|Hne].
  - rewrite lookup_insert_eq. now intros [= <-].
  - rewrite lookup_insert_ne by assumption. apply Hm.
Qed.

Lemma Unregister_keyedByName m name :
  keyedByName m -> keyedByName (plugins.Unregister m name).1.
Proof.
  intros Hm. unfold plugins.Unregister.
  destruct (plugins.plugins m !! name) eqn:E; [|exact Hm].
  intros name' q. cbn [fst plugins.plugins].
  destruct (decide (name = name')) as [<-|Hne].
  - now rewrite lookup_delete_eq.
  - rewrite lookup_delete_ne by assumption. apply Hm.
Qed.

Lemma applyCall_keyedByName m call : keyedByName m -> keyedByName (applyCall m call).
Proof.
  intros Hm. destruct call as [plugin|name| |name]; cbn [applyCall].
  - now apply Register_keyedByName.
  - now apply Unregister_keyedByName.
  - intros name p. cbn [plugins.Clear plugins.plugins]. now rewrite lookup_empty.
  - unfold plugins.InstallByName, plugins.Install.
    destruct (_ || _); [now apply Register_keyedByName | exact Hm].
Qed.

(** X4. Whatever sequence of Register, Unregister, Clear and InstallByName
    calls is made on a new manager, every plugin of the registry is stored
    under the name it reports. *)
Theorem registry_keyed_by_name (calls : list (registryCall R)) :
  keyedByName (applyCalls calls).
Proof.
  unfold applyCalls.
  assert (H : keyedByName (@plugins.NewManager R)).
  { intros name p. cbn [plugins.NewManager plugins.plugins]. now rewrite lookup_empty. }
  revert H. generalize (@plugins.NewManager R).
  induction calls as [|call calls IH]; intros m Hm; [exact Hm|].
  cbn [fold_left]. apply IH. now apply applyCall_keyedByName.
Qed.

Lemma fold_append_map {A B} (f : A -> B) (l : list A) : forall acc,
  fold_left (fun acc x => acc ++ [f x]) l acc = acc ++ map f l.
Proof.
  induction l as [|x l IH]; intros acc; cbn [fold_left map].
  - now rewrite app_nil_r.
  - now rewrite IH, <- app_assoc.
Qed.

(** X5. Along every visit of the registry, [ListNames] returns each
    registered name exactly once, [List] returns as many plugins, and both
    lengths are [Count]. *)
Theorem ListNames_outcome m (entries : list (string * plugins.Plugin R)) :
  plugins.rangeEntries m entries ->
  NoDup (plugins.ListNamesIn entries)
  /\ (forall name, In name (plugins.ListNamesIn entries) <-> plugins.Exists m name = true)
  /\ Z.of_nat (length (plugins.ListNamesIn entries)) = plugins.Count m
  /\ Z.of_nat (length (plugins.ListIn entries)) = plugins.Count m.
Proof.
  unfold plugins.rangeEntries, plugins.ListNamesIn, plugins.ListIn, plugins.Count,
    plugins.Exists.
  intros Hperm. rewrite !fold_append_map. cbn [app].
  change (map (fun entry : string * plugins.Plugin R => entry.1) entries) with (entries.*1).
  change (map (fun entry : string * plugins.Plugin R => entry.2) entries) with (entries.*2).
  split; [|split; [|split]].
  - rewrite Hperm. apply NoDup_fst_map_to_list.
  - intros name. rewrite <- list_elem_of_In, Hperm, list_elem_of_fmap. split.
    + intros [[name' plugin] [-> Hin]]. apply bool_decide_eq_true.
      exists plugin. now apply elem_of_map_to_list.
    + intros [plugin Hin]%bool_decide_eq_true. exists (name, plugin).
      split; [reflexivity|]. now apply elem_of_map_to_list.
  - now rewrite length_fmap, Hperm, length_map_to_list.
  - now rewrite length_fmap, Hperm, length_map_to_list.
Qed.

End RegistryCalls.

Lemma Register_outcome_witness :
  (plugins.Register plugins.NewManager brokenPlugin).2 = None
  /\ (plugins.Register sampleManager brokenPlugin).1 = sampleManager.
Proof.
  split.
  - apply (proj1 (proj2 (Register_outcome plugins.NewManager brokenPlugin))).
    apply lookup_empty.
  - apply (proj2 (proj2 (Register_outcome sampleManager brokenPlugin))).
    exists brokenPlugin. unfold sampleManager.
    rewrite (Register_fresh plugins.NewManager brokenPlugin) by apply lookup_empty.
    cbn [fst]. rewrite Register_fresh.
    + cbn [fst plugins.plugins]. rewrite lookup_insert_ne by discriminate.
      apply lookup_insert_eq.
    + cbn [plugins.plugins]. rewrite lookup_insert_ne by discriminate.
      apply lookup_empty.
Defined.

Lemma Register_Unregister_round_trip_witness :
  plugins.Unregister (plugins.Register plugins.NewManager brokenPlugin).1 "broken"
  = (plugins.NewManager, None).
Proof.
  apply (proj1 (Register_Unregister_round_trip plugins.NewManager brokenPlugin)).
  apply lookup_empty.
Defined.

Lemma ListNames_outcome_witness :
  NoDup (plugins.ListNamesIn (map_to_list (plugins.plugins sampleManager)))
  /\ Z.of_nat (length (plugins.ListIn (map_to_list (plugins.plugins sampleManager))))
     = plugins.Count sampleManager.
Proof.
  destruct (ListNames_outcome sampleManager (map_to_list (plugins.plugins sampleManager))
              (Permutation_refl _)) as (Hnodup & _ & _ & Hlen).
  split; [exact Hnodup | exact Hlen].
Defined.

(** ** Plugin registry: analysis *)

Section RegistryAnalysis.

Context {R : Type}.
Implicit Types (m : plugins.Manager R) (plugin : plugins.Plugin R) (resource : R).

Lemma contributions_Permutation resource (order1 order2 : list (plugins.Plugin R)) :
  order1 ≡ₚ order2 ->
  concat (map (contribution resource) (filter (succeeds resource) order1))
  ≡ₚ concat (map (contribution resource) (filter (succeeds resource) order2)).
Proof.
  induction 1 as [|x l1 l2 _ IH|x y l|l1 l2 l3 _ IH1 _ IH2].
  - reflexivity.
  - destruct (decide (succeeds resource x)) as [Hx|Hx].
    + rewrite !filter_cons_True by assumption. cbn [map concat]. now rewrite IH.
    + now rewrite !filter_cons_False by assumption.
  - rewrite !filter_cons.
    destruct (decide (succeeds resource x)), (decide (succeeds resource y));
      cbn [map concat]; try reflexivity.
    rewrite !app_assoc. apply Permutation_app_tail, Permutation_app_comm.
  - now rewrite IH1.
Qed.

(** X6. The order in which the registry is visited changes only the order
    of the issues: two runs of [RunAnalysis] on the same registry and
    resource return the same issues up to a permutation, and none returns an
    error. *)
Theorem RunAnalysis_order_irrelevant m order1 order2 resource :
  plugins.rangeOrder m order1 ->
  plugins.rangeOrder m order2 ->
  (plugins.RunAnalysisIn order1 resource).2.1 ≡ₚ (plugins.RunAnalysisIn order2 resource).2.1
  /\ (plugins.RunAnalysisIn order1 resource).2.2 = None
  /\ (plugins.RunAnalysisIn order2 resource).2.2 = None.
Proof.
  unfold plugins.rangeOrder. intros H1 H2.
  destruct (RunAnalysisIn_shape order1 resource) as [out1 ->].
  destruct (RunAnalysisIn_shape order2 resource) as [out2 ->].
  cbn [fst snd]. split; [|now split].
  apply contributions_Permutation. now rewrite H1, H2.
Qed.

(** X7. After [Clear] the registry is empty: its count is 0, no name is
    found or can be unregistered, and [RunAnalysis] prints nothing and
    returns no issue. *)
Theorem Clear_outcome m :
  plugins.Count (plugins.Clear m) = 0
  /\ (forall name,
        plugins.Get (plugins.Clear m) name = Err ("plugin " +:+ name +:+ " not found")
        /\ (plugins.Unregister (plugins.Clear m) name).2
           = Some ("plugin " +:+ name +:+ " is not registered"))
  /\ (forall order resource,
        plugins.rangeOrder (plugins.Clear m) order ->
        plugins.RunAnalysisIn order resource = ([], ([], None))).
Proof.
  unfold plugins.Count, plugins.Get, plugins.Unregister, plugins.rangeOrder.
  cbn [plugins.Clear plugins.plugins]. split; [|split].
  - now rewrite map_size_empty.
  - intros name. rewrite lookup_empty. split; reflexivity.
  - intros order resource. rewrite map_to_list_empty. cbn [fmap list_fmap].
    now intros ->%Permutation_nil_r.
Qed.

(** X8. [InstallByName] knows one plugin under two spellings: both install
    the example plugin under the name "example-detector", so a second
    install by either spelling fails; any other name fails and leaves the
    registry unchanged. *)
Theorem InstallByName_outcome m :
  plugins.InstallByName m "example" = plugins.Register m plugins.NewExamplePlugin
  /\ plugins.InstallByName m "example-detector"
     = plugins.Register m plugins.NewExamplePlugin
  /\ (plugins.InstallByName (plugins.InstallByName m "example").1 "example-detector").2
     = Some "plugin example-detector is already registered"
  /\ (plugins.InstallByName (plugins.InstallByName m "example-detector").1 "example").2
     = Some "plugin example-detector is already registered"
  /\ (forall name,
        name <> "example" -> name <> "example-detector" ->
        plugins.InstallByName m name
        = (m, Some ("unknown plugin: " +:+ name +:+ " (available: example-detector)"))).
Proof.
  split; [reflexivity|]. split; [reflexivity|].
  change (plugins.InstallByName m "example")
    with (plugins.Register m plugins.NewExamplePlugin).
  change (plugins.InstallByName m "example-detector")
    with (plugins.Register m plugins.NewExamplePlugin).
  change (plugins.InstallByName (plugins.Register m plugins.NewExamplePlugin).1
            "example-detector")
    with (plugins.Register (plugins.Register m plugins.NewExamplePlugin).1
            plugins.NewExamplePlugin).
  change (plugins.InstallByName (plugins.Register m plugins.NewExamplePlugin).1 "example")
    with (plugins.Register (plugins.Register m plugins.NewExamplePlugin).1
            plugins.NewExamplePlugin).
  split; [|split].
  - exact (proj1 (Register_same_name_twice m plugins.NewExamplePlugin
                    plugins.NewExamplePlugin eq_refl)).
  - exact (proj1 (Register_same_name_twice m plugins.NewExamplePlugin
                    plugins.NewExamplePlugin eq_refl)).
  - intros name H1 H2. unfold plugins.InstallByName.
    apply String.eqb_neq in H1, H2. now rewrite H1, H2.
Qed.

End RegistryAnalysis.

Lemma RunAnalysis_order_irrelevant_witness :
  (plugins.RunAnalysis sampleManager tt).2.1
  ≡ₚ (plugins.RunAnalysisIn (reverse (map_to_list (plugins.plugins sampleManager)).*2) tt).2.1.
Proof.
  apply (RunAnalysis_order_irrelevant sampleManager
           (map_to_list (plugins.plugins sampleManager)).*2
           (reverse (map_to_list (plugins.plugins sampleManager)).*2) tt).
  - apply Permutation_refl.
  - unfold plugins.rangeOrder. apply reverse_Permutation.
Defined.

Lemma InstallByName_outcome_witness :
  plugins.InstallByName (plugins.NewManager (R := unit)) "metrics"
  = (plugins.NewManager, Some "unknown plugin: metrics (available: example-detector)").
Proof.
  apply (proj2 (proj2 (proj2 (proj2 (InstallByName_outcome plugins.NewManager)))));
    discriminate.
Defined.

(** ** Strings: occurrence *)

Lemma append_assoc s t u : (s +:+ t) +:+ u = s +:+ t +:+ u.
Proof. induction s as [|c s IH]; [reflexivity|]. now rewrite !append_cons, IH. Qed.

Lemma HasPrefix_iff s prefix :
  Strings.HasPrefix s prefix = true <-> exists post, s = prefix +:+ post.
Proof.
  revert s. induction prefix as [|a prefix IH]; intros s.
  - split; [intros _; now exists s | reflexivity].
  - destruct s as [|c s]; cbn [Strings.HasPrefix].
    + split; [discriminate|]. intros [post H]. discriminate H.
    + rewrite andb_true_iff, IH. split.
      * intros [->%Ascii.eqb_eq [post ->]]. now exists post.
      * intros [post H]. rewrite append_cons in H. injection H as -> ->.
        split; [apply Ascii.eqb_refl | now exists post].
Qed.

Lemma Strings_Contains_iff s sub :
  Strings.Contains s sub = true <-> Substring sub s.
Proof.
  induction s as [|c s IH]; cbn [Strings.Contains]; rewrite orb_true_iff, HasPrefix_iff.
  - split.
    + intros [[post H]|H]; [|discriminate]. now exists "", post.
    + intros (pre & post & H). left. destruct pre; [now exists post | discriminate H].
  - rewrite IH. split.
    + intros [[post H]|(pre & post & H)].
      * now exists "", post.
      * exists (String c pre), post. now rewrite H.
    + intros (pre & post & H). destruct pre as [|d pre].
      * left. now exists post.
      * right. rewrite append_cons in H. injection H as -> ->. now exists pre, post.
Qed.

(** ** Policy gate: what decides the verdict *)

(** X9. The scan the policy gate wrote by hand decides byte-exact
    occurrence: it agrees with [strings.Contains] on every pair of strings;
    in particular the empty string occurs in every string and a match is
    kept when text is added around it. *)
Theorem contains_is_strings_Contains s sub :
  policy.contains s sub = Strings.Contains s sub
  /\ (policy.contains s sub = true <-> Substring sub s)
  /\ policy.contains s "" = true
  /\ (forall before after,
        policy.contains s sub = true ->
        policy.contains (before +:+ s +:+ after) sub = true).
Proof.
  assert (Heq : forall t u, policy.contains t u = Strings.Contains t u).
  { intros t u. destruct (Strings.Contains t u) eqn:E.
    - now apply contains_iff, Strings_Contains_iff.
    - destruct (policy.contains t u) eqn:E'; [|reflexivity].
      apply contains_iff, Strings_Contains_iff in E'. congruence. }
  split; [apply Heq|]. split; [apply contains_iff|]. split.
  - apply contains_iff. exists "", s. reflexivity.
  - intros before after (pre & post & ->)%contains_iff. apply contains_iff.
    exists (before +:+ pre), (post +:+ after). now rewrite !append_assoc.
Qed.

Lemma contains_is_strings_Contains_witness :
  policy.contains ("sudo " +:+ "kubectl drain node-1" +:+ " --force") "drain" = true.
Proof.
  apply (proj2 (proj2 (proj2 (contains_is_strings_Contains "kubectl drain node-1" "drain")))).
  vm_compute. reflexivity.
Defined.

Lemma scanDangerousOps_In command ops : forall warnings w,
  In w (policy.scanDangerousOps command ops warnings)
  <-> In w warnings
      \/ exists op, In op ops /\ policy.contains command op = true
                    /\ w = "Potentially dangerous operation detected: " +:+ op.
Proof.
  induction ops as [|op ops IH]; intros warnings w; cbn [policy.scanDangerousOps].
  - split; [now left|]. intros [H|(op & [] & _)]. exact H.
  - rewrite IH. destruct (policy.contains command op) eqn:E.
    + rewrite in_app_iff. cbn [In]. split.
      * intros [[H|[<-|[]]]|(op' & Hin & Hc & ->)].
        -- now left.
        -- right. exists op. now repeat split; [left|..].
        -- right. exists op'. now repeat split; [right|..].
      * intros [H|(op' & [<-|Hin] & Hc & ->)].
        -- now left; left.
        -- left. right. now left.
        -- right. now exists op'.
    + split.
      * intros [H|(op' & Hin & Hc & ->)]; [now left|].
        right. exists op'. now repeat split; [right|..].
      * intros [H|(op' & [<-|Hin] & Hc & ->)]; [now left|congruence|].
        right. now exists op'.
Qed.

Lemma scanDangerousOps_length command ops : forall warnings,
  (length (policy.scanDangerousOps command ops warnings)
   <= length warnings + length ops)%nat.
Proof.
  induction ops as [|op ops IH]; intros warnings; cbn [policy.scanDangerousOps length].
  - lia.
  - destruct (policy.contains command op).
    + specialize (IH (warnings ++ ["Potentially dangerous operation detected: " +:+ op])).
      rewrite length_app in IH. cbn [length] in IH. lia.
    + specialize (IH warnings). lia.
Qed.

(** X10. With enforcement enabled the verdict depends on three markers
    only: the command is allowed exactly when none of "privileged",
    "hostNetwork" and "runAsUser: 0" occurs in it.  There are at most two
    violations, all of high severity, and the first policy is violated
    exactly when one of the first two markers occurs, the second exactly
    when the third does. *)
Theorem ValidateCommand_verdict (v : policy.Validator) (command : string)
    (Henabled : policy.enabled v = true) :
  exists r, policy.ValidateCommand v command = Ok r
    /\ (policy.Allowed r = true
        <-> ~ Substring "privileged" command
            /\ ~ Substring "hostNetwork" command
            /\ ~ Substring "runAsUser: 0" command)
    /\ (length (policy.Violations r) <= 2)%nat
    /\ Forall (fun viol => policy.VSeverity viol = policy.SeverityHigh) (policy.Violations r)
    /\ (In "no-privileged-containers" (map policy.Policy (policy.Violations r))
        <-> Substring "privileged" command \/ Substring "hostNetwork" command)
    /\ (In "no-root-containers" (map policy.Policy (policy.Violations r))
        <-> Substring "runAsUser: 0" command).
Proof.
  unfold policy.ValidateCommand. rewrite Henabled. cbn [negb].
  eexists. split; [reflexivity|].
  cbn -[policy.scanDangerousOps policy.contains].
  generalize (policy.scanDangerousOps command policy.dangerousOps []); intros ws.
  rewrite <- !contains_iff.
  destruct (policy.contains command "privileged");
    destruct (policy.contains command "hostNetwork");
    destruct (policy.contains command "runAsUser: 0");
    destruct (policy.contains command "limits");
    destruct (policy.contains command "create");
    cbn; repeat split; try (repeat constructor; fail); try lia;
      try discriminate; try tauto; try intuition discriminate.
Qed.

Lemma ValidateCommand_verdict_witness :
  exists r, policy.ValidateCommand (policy.NewValidator true)
              "kubectl apply -f pod.yaml # hostNetwork: true" = Ok r
            /\ (length (policy.Violations r) <= 2)%nat.
Proof.
  destruct (ValidateCommand_verdict (policy.NewValidator true)
              "kubectl apply -f pod.yaml # hostNetwork: true" eq_refl)
    as (r & Hr & _ & Hlen & _).
  exists r. now split.
Defined.

(** X11. Warnings never deny and are read off the command alone: with
    enforcement enabled a warning names "delete", "drain" or "cordon"
    exactly when that word occurs, the resource-limit warning is given
    exactly when "create" occurs and "limits" does not, there are at most
    four warnings, and with enforcement disabled there is none. *)
Theorem ValidateCommand_warnings (v : policy.Validator) (command : string) :
  exists r, policy.ValidateCommand v command = Ok r
    /\ (policy.enabled v = false -> policy.Warnings r = [] /\ policy.Allowed r = true)
    /\ (policy.enabled v = true ->
        (forall op,
           In ("Potentially dangerous operation detected: " +:+ op) (policy.Warnings r)
           <-> In op policy.dangerousOps /\ Substring op command)
        /\ (In "No resource limits specified - consider adding limits" (policy.Warnings r)
            <-> Substring "create" command /\ ~ Substring "limits" command)
        /\ (length (policy.Warnings r) <= 4)%nat).
Proof.
  unfold policy.ValidateCommand.
  destruct (policy.enabled v); cbn [negb];
    (eexists; split; [reflexivity|]); (split; [intros H|intros H]);
    try discriminate H; [|now split].
  cbn -[policy.scanDangerousOps policy.contains].
  set (ws := policy.scanDangerousOps command policy.dangerousOps []).
  assert (Hws : forall w, In w ws
            <-> exists op, In op policy.dangerousOps /\ policy.contains command op = true
                           /\ w = "Potentially dangerous operation detected: " +:+ op).
  { intros w. unfold ws. rewrite scanDangerousOps_In. cbn [In]. tauto. }
  assert (Hlen : (length ws <= 3)%nat).
  { pose proof (scanDangerousOps_length command policy.dangerousOps []) as Hl.
    exact Hl. }
  assert (Hwarn : forall op,
            In ("Potentially dangerous operation detected: " +:+ op) ws
            <-> In op policy.dangerousOps /\ Substring op command).
  { intros op. rewrite Hws, <- contains_iff. split.
    - intros (op' & Hin & Hc & Heq). apply (inj _) in Heq. now subst.
    - intros [Hin Hc]. now exists op. }
  assert (Hlimits : ~ In "No resource limits specified - consider adding limits" ws).
  { rewrite Hws. intros (op & _ & _ & Heq). discriminate Heq. }
  rewrite <- !contains_iff.
  destruct (policy.contains command "privileged" || policy.contains command "hostNetwork");
    destruct (policy.contains command "runAsUser: 0");
    destruct (policy.contains command "limits");
    destruct (policy.contains command "create");
    cbn [Bool.eqb andb policy.Warnings policy.Violations policy.Allowed];
    (split; [intros op|split]);
    rewrite ?in_app_iff, ?length_app; cbn [In length];
    try lia;
    try exact (Hwarn op);
    try (etransitivity; [|exact (Hwarn op)]; clear; intuition discriminate);
    intuition (discriminate || congruence).
Qed.

Lemma ValidateCommand_warnings_witness :
  exists r, policy.ValidateCommand (policy.NewValidator true)
              "kubectl create deployment web --image=nginx" = Ok r
            /\ In "No resource limits specified - consider adding limits" (policy.Warnings r).
Proof.
  destruct (ValidateCommand_warnings (policy.NewValidator true)
              "kubectl create deployment web --image=nginx")
    as (r & Hr & _ & H).
  exists r. split; [exact Hr|].
  apply (proj2 (proj1 (proj2 (H eq_refl)))). split.
  - exists "kubectl ", " deployment web --image=nginx". reflexivity.
  - intros Hs%contains_iff. vm_compute in Hs. discriminate Hs.
Defined.

(** ** Package [utils] *)

Lemma utils_Contains_In (slice : list string) (item : string) :
  utils.Contains slice item = true <-> In item slice.
Proof.
  induction slice as [|s rest IH]; cbn [utils.Contains In].
  - split; [discriminate | contradiction].
  - destruct (String.eqb_spec s item) as [->|Hne].
    + split; [now left | reflexivity].
    + rewrite IH. split; [now right | now intros [?|?]].
Qed.

Lemma ContainsAny_exists (s : string) (substrings : list string) :
  utils.ContainsAny s substrings = true
  <-> exists substr, In substr substrings /\ Substring substr s.
Proof.
  induction substrings as [|substr rest IH]; cbn [utils.ContainsAny In].
  - split; [discriminate | now intros (? & [] & _)].
  - destruct (Strings.Contains s substr) eqn:E.
    + split; [intros _|reflexivity]. exists substr.
      split; [now left | now apply Strings_Contains_iff].
    + rewrite IH. split.
      * intros (x & Hin & Hx). exists x. now split; [right|].
      * intros (x & [<-|Hin] & Hx); [|now exists x].
        apply Strings_Contains_iff in Hx. congruence.
Qed.

(** X12. The two membership helpers: [utils.Contains] answers true exactly
    for the members of the slice, and [ContainsAny] exactly when one of the
    listed strings occurs in [s] - never for an empty list, always when
    the list holds the empty string. *)
Theorem utils_membership (slice substrings : list string) (item s : string) :
  (utils.Contains slice item = true <-> In item slice)
  /\ (utils.ContainsAny s substrings = true
      <-> exists substr, In substr substrings /\ Substring substr s)
  /\ utils.Contains [] item = false
  /\ utils.ContainsAny s [] = false
  /\ (In "" substrings -> utils.ContainsAny s substrings = true).
Proof.
  split; [apply utils_Contains_In|]. split; [apply ContainsAny_exists|].
  split; [reflexivity|]. split; [reflexivity|].
  intros Hin. apply ContainsAny_exists. exists "". split; [exact Hin|]. now exists "", s.
Qed.

Lemma utils_membership_witness :
  utils.ContainsAny "kubectl get pods" ["nodes"; ""] = true.
Proof.
  apply (proj2 (proj2 (proj2 (proj2
           (utils_membership [] ["nodes"; ""] "" "kubectl get pods"))))).
  right. left. reflexivity.
Defined.

Lemma length_sliceTo s n :
  (n <= String.length s)%nat -> String.length (Strings.sliceTo s n) = n.
Proof.
  revert s. induction n as [|n IH]; intros s Hn; [now destruct s|].
  destruct s as [|c s]; cbn in *; [lia|]. rewrite IH; lia.
Qed.

Lemma sliceTo_sliceFrom s n : Strings.sliceTo s n +:+ Strings.sliceFrom s n = s.
Proof.
  revert s. induction n as [|n IH]; intros s; [now destruct s|].
  destruct s as [|c s]; [reflexivity|]. cbn [Strings.sliceTo Strings.sliceFrom].
  now rewrite append_cons, IH.
Qed.

(** X13. [TruncateString] with a limit of at least 3 never returns more
    than the limit: a string within the limit is returned as it is, a longer
    one is cut to its first [maxLen - 3] bytes followed by three dots, which
    makes exactly [maxLen] bytes.  With a limit below 3 a string longer than
    the limit makes the slice expression panic.  (The limit is one from
    which 3 can be subtracted without wrap-around.) *)
Theorem TruncateString_outcome (s : string) (maxLen : Z) :
  Strings.Len s <= Int.max_int ->
  Int.min_int + 3 <= maxLen ->
  (Strings.Len s <= maxLen -> utils.TruncateString s maxLen = Some s)
  /\ (3 <= maxLen < Strings.Len s ->
      exists kept dropped,
        s = kept +:+ dropped
        /\ utils.TruncateString s maxLen = Some (kept +:+ "...")
        /\ Strings.Len kept = maxLen - 3
        /\ Strings.Len (kept +:+ "...") = maxLen)
  /\ (maxLen < 3 -> maxLen < Strings.Len s -> utils.TruncateString s maxLen = None).
Proof.
  intros Hs Hmin. unfold utils.TruncateString. split; [|split].
  - intros H. now rewrite (proj2 (Z.leb_le _ _) H).
  - intros [H3 Hlt]. rewrite (proj2 (Z.leb_gt _ _) Hlt).
    unfold Int.sub. rewrite wrap_in_range by (unfold Int.min_int, Int.max_int in *; lia).
    rewrite (proj2 (Z.leb_le 0 _)) by lia.
    rewrite (proj2 (Z.leb_le _ (Strings.Len s))) by lia. cbn [andb].
    assert (Hn : (Z.to_nat (maxLen - 3) <= String.length s)%nat)
      by (unfold Strings.Len in *; lia).
    exists (Strings.sliceTo s (Z.to_nat (maxLen - 3))),
           (Strings.sliceFrom s (Z.to_nat (maxLen - 3))).
    split; [now rewrite sliceTo_sliceFrom|]. split; [reflexivity|].
    unfold Strings.Len. rewrite length_append, length_sliceTo by assumption.
    cbn [String.length]. lia.
  - intros H3 Hlt. rewrite (proj2 (Z.leb_gt _ _) Hlt).
    pose proof (Len_nonneg s) as H0.
    destruct (Z.leb_spec 0 (Int.sub maxLen 3)) as [Hhigh|Hhigh]; [|reflexivity].
    destruct (Z.leb_spec (Int.sub maxLen 3) (Strings.Len s)) as [Hle|Hgt]; [|reflexivity].
    exfalso. unfold Int.sub in Hhigh.
    rewrite wrap_in_range in Hhigh by (unfold Int.min_int, Int.max_int in *; lia). lia.
Qed.

Lemma TruncateString_outcome_witness :
  utils.TruncateString "payments" 8 = Some "payments"
  /\ (exists kept dropped,
         "payments-api-7d9f" = kept +:+ dropped
         /\ utils.TruncateString "payments-api-7d9f" 8 = Some (kept +:+ "...")
         /\ Strings.Len kept = 8 - 3
         /\ Strings.Len (kept +:+ "...") = 8)
  /\ utils.TruncateString "payments" 2 = None.
Proof.
  split; [|split].
  - apply (proj1 (TruncateString_outcome "payments" 8 ltac:(vm_compute; discriminate)
                    ltac:(vm_compute; discriminate))).
    vm_compute. discriminate.
  - apply (proj1 (proj2 (TruncateString_outcome "payments-api-7d9f" 8
                           ltac:(vm_compute; discriminate) ltac:(vm_compute; discriminate)))).
    split; vm_compute; [discriminate | reflexivity].
  - apply (proj2 (proj2 (TruncateString_outcome "payments" 2
                           ltac:(vm_compute; discriminate) ltac:(vm_compute; discriminate))));
      vm_compute; reflexivity.
Defined.

(** ** Plan pipeline: invariants of the scanner *)

Lemma scanLine_step p st raw n :
  plan.inCommands st && plan.inWarnings st = false ->
  (length (Commands_of st) + length (plan.Plan.Warnings (plan.plan st)) <= n)%nat ->
  Forall (fun w => w <> "") (plan.Plan.Warnings (plan.plan st)) ->
  plan.inCommands (plan.scanLine p st raw) && plan.inWarnings (plan.scanLine p st raw)
  = false
  /\ (length (Commands_of (plan.scanLine p st raw))
      + length (plan.Plan.Warnings (plan.plan (plan.scanLine p st raw))) <= S n)%nat
  /\ Forall (fun w => w <> "") (plan.Plan.Warnings (plan.plan (plan.scanLine p st raw))).
Proof.
  unfold plan.scanLine. intros Hflags Hlen Hwarn.
  set (line := Strings.TrimSpace raw).
  destruct (Strings.HasPrefix line "SUMMARY:");
    [cbn [plan.inCommands plan.inWarnings plan.plan plan.setSummary
          plan.Plan.Commands plan.Plan.Warnings]; repeat split; (assumption || lia)|].
  destruct (Strings.HasPrefix line "COMMANDS:");
    [cbn [plan.inCommands plan.inWarnings plan.plan andb]; repeat split;
     (assumption || lia)|].
  destruct (Strings.HasPrefix line "WARNINGS:");
    [cbn [plan.inCommands plan.inWarnings plan.plan andb]; repeat split;
     (assumption || lia)|].
  cbn [plan.inCommands plan.inWarnings plan.plan]. split; [assumption|].
  destruct (plan.inCommands st) eqn:Hc; destruct (plan.inWarnings st) eqn:Hw;
    try discriminate Hflags; cbn [andb orb].
  - destruct (Strings.HasPrefix line "-") eqn:Hdash; cbn [orb].
    + destruct (2 <=? length (Strings.Split line bar))%nat;
        cbn [plan.appendCommand plan.Plan.Commands plan.Plan.Warnings];
        rewrite ?length_app; cbn [length]; split; (assumption || lia).
    + destruct (Strings.HasPrefix line "kubectl");
        [destruct (2 <=? length (Strings.Split line bar))%nat|];
        cbn [plan.appendCommand plan.Plan.Commands plan.Plan.Warnings];
        rewrite ?length_app; cbn [length]; split; (assumption || lia).
  - destruct (Strings.HasPrefix line "-") eqn:Hdash.
    + rewrite (HasPrefix_head_ne "-" "k" "" "ubectl" line) by (discriminate || assumption).
      destruct (negb _) eqn:Hne;
        cbn [plan.appendWarning plan.Plan.Commands plan.Plan.Warnings];
        rewrite ?length_app; cbn [length]; (split; [lia|]); [|assumption].
      apply Forall_app. split; [assumption|]. constructor; [|constructor].
      apply negb_true_iff, String.eqb_neq in Hne. exact Hne.
    + destruct (Strings.HasPrefix line "kubectl");
        [destruct (2 <=? length (Strings.Split line bar))%nat|];
        cbn [plan.appendCommand plan.Plan.Commands plan.Plan.Warnings];
        rewrite ?length_app; cbn [length]; split; (assumption || lia).
  - destruct (Strings.HasPrefix line "kubectl");
      [destruct (2 <=? length (Strings.Split line bar))%nat|];
      cbn [plan.appendCommand plan.Plan.Commands plan.Plan.Warnings];
      rewrite ?length_app; cbn [length]; split; (assumption || lia).
Qed.

Lemma scan_invariants p lines : forall st n,
  plan.inCommands st && plan.inWarnings st = false ->
  (length (Commands_of st) + length (plan.Plan.Warnings (plan.plan st)) <= n)%nat ->
  Forall (fun w => w <> "") (plan.Plan.Warnings (plan.plan st)) ->
  let st' := fold_left (plan.scanLine p) lines st in
  plan.inCommands st' && plan.inWarnings st' = false
  /\ (length (Commands_of st') + length (plan.Plan.Warnings (plan.plan st'))
      <= n + length lines)%nat
  /\ Forall (fun w => w <> "") (plan.Plan.Warnings (plan.plan st')).
Proof.
  induction lines as [|raw lines IH]; intros st n Hflags Hlen Hwarn; cbn [fold_left length].
  - repeat split; (assumption || lia).
  - destruct (scanLine_step p st raw n Hflags Hlen Hwarn) as (Hf & Hl & Hw).
    destruct (IH _ _ Hf Hl Hw) as (? & ? & ?). repeat split; (assumption || lia).
Qed.

(** X14. At the end of the scan the two mode flags are not both set, and a
    line has given at most one command or one warning, never both: the
    commands and warnings together are no more than the lines of the
    response. *)
Theorem scanResponse_flags_and_count p response query :
  let st := plan.scanResponse p response query in
  plan.inCommands st && plan.inWarnings st = false
  /\ (length (Commands_of st) + length (plan.Plan.Warnings (plan.plan st))
      <= length (Strings.Split response LF))%nat.
Proof.
  destruct (scan_invariants p (Strings.Split response LF) (plan.initialState p query) 0
              eq_refl (Nat.le_refl 0) (List.Forall_nil _)) as (Hf & Hl & _).
  split; [exact Hf | exact Hl].
Qed.

(** X15. No warning of a parsed plan is the empty string: a dash line with
    nothing after the dash is dropped. *)
Theorem parseResponse_warnings_nonempty p response query :
  Forall (fun w => w <> "") (plan.Plan.Warnings (plan.parseResponse p response query)).
Proof.
  destruct (scan_invariants p (Strings.Split response LF) (plan.initialState p query) 0
              eq_refl (Nat.le_refl 0) (List.Forall_nil _)) as (_ & _ & Hw).
  unfold plan.parseResponse. cbv zeta.
  destruct (length _ =? 0)%nat; [|exact Hw].
  unfold plan.appendCommand. cbn [plan.Plan.Warnings]. exact Hw.
Qed.

Lemma scanLine_Summary p st raw :
  plan.Plan.Summary (plan.plan (plan.scanLine p st raw))
  = if isMarker "SUMMARY:" raw then summaryOfLine raw
    else plan.Plan.Summary (plan.plan st).
Proof.
  unfold plan.scanLine, isMarker, summaryOfLine.
  repeat match goal with
         | |- context [if ?b then _ else _] => destruct b
         end; reflexivity.
Qed.

Lemma scan_Summary p lines : forall st,
  plan.Plan.Summary (plan.plan (fold_left (plan.scanLine p) lines st))
  = match last (List.filter (isMarker "SUMMARY:") lines) with
    | Some raw => summaryOfLine raw
    | None => plan.Plan.Summary (plan.plan st)
    end.
Proof.
  induction lines as [|raw lines IH]; intros st; [reflexivity|].
  cbn [fold_left List.filter]. rewrite IH, scanLine_Summary.
  destruct (isMarker "SUMMARY:" raw); [|reflexivity].
  destruct (List.filter (isMarker "SUMMARY:") lines) as [|l ls] eqn:E; [reflexivity|].
  change (last (raw :: l :: ls)) with (last (l :: ls)).
  rewrite last_cons. now destruct (last ls).
Qed.

(** X16. The summary of a parsed plan is the trimmed text of the last
    line that opens with SUMMARY:, wherever it stands in the response; when
    there is no such line it is "Execution plan for: " followed by the
    query. *)
Theorem parseResponse_Summary p response query :
  plan.Plan.Summary (plan.parseResponse p response query)
  = match last (List.filter (isMarker "SUMMARY:") (Strings.Split response LF)) with
    | Some raw => summaryOfLine raw
    | None => "Execution plan for: " +:+ query
    end.
Proof.
  unfold plan.parseResponse. cbv zeta.
  assert (H : plan.Plan.Summary (plan.plan (plan.scanResponse p response query))
              = match last (List.filter (isMarker "SUMMARY:") (Strings.Split response LF)) with
                | Some raw => summaryOfLine raw
                | None => "Execution plan for: " +:+ query
                end)
    by apply scan_Summary.
  destruct (length _ =? 0)%nat; [|exact H].
  unfold plan.appendCommand. cbn [plan.Plan.Summary]. exact H.
Qed.

(** ** Plan pipeline: generation and execution *)

(** X17. [Generate] fails exactly when the provider does, with the
    provider's message after "failed to generate plan: ".  A plan it returns
    has at least one command and carries the planner's dry-run flag on
    itself and on every command. *)
Theorem Generate_outcome p query :
  (forall err,
     ai.Generate (plan.aiProvider p) (plan.buildPrompt p query) ai.DefaultOptions = Err err ->
     plan.Generate p query = Err ("failed to generate plan: " +:+ err))
  /\ (forall response,
        ai.Generate (plan.aiProvider p) (plan.buildPrompt p query) ai.DefaultOptions
        = Ok response ->
        exists pl,
          plan.Generate p query = Ok pl
          /\ plan.Plan.Commands pl <> []
          /\ plan.Plan.DryRun pl = plan.dryRun p
          /\ inheritsDryRun p (plan.Plan.Commands pl)).
Proof.
  split.
  - intros err H. unfold plan.Generate. now rewrite H.
  - intros response H.
    assert (Hgen : plan.Generate p query
                   = Ok (plan.setDryRun (plan.parseResponse p (ai.Content response) query)
                           (plan.dryRun p)))
      by (unfold plan.Generate; now rewrite H).
    eexists. split; [exact Hgen|].
    split; [exact (Generate_commands_nonempty p query _ Hgen)|].
    destruct (Generate_inheritsDryRun p query _ Hgen) as [Hflag Hcmds].
    split; [exact Hflag | exact Hcmds].
Qed.

Lemma Generate_outcome_witness :
  plan.Generate {| plan.aiProvider := failingProvider "connection refused";
                   plan.namespace := "default"; plan.dryRun := true |} "scale web"
  = Err "failed to generate plan: connection refused"
  /\ exists pl, plan.Generate (mockPlanner "default" false) "scale web" = Ok pl
                /\ plan.Plan.Commands pl <> []
                /\ plan.Plan.DryRun pl = false.
Proof.
  split.
  - apply (proj1 (Generate_outcome
                    {| plan.aiProvider := failingProvider "connection refused";
                       plan.namespace := "default"; plan.dryRun := true |} "scale web")).
    reflexivity.
  - destruct (proj2 (Generate_outcome (mockPlanner "default" false) "scale web") _ eq_refl)
      as (pl & Hpl & Hne & Hflag & _).
    exists pl. now repeat split.
Defined.

Lemma Execute_entries_fold pl cmds : forall acc,
  fold_left (plan.executeStep pl) cmds acc
  = {| plan.ExecutedCommands := plan.ExecutedCommands acc ++ map (executedEntry pl) cmds;
       plan.Errors := plan.Errors acc |}.
Proof.
  induction cmds as [|c cmds IH]; intros acc; cbn [fold_left map].
  - rewrite app_nil_r. now destruct acc.
  - rewrite IH. unfold plan.executeStep, executedEntry.
    destruct (plan.Plan.DryRun pl && negb (plan.Command.DryRun c));
      cbn [plan.ExecutedCommands plan.Errors]; now rewrite <- app_assoc.
Qed.

(** X18. [Execute] never fails and never reports an error.  It records one
    entry per command, in order: the command text, prefixed by "[DRY-RUN] "
    exactly when the plan is in dry-run mode and the command's own flag is
    off.  So a plan that is not in dry-run mode records every command text
    as it is. *)
Theorem Execute_entries (pl : plan.Plan.t) :
  plan.Execute pl
  = Ok {| plan.ExecutedCommands := map (executedEntry pl) (plan.Plan.Commands pl);
          plan.Errors := [] |}
  /\ (plan.Plan.DryRun pl = false ->
      plan.Execute pl
      = Ok {| plan.ExecutedCommands := map plan.Command.Command (plan.Plan.Commands pl);
              plan.Errors := [] |}).
Proof.
  assert (H : plan.Execute pl
              = Ok {| plan.ExecutedCommands := map (executedEntry pl) (plan.Plan.Commands pl);
                      plan.Errors := [] |})
    by (unfold plan.Execute; now rewrite Execute_entries_fold).
  split; [exact H|]. intros Hoff. rewrite H. do 2 f_equal.
  apply map_ext. intros cmd. unfold executedEntry. now rewrite Hoff.
Qed.

Lemma Execute_entries_witness :
  plan.Execute (plan.parseResponse (scriptedPlanner responseTwoCommands false)
                  responseTwoCommands "replace web")
  = Ok {| plan.ExecutedCommands := ["kubectl get pods"; "kubectl delete pod web"];
          plan.Errors := [] |}.
Proof.
  exact (proj2 (Execute_entries
                  (plan.parseResponse (scriptedPlanner responseTwoCommands false)
                     responseTwoCommands "replace web")) eq_refl).
Defined.

(** ** Diagnostics: single-pod inspection, further *)

Lemma checkContainer_quiet podName report cs :
  quietContainer cs -> diagnose.checkContainer podName report cs = report.
Proof.
  intros [Hw Hr]. unfold diagnose.checkContainer. rewrite Hw.
  now rewrite (proj2 (Z.ltb_ge 5 (k8s.RestartCount cs))) by lia.
Qed.

(** X19. A pod in phase Running whose containers are not waiting and have
    restarted at most 5 times gets a report with no issue, no remediation
    and a health score of 100, without the provider being asked. *)
Theorem diagnosePod_healthy e podName pod :
  k8s.GetPod (diagnose.k8sClient e) podName (diagnose.namespace e) = Ok pod ->
  k8s.StatusPhase pod = "Running" ->
  Forall quietContainer (k8s.ContainerStatuses pod) ->
  diagnose.diagnosePod e podName
  = Ok {| diagnose.Summary := "Diagnostics for pod: " +:+ podName;
          diagnose.Issues := [];
          diagnose.Remediations := [];
          diagnose.HealthScore := 100 |}.
Proof.
  intros Hpod Hphase Hquiet. unfold diagnose.diagnosePod. rewrite Hpod, Hphase.
  cbn [String.eqb negb]. change ("Running" =? "Running")%string with true. cbn [negb].
  assert (Hfold : forall report,
            fold_left (diagnose.checkContainer podName) (k8s.ContainerStatuses pod) report
            = report).
  { induction Hquiet as [|cs statuses Hcs _ IH]; intros report; [reflexivity|].
    cbn [fold_left]. now rewrite checkContainer_quiet, IH. }
  rewrite Hfold. reflexivity.
Qed.

Lemma diagnosePod_healthy_witness :
  diagnose.diagnosePod (sampleEngine quietPod []) "web"
  = Ok {| diagnose.Summary := "Diagnostics for pod: " +:+ "web";
          diagnose.Issues := [];
          diagnose.Remediations := [];
          diagnose.HealthScore := 100 |}.
Proof.
  apply (diagnosePod_healthy (sampleEngine quietPod []) "web" quietPod eq_refl eq_refl).
  repeat constructor. cbn. lia.
Defined.

Lemma waitingDeduction_range reason : 20 <= waitingDeduction reason <= 40.
Proof.
  unfold waitingDeduction.
  destruct (String.eqb reason "CrashLoopBackOff"); [lia|].
  destruct (_ || _); lia.
Qed.

Lemma containerDeduction_range cs :
  15 * Z.of_nat (containerFindings cs) <= containerDeduction cs
  <= 40 * Z.of_nat (containerFindings cs)
  /\ containerDeduction cs <= 55.
Proof.
  unfold containerDeduction, containerFindings.
  destruct (k8s.Waiting cs) as [w|];
    [pose proof (waitingDeduction_range (k8s.Reason w))|];
    destruct (5 <? k8s.RestartCount cs); cbn; lia.
Qed.

(** One container: what is deducted and how many issues are added. *)
Lemma checkContainer_step podName report cs :
  Int.min_int + 55 <= diagnose.HealthScore report <= Int.max_int ->
  diagnose.HealthScore (diagnose.checkContainer podName report cs)
  = diagnose.HealthScore report - containerDeduction cs
  /\ length (diagnose.Issues (diagnose.checkContainer podName report cs))
     = (length (diagnose.Issues report) + containerFindings cs)%nat.
Proof.
  intros Hrange. unfold diagnose.checkContainer, containerDeduction, containerFindings,
    waitingDeduction.
  destruct (k8s.Waiting cs) as [w|].
  - destruct (String.eqb (k8s.Reason w) "CrashLoopBackOff");
      [|destruct (_ || _)];
      destruct (5 <? k8s.RestartCount cs);
      cbn [diagnose.deduct diagnose.addIssue diagnose.HealthScore diagnose.Issues];
      unfold Int.sub; rewrite ?length_app; cbn [length];
      rewrite ?wrap_in_range;
      try (unfold Int.min_int, Int.max_int in *; lia);
      rewrite ?wrap_in_range; unfold Int.min_int, Int.max_int in *; lia.
  - destruct (5 <? k8s.RestartCount cs);
      cbn [diagnose.deduct diagnose.addIssue diagnose.HealthScore diagnose.Issues];
      unfold Int.sub; rewrite ?length_app; cbn [length];
      rewrite ?wrap_in_range; unfold Int.min_int, Int.max_int in *; lia.
Qed.

Lemma checkContainer_fold podName statuses : forall report,
  Int.min_int + 55 * Z.of_nat (length statuses) <= diagnose.HealthScore report
  <= Int.max_int ->
  diagnose.HealthScore (fold_left (diagnose.checkContainer podName) statuses report)
  = diagnose.HealthScore report - foldr Z.add 0 (map containerDeduction statuses)
  /\ length (diagnose.Issues (fold_left (diagnose.checkContainer podName) statuses report))
     = (length (diagnose.Issues report)
        + foldr Nat.add 0 (map containerFindings statuses))%nat.
Proof.
  induction statuses as [|cs statuses IH]; intros report Hrange;
    cbn [fold_left map foldr length] in *.
  - split; lia.
  - rewrite Nat2Z.inj_succ in Hrange.
    pose proof (containerDeduction_range cs) as [[Hlo Hhi] H55].
    destruct (checkContainer_step podName report cs) as [Hs Hi]; [lia|].
    destruct (IH (diagnose.checkContainer podName report cs)) as [Hs' Hi'].
    { rewrite Hs. assert (0 <= containerDeduction cs) by lia. lia. }
    rewrite Hs', Hi', Hs, Hi. split; lia.
Qed.

Lemma podDeduction_range pod :
  15 * Z.of_nat (podFindings pod) <= podDeduction pod <= 40 * Z.of_nat (podFindings pod).
Proof.
  unfold podDeduction, podFindings.
  assert (H : 15 * Z.of_nat (foldr Nat.add 0%nat (map containerFindings (k8s.ContainerStatuses pod)))
              <= foldr Z.add 0 (map containerDeduction (k8s.ContainerStatuses pod))
              <= 40 * Z.of_nat (foldr Nat.add 0%nat
                                  (map containerFindings (k8s.ContainerStatuses pod)))).
  { induction (k8s.ContainerStatuses pod) as [|cs statuses IH]; cbn [map foldr]; [lia|].
    pose proof (containerDeduction_range cs). lia. }
  destruct (String.eqb (k8s.StatusPhase pod) "Running"); lia.
Qed.

(** The score and the number of issues of the single-pod inspection, in
    closed form. *)
Lemma diagnosePod_report e podName pod :
  k8s.GetPod (diagnose.k8sClient e) podName (diagnose.namespace e) = Ok pod ->
  55 * Z.of_nat (length (k8s.ContainerStatuses pod)) + 30 <= Int.max_int ->
  exists r, diagnose.diagnosePod e podName = Ok r
    /\ diagnose.HealthScore r = 100 - podDeduction pod
    /\ length (diagnose.Issues r) = podFindings pod.
Proof.
  intros Hpod Hmax. unfold diagnose.diagnosePod. rewrite Hpod.
  unfold podDeduction, podFindings.
  destruct (String.eqb (k8s.StatusPhase pod) "Running"); cbn [negb].
  - match goal with
    | |- context [fold_left _ _ ?r0] =>
        destruct (checkContainer_fold podName (k8s.ContainerStatuses pod) r0) as [Hs Hi]
    end.
    { cbn [diagnose.HealthScore]. unfold Int.min_int, Int.max_int in *. lia. }
    cbn [diagnose.HealthScore diagnose.Issues length] in Hs, Hi.
    eexists. split; [reflexivity|].
    destruct (0 <? length _)%nat; cbn [diagnose.HealthScore diagnose.Issues];
      rewrite Hs, Hi; split; lia.
  - match goal with
    | |- context [fold_left _ _ ?r0] =>
        destruct (checkContainer_fold podName (k8s.ContainerStatuses pod) r0) as [Hs Hi]
    end.
    { cbn [diagnose.deduct diagnose.addIssue diagnose.HealthScore]. unfold Int.sub.
      rewrite wrap_in_range; unfold Int.min_int, Int.max_int in *; lia. }
    cbn [diagnose.deduct diagnose.addIssue diagnose.HealthScore diagnose.Issues
         length app] in Hs, Hi.
    unfold Int.sub in Hs. rewrite (wrap_in_range (100 - 30)) in Hs
      by (unfold Int.min_int, Int.max_int; lia).
    eexists. split; [reflexivity|].
    destruct (0 <? length _)%nat; cbn [diagnose.HealthScore diagnose.Issues];
      rewrite Hs, Hi; split; lia.
Qed.

(** X20. In the single-pod inspection every issue costs between 15 and 40
    points: the health score is at most 100, it is 100 exactly when there is
    no issue, and with [n] issues it lies between [100 - 40 n] and
    [100 - 15 n]. *)
Theorem diagnosePod_score_and_issues e podName pod :
  k8s.GetPod (diagnose.k8sClient e) podName (diagnose.namespace e) = Ok pod ->
  55 * Z.of_nat (length (k8s.ContainerStatuses pod)) + 30 <= Int.max_int ->
  exists r, diagnose.diagnosePod e podName = Ok r
    /\ diagnose.HealthScore r <= 100
    /\ (diagnose.HealthScore r = 100 <-> diagnose.Issues r = [])
    /\ 100 - 40 * Z.of_nat (length (diagnose.Issues r)) <= diagnose.HealthScore r
       <= 100 - 15 * Z.of_nat (length (diagnose.Issues r)).
Proof.
  intros Hpod Hmax.
  destruct (diagnosePod_report e podName pod Hpod Hmax) as (r & Hr & Hscore & Hissues).
  pose proof (podDeduction_range pod) as Hrange. rewrite <- Hissues in Hrange.
  exists r. split; [exact Hr|]. rewrite Hscore. split; [lia|]. split; [|lia].
  split.
  - intros H. destruct (diagnose.Issues r); [reflexivity|]. cbn [length] in Hrange. lia.
  - intros H. rewrite H in Hrange. cbn [length] in Hrange. lia.
Qed.

Lemma diagnosePod_score_and_issues_witness :
  exists r, diagnose.diagnosePod (sampleEngine crashingPod tenPods) "web" = Ok r
    /\ 100 - 40 * Z.of_nat (length (diagnose.Issues r)) <= diagnose.HealthScore r
       <= 100 - 15 * Z.of_nat (length (diagnose.Issues r)).
Proof.
  destruct (diagnosePod_score_and_issues (sampleEngine crashingPod tenPods) "web"
              crashingPod eq_refl) as (r & Hr & _ & _ & H).
  - vm_compute. discriminate.
  - exists r. split; [exact Hr | exact H].
Defined.

Lemma checkContainer_keeps podName report cs issue :
  In issue (diagnose.Issues report) ->
  In issue (diagnose.Issues (diagnose.checkContainer podName report cs)).
Proof.
  intros Hin. unfold diagnose.checkContainer.
  destruct (k8s.Waiting cs) as [w|].
  - destruct (String.eqb (k8s.Reason w) "CrashLoopBackOff"); [|destruct (_ || _)];
      destruct (5 <? k8s.RestartCount cs);
      cbn [diagnose.deduct diagnose.addIssue diagnose.Issues];
      rewrite ?in_app_iff; tauto.
  - destruct (5 <? k8s.RestartCount cs);
      cbn [diagnose.deduct diagnose.addIssue diagnose.Issues];
      rewrite ?in_app_iff; tauto.
Qed.

Lemma checkContainer_fold_keeps podName statuses issue : forall report,
  In issue (diagnose.Issues report) ->
  In issue (diagnose.Issues (fold_left (diagnose.checkContainer podName) statuses report)).
Proof.
  induction statuses as [|cs statuses IH]; intros report Hin; [exact Hin|].
  cbn [fold_left]. apply IH. now apply checkContainer_keeps.
Qed.

Lemma checkContainer_crash podName report cs waiting :
  k8s.Waiting cs = Some waiting ->
  k8s.Reason waiting = "CrashLoopBackOff" ->
  In {| diagnose.ISeverity := diagnose.SeverityCritical;
        diagnose.Type_ := "CrashLoopBackOff";
        diagnose.Resource := podName +:+ "/" +:+ k8s.CSName cs;
        diagnose.Description :=
          "Container " +:+ k8s.CSName cs +:+ ": CrashLoopBackOff - "
          +:+ k8s.WaitingMessage waiting |}
     (diagnose.Issues (diagnose.checkContainer podName report cs)).
Proof.
  intros Hw Hr. unfold diagnose.checkContainer. rewrite Hw, Hr.
  change ("CrashLoopBackOff" =? "CrashLoopBackOff")%string with true. cbv iota.
  destruct (5 <? k8s.RestartCount cs);
    cbn [diagnose.deduct diagnose.addIssue diagnose.Issues];
    rewrite ?in_app_iff; cbn [In]; tauto.
Qed.

(** X21. Whatever else the pod shows, each container that waits with
    reason CrashLoopBackOff gets its own issue of critical severity in the
    report, named after the pod and the container. *)
Theorem diagnosePod_crash_loop_is_critical e podName pod cs waiting :
  k8s.GetPod (diagnose.k8sClient e) podName (diagnose.namespace e) = Ok pod ->
  In cs (k8s.ContainerStatuses pod) ->
  k8s.Waiting cs = Some waiting ->
  k8s.Reason waiting = "CrashLoopBackOff" ->
  exists r, diagnose.diagnosePod e podName = Ok r
    /\ In {| diagnose.ISeverity := diagnose.SeverityCritical;
             diagnose.Type_ := "CrashLoopBackOff";
             diagnose.Resource := podName +:+ "/" +:+ k8s.CSName cs;
             diagnose.Description :=
               "Container " +:+ k8s.CSName cs +:+ ": CrashLoopBackOff - "
               +:+ k8s.WaitingMessage waiting |}
          (diagnose.Issues r).
Proof.
  intros Hpod Hin Hw Hr. unfold diagnose.diagnosePod. rewrite Hpod.
  eexists. split; [reflexivity|].
  match goal with
  | |- In ?i (diagnose.Issues (if _ then ?a else ?b)) =>
      assert (Hfold : In i (diagnose.Issues b))
  end.
  { match goal with |- context [fold_left _ _ ?r0] => generalize r0 end.
    induction (k8s.ContainerStatuses pod) as [|c statuses IH]; intros report;
      [contradiction|].
    cbn [fold_left]. destruct Hin as [->|Hin].
    - apply checkContainer_fold_keeps. now apply checkContainer_crash.
    - now apply IH. }
  destruct (0 <? length _)%nat; [cbn [diagnose.Issues]|]; exact Hfold.
Qed.

Lemma diagnosePod_crash_loop_is_critical_witness :
  exists r, diagnose.diagnosePod (sampleEngine crashingPod tenPods) "web" = Ok r
    /\ Exists (fun issue => diagnose.ISeverity issue = diagnose.SeverityCritical
                            /\ diagnose.Resource issue = "web/sidecar")
         (diagnose.Issues r).
Proof.
  destruct (diagnosePod_crash_loop_is_critical (sampleEngine crashingPod tenPods) "web"
              crashingPod (crashLooping "sidecar")
              {| k8s.Reason := "CrashLoopBackOff";
                 k8s.WaitingMessage := "back-off restarting failed container" |}
              eq_refl (or_intror (or_introl eq_refl)) eq_refl eq_refl)
    as (r & Hr & Hin).
  exists r. split; [exact Hr|]. apply Exists_exists. eexists.
  split; [apply list_elem_of_In; exact Hin|]. split; reflexivity.
Defined.

Lemma min_50 n : 0 <= n -> 0 <= diagnose.min n 50 <= 50 /\ diagnose.min n 50 <= n.
Proof. intros H. unfold diagnose.min. destruct (Z.ltb_spec n 50); lia. Qed.

Lemma checkContainer_fold_Remediations podName statuses : forall report,
  diagnose.Remediations (fold_left (diagnose.checkContainer podName) statuses report)
  = diagnose.Remediations report.
Proof.
  induction statuses as [|cs statuses IH]; intros report; [reflexivity|].
  cbn [fold_left]. rewrite IH. unfold diagnose.checkContainer.
  destruct (k8s.Waiting cs) as [w|].
  - destruct (String.eqb (k8s.Reason w) "CrashLoopBackOff"); [|destruct (_ || _)];
      destruct (5 <? k8s.RestartCount cs); reflexivity.
  - destruct (5 <? k8s.RestartCount cs); reflexivity.
Qed.

(** X22. The remediations of a single-pod report are all or nothing: none,
    as always when there is no issue, or exactly three, all marked safe,
    the first two being the logs and describe commands for the pod in the
    engine's namespace and the third carrying at most 50 bytes of the
    provider's answer in its title. *)
Theorem diagnosePod_remediations e podName r :
  diagnose.diagnosePod e podName = Ok r ->
  (diagnose.Issues r = [] -> diagnose.Remediations r = [])
  /\ (diagnose.Remediations r = []
      \/ exists logs describe suggested,
           diagnose.Remediations r = [logs; describe; suggested]
           /\ diagnose.Issues r <> []
           /\ Forall (fun rem => diagnose.Safe rem = true) (diagnose.Remediations r)
           /\ diagnose.Command logs
              = "kubectl logs " +:+ podName +:+ " -n " +:+ diagnose.namespace e
           /\ diagnose.Command describe
              = "kubectl describe pod " +:+ podName +:+ " -n " +:+ diagnose.namespace e
           /\ Strings.Len (diagnose.Title suggested) <= 53).
Proof.
  unfold diagnose.diagnosePod.
  destruct (k8s.GetPod _ _ _) as [pod|]; [|discriminate].
  match goal with
  | |- context [fold_left ?f ?l ?r0] =>
      assert (Hrems : diagnose.Remediations (fold_left f l r0) = []);
      [rewrite checkContainer_fold_Remediations;
       destruct (negb _); reflexivity
      | revert Hrems; generalize (fold_left f l r0)]
  end.
  intros report Hrems [= <-].
  destruct (diagnose.Issues report) as [|issue issues] eqn:Hissues.
  - change (0 <? length [])%nat with false. cbv iota. rewrite Hissues, Hrems.
    split; [reflexivity | now left].
  - change (0 <? length (issue :: issues))%nat with true. cbv iota.
    cbn [diagnose.Issues diagnose.Remediations].
    split; [discriminate|].
    unfold diagnose.generateRemediations.
    destruct (ai.Generate _ _ _) as [response|]; [|now left].
    right. do 3 eexists. split; [reflexivity|]. split; [discriminate|].
    split; [repeat constructor|]. split; [reflexivity|]. split; [reflexivity|].
    cbn [diagnose.Title]. unfold Strings.Len at 1. rewrite length_append.
    pose proof (min_50 (Strings.Len (ai.Content response))
                  (Len_nonneg (ai.Content response))) as [[H0 H50] Hle].
    rewrite length_sliceTo by (unfold Strings.Len in *; lia).
    cbn [String.length]. lia.
Qed.

Lemma diagnosePod_remediations_witness :
  exists r, diagnose.diagnosePod (sampleEngine crashingPod tenPods) "web" = Ok r
    /\ (diagnose.Remediations r = []
        \/ exists logs describe suggested,
             diagnose.Remediations r = [logs; describe; suggested]
             /\ diagnose.Issues r <> []
             /\ Forall (fun rem => diagnose.Safe rem = true) (diagnose.Remediations r)
             /\ diagnose.Command logs = "kubectl logs " +:+ "web" +:+ " -n " +:+ "default"
             /\ diagnose.Command describe
                = "kubectl describe pod " +:+ "web" +:+ " -n " +:+ "default"
             /\ Strings.Len (diagnose.Title suggested) <= 53).
Proof.
  destruct (diagnose.diagnosePod (sampleEngine crashingPod tenPods) "web") as [r|] eqn:E;
    [|vm_compute in E; discriminate E].
  exists r. split; [reflexivity|].
  exact (proj2 (diagnosePod_remediations (sampleEngine crashingPod tenPods) "web" r E)).
Defined.

(** ** Diagnostics: the namespace scan, further *)

(** X23. The health score of the namespace scan lies between 0 and 100; it
    is 100 exactly when no pod is a problem pod and 0 exactly when ten or
    more are.  The scan proposes no remediation. *)
Theorem diagnoseAllPods_score e pods :
  k8s.GetPods (diagnose.k8sClient e) (diagnose.namespace e) = Ok pods ->
  10 * Z.of_nat (length pods) <= Int.max_int ->
  exists r, diagnose.diagnoseAllPods e = Ok r
    /\ 0 <= diagnose.HealthScore r <= 100
    /\ (diagnose.HealthScore r = 100 <-> Forall (fun pod => ~ ProblemPod pod) pods)
    /\ (diagnose.HealthScore r = 0 <-> (10 <= length (filter ProblemPod pods))%nat)
    /\ (diagnose.HealthScore r = 100 <-> diagnose.Issues r = [])
    /\ diagnose.Remediations r = [].
Proof.
  intros Hpods Hmax.
  destruct (diagnoseAllPods_report e pods Hpods Hmax) as (r & Hr & Hissues & Hrems & Hscore).
  exists r. split; [exact Hr|]. rewrite Hscore, Hissues. split; [lia|].
  assert (Hnone : filter ProblemPod pods = [] <-> Forall (fun pod => ~ ProblemPod pod) pods).
  { clear. induction pods as [|pod pods IH]; [split; [constructor|reflexivity]|].
    rewrite filter_cons. destruct (decide (ProblemPod pod)) as [Hp|Hp].
    - split; [discriminate|]. intros H. inversion H. contradiction.
    - rewrite IH. split; [now constructor|]. intros H. now inversion H. }
  rewrite <- Hnone. split; [|split; [lia|split; [|exact Hrems]]].
  - destruct (filter ProblemPod pods); cbn [length]; split; (discriminate || lia || reflexivity).
  - destruct (filter ProblemPod pods); cbn [length map];
      split; (discriminate || lia || reflexivity).
Qed.

Lemma diagnoseAllPods_score_witness :
  exists r, diagnose.diagnoseAllPods (sampleEngine crashingPod tenPods) = Ok r
    /\ 0 <= diagnose.HealthScore r <= 100
    /\ diagnose.Remediations r = [].
Proof.
  destruct (diagnoseAllPods_score (sampleEngine crashingPod tenPods) tenPods eq_refl)
    as (r & Hr & Hrange & _ & _ & _ & Hrems).
  - vm_compute. discriminate.
  - exists r. now repeat split.
Defined.

(** ** Pod listing *)

Lemma wrap32_in_range z : Int32.min_int <= z <= Int32.max_int -> Int32.wrap z = z.
Proof.
  unfold Int32.wrap, Int32.min_int, Int32.max_int. intros H.
  rewrite Z.mod_small by lia. lia.
Qed.

Lemma addContainer_fold statuses : forall ready total infos,
  0 <= total ->
  Forall (fun cs => 0 <= corev1.ContainerStatus.RestartCount cs) statuses ->
  total + foldr Z.add 0 (map corev1.ContainerStatus.RestartCount statuses)
  <= Int32.max_int ->
  let '(ready', total', infos') :=
    fold_left k8s.addContainer statuses (ready, total, infos) in
  (ready' = true
   <-> ready = true /\ Forall (fun cs => corev1.ContainerStatus.Ready cs = true) statuses)
  /\ total' = total + foldr Z.add 0 (map corev1.ContainerStatus.RestartCount statuses)
  /\ map k8s.CIName infos'
     = map k8s.CIName infos ++ map corev1.ContainerStatus.Name statuses
  /\ map k8s.State infos' = map k8s.State infos ++ map k8s.containerState statuses.
Proof.
  induction statuses as [|cs statuses IH]; intros ready total infos Htotal Hnonneg Hmax.
  - cbn. rewrite !app_nil_r. repeat split; try tauto; try lia. constructor.
  - cbn [fold_left k8s.addContainer map foldr] in *.
    inversion Hnonneg as [|? ? Hcs Hrest]; subst.
    assert (Hsum : 0 <= foldr Z.add 0 (map corev1.ContainerStatus.RestartCount statuses)).
    { clear - Hrest. induction Hrest; cbn [map foldr]; lia. }
    unfold Int32.add. rewrite wrap32_in_range by (unfold Int32.min_int; lia).
    specialize (IH (if negb (corev1.ContainerStatus.Ready cs) then false else ready)
                  (total + corev1.ContainerStatus.RestartCount cs)
                  (infos ++ [ {| k8s.CIName := corev1.ContainerStatus.Name cs;
                                 k8s.Image := corev1.ContainerStatus.Image cs;
                                 k8s.CIReady := corev1.ContainerStatus.Ready cs;
                                 k8s.CIRestartCount := corev1.ContainerStatus.RestartCount cs;
                                 k8s.State := k8s.containerState cs |} ])
                  ltac:(lia) Hrest ltac:(lia)).
    destruct (fold_left k8s.addContainer statuses _) as [[ready' total'] infos'].
    destruct IH as (Hready & Htot & Hnames & Hstates).
    rewrite Hready, Htot, Hnames, Hstates, !map_app. cbn [map].
    rewrite <- !app_assoc. cbn [app].
    split; [|split; [lia | split; reflexivity]]. split.
    + intros [Hr Hall]. destruct (corev1.ContainerStatus.Ready cs) eqn:E;
        cbn [negb] in Hr; [|discriminate]. split; [exact Hr|]. now constructor.
    + intros [Hr Hall]. inversion Hall as [|? ? Hc Hcs']; subst.
      rewrite Hc. cbn [negb]. now split.
Qed.

Lemma podInfoOf_fields (pod : corev1.Pod.t) :
  restartsInRange pod ->
  k8s.Name (k8s.podInfoOf pod) = corev1.Pod.Name pod
  /\ k8s.Namespace (k8s.podInfoOf pod) = corev1.Pod.Namespace pod
  /\ k8s.Phase (k8s.podInfoOf pod) = corev1.Pod.Phase pod
  /\ (k8s.Ready (k8s.podInfoOf pod) = true <-> allReady pod)
  /\ k8s.Restarts (k8s.podInfoOf pod) = sumRestarts pod
  /\ map k8s.CIName (k8s.ContainerInfos (k8s.podInfoOf pod))
     = map corev1.ContainerStatus.Name (corev1.Pod.ContainerStatuses pod)
  /\ map k8s.State (k8s.ContainerInfos (k8s.podInfoOf pod))
     = map k8s.containerState (corev1.Pod.ContainerStatuses pod).
Proof.
  intros [Hnonneg Hmax]. unfold k8s.podInfoOf, allReady, sumRestarts in *.
  pose proof (addContainer_fold (corev1.Pod.ContainerStatuses pod) true 0 []
                (Z.le_refl 0) Hnonneg ltac:(lia)) as H.
  destruct (fold_left k8s.addContainer _ _) as [[ready total] infos].
  destruct H as (Hready & Htot & Hnames & Hstates).
  cbn [k8s.Name k8s.Namespace k8s.Phase k8s.Ready k8s.Restarts k8s.ContainerInfos].
  do 3 (split; [reflexivity|]). split; [|split; [|split]].
  - rewrite Hready. tauto.
  - rewrite Htot. lia.
  - exact Hnames.
  - exact Hstates.
Qed.



Lemma podInfoOf_problem pod :
  restartsInRange pod -> ProblemPod (k8s.podInfoOf pod) <-> reportedPod pod.
Proof.
  intros H. destruct (podInfoOf_fields pod H) as (_ & _ & Hphase & Hready & Hrestarts & _).
  unfold ProblemPod, reportedPod. rewrite Hphase, Hrestarts, <- Hready.
  destruct (k8s.Ready (k8s.podInfoOf pod)); intuition congruence.
Qed.

Lemma filter_problem_listed items :
  Forall restartsInRange items ->
  filter ProblemPod (map k8s.podInfoOf items)
  = map k8s.podInfoOf (filter reportedPod items).
Proof.
  induction 1 as [|pod items Hpod _ IH]; [reflexivity|].
  cbn [map]. rewrite !filter_cons, IH.
  destruct (decide (reportedPod pod)) as [Hr|Hr];
    destruct (decide (ProblemPod (k8s.podInfoOf pod))) as [Hp|Hp]; try reflexivity;
    apply (podInfoOf_problem pod Hpod) in Hr || apply (podInfoOf_problem pod Hpod) in Hp;
    contradiction.
Qed.

(** X25. Fed by [GetPods], the namespace scan reports a pod exactly when
    its phase is not Running, or one of its containers is not ready, or its
    containers restarted more than 3 times in total, one issue per such pod
    in listing order; an empty namespace argument means the client's own
    namespace; and when the list call fails the scan fails with the message
    prefixed twice by "failed to list pods: ". *)
Theorem diagnoseAllPods_over_listing listPods namespace :
  (forall err,
     listPods namespace = Err err ->
     diagnose.diagnoseAllPods (listingEngine listPods namespace)
     = Err ("failed to list pods: " +:+ "failed to list pods: " +:+ err))
  /\ k8s.Client_GetPods listPods namespace "" = k8s.Client_GetPods listPods namespace namespace
  /\ (forall items,
        listPods namespace = Ok items ->
        Forall restartsInRange items ->
        10 * Z.of_nat (length items) <= Int.max_int ->
        exists r,
          diagnose.diagnoseAllPods (listingEngine listPods namespace) = Ok r
          /\ map diagnose.Resource (diagnose.Issues r)
             = map (fun pod => "pod/" +:+ corev1.Pod.Name pod) (filter reportedPod items)).
Proof.
  assert (Hget : k8s.GetPods (diagnose.k8sClient (listingEngine listPods namespace))
                   (diagnose.namespace (listingEngine listPods namespace))
                 = match listPods namespace with
                   | Err err => Err ("failed to list pods: " +:+ err)
                   | Ok items => Ok (map k8s.podInfoOf items)
                   end).
  { cbn [listingEngine diagnose.k8sClient diagnose.namespace k8s.GetPods].
    unfold k8s.Client_GetPods. destruct (String.eqb namespace "") ; 
      (destruct (listPods namespace); [|reflexivity]);
      now rewrite (fold_append_map k8s.podInfoOf). }
  split; [|split].
  - intros err Herr. unfold diagnose.diagnoseAllPods. rewrite Hget, Herr. reflexivity.
  - unfold k8s.Client_GetPods. cbn [String.eqb].
    destruct (String.eqb_spec namespace "") as [->|]; reflexivity.
  - intros items Hitems Hrange Hmax. rewrite Hitems in Hget.
    destruct (diagnoseAllPods_report (listingEngine listPods namespace)
                (map k8s.podInfoOf items) Hget) as (r & Hr & Hissues & _).
    { now rewrite length_map. }
    exists r. split; [exact Hr|].
    rewrite Hissues. rewrite filter_problem_listed by assumption. rewrite !map_map.
    apply map_ext_in. intros pod Hin. cbn [podIssue diagnose.Resource].
    assert (Hpod : restartsInRange pod).
    { apply list_elem_of_In, list_elem_of_filter in Hin as [_ Hin].
      rewrite Forall_forall in Hrange. now apply Hrange. }
    now destruct (podInfoOf_fields pod Hpod) as (-> & _).
Qed.

Lemma diagnoseAllPods_over_listing_witness :
  exists r,
    diagnose.diagnoseAllPods (listingEngine (fun _ => Ok listedPods) "default") = Ok r
    /\ map diagnose.Resource (diagnose.Issues r) = ["pod/web-1"; "pod/web-2"].
Proof.
  destruct (proj2 (proj2 (diagnoseAllPods_over_listing (fun _ => Ok listedPods) "default"))
              listedPods eq_refl) as (r & Hr & Hissues).
  - repeat constructor; cbn; try lia; vm_compute; discriminate.
  - vm_compute. discriminate.
  - exists r. split; [exact Hr|]. rewrite Hissues. vm_compute. reflexivity.
Defined.

(** ** Provider factory *)

Section ProviderFactory.

Variable ToLower : string -> string.

Lemma NewProvider_cases (config : ai.Settings) :
  let provider := ai.SProvider config in
  (provider = "mock"
   /\ (ai.NewProvider ToLower config).1
      = Ok {| ai.Generate := ai.MockProvider_Generate ToLower (ai.mockConfigOf config);
              ai.Name := "mock" |})
  \/ (selectsStub provider (ai.SAPIKey config)
      /\ exists stub, (ai.NewProvider ToLower config).1 = Ok stub
                      /\ ai.Name stub = provider /\ neverAnswers stub)
  \/ ((provider = "openai" \/ provider = "anthropic") /\ ai.SAPIKey config = ""
      /\ exists err, (ai.NewProvider ToLower config).1 = Err err)
  \/ (provider <> "openai" /\ provider <> "anthropic" /\ provider <> "ollama"
      /\ provider <> "mock"
      /\ (ai.NewProvider ToLower config).1 = Err ("unsupported provider: " +:+ provider)).
Proof.
  cbv zeta. unfold ai.NewProvider, selectsStub.
  destruct (String.eqb_spec (ai.SProvider config) "openai") as [Ho|Ho].
  { unfold ai.NewOpenAIProvider.
    destruct (String.eqb_spec (ai.SAPIKey config) "") as [Hk|Hk].
    - right; right; left. split; [now left|]. split; [exact Hk|]. now eexists.
    - right; left. split; [right; split; [now left | exact Hk]|].
      exists ai.OpenAIProvider. cbn [fst]. split; [reflexivity|].
      split; [now rewrite Ho|]. intros prompt options. now eexists. }
  destruct (String.eqb_spec (ai.SProvider config) "anthropic") as [Ha|Ha].
  { unfold ai.NewAnthropicProvider.
    destruct (String.eqb_spec (ai.SAPIKey config) "") as [Hk|Hk].
    - right; right; left. split; [now right|]. split; [exact Hk|]. now eexists.
    - right; left. split; [right; split; [now right | exact Hk]|].
      exists ai.AnthropicProvider. cbn [fst]. split; [reflexivity|].
      split; [now rewrite Ha|]. intros prompt options. now eexists. }
  destruct (String.eqb_spec (ai.SProvider config) "ollama") as [Hl|Hl].
  { right; left. split; [now left|]. exists ai.OllamaProvider.
    cbn [ai.NewOllamaProvider fst]. split; [reflexivity|].
    split; [now rewrite Hl|]. intros prompt options. now eexists. }
  destruct (String.eqb_spec (ai.SProvider config) "mock") as [Hm|Hm].
  { left. now split. }
  right; right; right. now repeat split.
Qed.

(** X26. [NewProvider] builds a provider for "mock" and "ollama" always,
    for "openai" and "anthropic" when an API key is given, and fails
    otherwise, with "unsupported provider: " and the name for any other
    name.  Of the providers it builds only the mock one ever answers: the
    others refuse every prompt. *)
Theorem NewProvider_outcome (config : ai.Settings) :
  ((exists provider, (ai.NewProvider ToLower config).1 = Ok provider)
   <-> ai.SProvider config = "mock" \/ selectsStub (ai.SProvider config) (ai.SAPIKey config))
  /\ (forall provider,
        (ai.NewProvider ToLower config).1 = Ok provider ->
        ai.Name provider = ai.SProvider config
        /\ (ai.SProvider config = "mock" -> alwaysAnswers provider)
        /\ (ai.SProvider config <> "mock" -> neverAnswers provider))
  /\ (ai.SProvider config <> "openai" -> ai.SProvider config <> "anthropic" ->
      ai.SProvider config <> "ollama" -> ai.SProvider config <> "mock" ->
      (ai.NewProvider ToLower config).1
      = Err ("unsupported provider: " +:+ ai.SProvider config)).
Proof.
  pose proof (NewProvider_cases config) as H. cbv zeta in H.
  destruct H as [[Hm Hp]|[[Hs (stub & Hp & Hname & Hnever)]|[(Hoa & Hk & err & Hp)
                 |(Ho & Ha & Hl & Hm & Hp)]]].
  - split; [split; [now left | intros _; rewrite Hp; now eexists]|]. split.
    + intros provider Heq. rewrite Hp in Heq. injection Heq as <-.
      cbn [ai.Name ai.Generate]. split; [now rewrite Hm|]. split; [|contradiction].
      intros _ prompt options. now eexists.
    + intros; contradiction.
  - assert (Hnm : ai.SProvider config <> "mock").
    { destruct Hs as [->|[[->| ->] _]]; discriminate. }
    split; [split; [now right | intros _; now exists stub]|]. split.
    + intros provider Heq. rewrite Hp in Heq. injection Heq as <-.
      split; [exact Hname|]. split; [contradiction | now intros _].
    + intros Ho Ha Hl _. destruct Hs as [?|[[?|?] _]]; contradiction.
  - split; [|split].
    + split; [intros [provider Heq]; congruence|].
      intros [Hm|[Hl|[_ Hne]]]; [| |contradiction];
        destruct Hoa as [Hoa|Hoa]; rewrite Hoa in *; discriminate.
    + intros provider Heq. congruence.
    + intros Ho Ha. destruct Hoa; contradiction.
  - split; [|split].
    + split; [intros [provider Heq]; congruence|].
      intros [?|[?|[[?|?] _]]]; contradiction.
    + intros provider Heq. congruence.
    + now intros.
Qed.

Lemma NewPlanner_provider getenv namespace dryRun :
  let provider := getenv "K8S_PILOT_AI_PROVIDER" in
  let key := getenv "K8S_PILOT_AI_KEY" in
  (selectsStub provider key
   /\ neverAnswers (plan.aiProvider (plan.NewPlanner ToLower getenv namespace dryRun)))
  \/ (~ selectsStub provider key
      /\ exists config,
           plan.aiProvider (plan.NewPlanner ToLower getenv namespace dryRun)
           = {| ai.Generate := ai.MockProvider_Generate ToLower config;
                ai.Name := "mock" |}).
Proof.
  cbv zeta. unfold plan.NewPlanner.
  destruct (String.eqb_spec (getenv "K8S_PILOT_AI_PROVIDER") "") as [He|He]; cbn [negb].
  - right. split.
    + rewrite He. intros [?|[[?|?] _]]; discriminate.
    + cbn. now eexists.
  - match goal with
    | |- context [ai.NewProvider ToLower ?c] =>
        pose proof (NewProvider_cases c) as H; cbv zeta in H;
        cbn [ai.SProvider ai.SAPIKey] in H;
        destruct (ai.NewProvider ToLower c) as [made config'] eqn:E
    end.
    cbn [fst] in H.
    destruct H as [[Hm Hp]|[[Hs (stub & Hp & Hname & Hnever)]|[(Hoa & Hk & err & Hp)
                   |(Ho & Ha & Hl & Hm & Hp)]]]; subst made.
    + right. split; [|cbn; now eexists].
      rewrite Hm. intros [?|[[?|?] _]]; discriminate.
    + left. split; [exact Hs|]. exact Hnever.
    + right. split; [|cbn; now eexists].
      intros [Hl|[_ Hne]]; [|contradiction].
      destruct Hoa as [Hoa|Hoa]; rewrite Hoa in Hl; discriminate.
    + right. split; [|cbn; now eexists].
      intros [?|[[?|?] _]]; contradiction.
Qed.

(** X27. [NewPlanner] falls back to the mock provider whenever no provider
    is configured, the configured name is unknown, or "openai" or
    "anthropic" is configured without a key: then every query gets a plan.
    When "ollama", or "openai" or "anthropic" with a key, is configured,
    every call of [Generate] fails. *)
Theorem NewPlanner_Generate getenv namespace dryRun query :
  (selectsStub (getenv "K8S_PILOT_AI_PROVIDER") (getenv "K8S_PILOT_AI_KEY") ->
   exists err, plan.Generate (plan.NewPlanner ToLower getenv namespace dryRun) query
               = Err ("failed to generate plan: " +:+ err))
  /\ (~ selectsStub (getenv "K8S_PILOT_AI_PROVIDER") (getenv "K8S_PILOT_AI_KEY") ->
      exists pl, plan.Generate (plan.NewPlanner ToLower getenv namespace dryRun) query = Ok pl
                 /\ plan.Plan.DryRun pl = dryRun).
Proof.
  pose proof (NewPlanner_provider getenv namespace dryRun) as H. cbv zeta in H.
  assert (Hdry : plan.dryRun (plan.NewPlanner ToLower getenv namespace dryRun) = dryRun).
  { unfold plan.NewPlanner.
    destruct (ai.NewProvider ToLower _) as [[made|e] config']; cbn; reflexivity. }
  split; intros Hsel; destruct H as [[Hs Hp]|[Hs (config & Hp)]]; try contradiction.
  - destruct (Hp (plan.buildPrompt (plan.NewPlanner ToLower getenv namespace dryRun) query)
                ai.DefaultOptions) as [err Herr].
    exists err. unfold plan.Generate. now rewrite Herr.
  - unfold plan.Generate. rewrite Hp. cbn [ai.Generate ai.MockProvider_Generate].
    eexists. split; [reflexivity|]. cbn [plan.setDryRun plan.Plan.DryRun]. exact Hdry.
Qed.

End ProviderFactory.

Lemma NewProvider_outcome_witness :
  (ai.NewProvider Strings.ToLowerASCII
     {| ai.SProvider := "gemini"; ai.SAPIKey := "k"; ai.SBaseURL := ""; ai.SModel := "";
        ai.SMaxTokens := 0; ai.STemperature := 0%Q |}).1
  = Err "unsupported provider: gemini".
Proof.
  apply (proj2 (proj2 (NewProvider_outcome Strings.ToLowerASCII
                         {| ai.SProvider := "gemini"; ai.SAPIKey := "k"; ai.SBaseURL := "";
                            ai.SModel := ""; ai.SMaxTokens := 0;
                            ai.STemperature := 0%Q |}))); discriminate.
Defined.

Lemma NewPlanner_Generate_witness :
  (exists err,
      plan.Generate (plan.NewPlanner Strings.ToLowerASCII (sampleEnv "openai" "sk-1" "")
                       "default" true) "scale web"
      = Err ("failed to generate plan: " +:+ err))
  /\ (exists pl,
         plan.Generate (plan.NewPlanner Strings.ToLowerASCII (sampleEnv "openai" "" "")
                          "default" true) "scale web" = Ok pl
         /\ plan.Plan.DryRun pl = true).
Proof.
  split.
  - apply (proj1 (NewPlanner_Generate Strings.ToLowerASCII (sampleEnv "openai" "sk-1" "")
                    "default" true "scale web")).
    right. split; [now left | discriminate].
  - apply (proj2 (NewPlanner_Generate Strings.ToLowerASCII (sampleEnv "openai" "" "")
                    "default" true "scale web")).
    intros [H|[_ H]]; [discriminate H | now apply H].
Defined.

(** ** Explanations *)

Lemma extractCommands_filter content :
  explain.extractCommands content
  = List.filter (fun line => Strings.HasPrefix line "kubectl")
      (map Strings.TrimSpace (Strings.Split content LF)).
Proof.
  unfold explain.extractCommands.
  assert (H : forall lines acc,
            fold_left
              (fun commands line =>
                 if Strings.HasPrefix (Strings.TrimSpace line) "kubectl"
                 then commands ++ [Strings.TrimSpace line] else commands) lines acc
            = acc ++ List.filter (fun line => Strings.HasPrefix line "kubectl")
                       (map Strings.TrimSpace lines)).
  { induction lines as [|line lines IH]; intros acc; cbn [fold_left map List.filter].
    - now rewrite app_nil_r.
    - rewrite IH. destruct (Strings.HasPrefix (Strings.TrimSpace line) "kubectl");
        [now rewrite <- app_assoc | reflexivity]. }
  apply (H _ []).
Qed.

(** X28. An explanation echoes the query; its related commands are the
    trimmed lines of the answer that open with [kubectl], in order of
    appearance and nothing else; and its tip is never empty. *)
Theorem Explain_outcome (ToLower : string -> string) e query explanation :
  explain.Explain ToLower e query = Ok explanation ->
  explain.Query explanation = query
  /\ explain.RelatedCommands explanation
     = List.filter (fun line => Strings.HasPrefix line "kubectl")
         (map Strings.TrimSpace (Strings.Split (explain.Answer explanation) LF))
  /\ Forall (fun command => Strings.HasPrefix command "kubectl" = true)
       (explain.RelatedCommands explanation)
  /\ (length (explain.RelatedCommands explanation)
      <= length (Strings.Split (explain.Answer explanation) LF))%nat
  /\ explain.Tip explanation <> "".
Proof.
  unfold explain.Explain. cbv zeta.
  match goal with |- match ?a with _ => _ end = _ -> _ => destruct a as [content|] end;
    [|discriminate].
  intros [= <-].
  cbn [explain.Query explain.Answer explain.RelatedCommands explain.Tip].
  rewrite extractCommands_filter. split; [reflexivity|]. split; [reflexivity|].
  split; [|split].
  - apply List.Forall_forall. intros command Hin. now apply filter_In in Hin.
  - etransitivity; [apply List.filter_length_le|]. now rewrite length_map.
  - unfold explain.generateTip.
    repeat match goal with |- context [if ?b then _ else _] => destruct b end;
      discriminate.
Qed.

Lemma Explain_outcome_witness :
  exists explanation,
    explain.Explain Strings.ToLowerASCII (sampleExplainer []) "how do I restart a pod"
    = Ok explanation
    /\ explain.RelatedCommands explanation
       = ["kubectl delete pod <pod-name> -n <namespace>"].
Proof.
  destruct (explain.Explain Strings.ToLowerASCII (sampleExplainer [])
              "how do I restart a pod") as [explanation|] eqn:E;
    [|vm_compute in E; discriminate E].
  exists explanation. split; [reflexivity|].
  destruct (Explain_outcome Strings.ToLowerASCII (sampleExplainer [])
              "how do I restart a pod" explanation E) as (_ & Hcmds & _).
  rewrite Hcmds. vm_compute in E. injection E as <-. vm_compute. reflexivity.
Defined.

Lemma fieldsFrom_nonempty n : forall s cur,
  (String.length s <= n)%nat -> Forall (fun w => w <> "") (Strings.fieldsFrom cur s).
Proof.
  assert (Hflush : forall cur, Forall (fun w => w <> "")
                                 (match cur with EmptyString => [] | _ => [cur] end)).
  { intros [|c cur]; repeat constructor. discriminate. }
  induction n as [|n IH]; intros s cur Hn.
  - destruct s; [|cbn in Hn; lia]. apply Hflush.
  - destruct s as [|c1 s1]; [apply Hflush|].
    cbn [String.length] in Hn. cbn [Strings.fieldsFrom].
    destruct (Strings.isSpace1 c1).
    { apply Forall_app. split; [apply Hflush | apply IH; lia]. }
    destruct s1 as [|c2 s2]; [apply IH; cbn; lia|].
    cbn [String.length] in Hn.
    destruct (Strings.isSpace2 c1 c2).
    { apply Forall_app. split; [apply Hflush | apply IH; lia]. }
    destruct s2 as [|c3 s3]; [apply IH; cbn; lia|].
    cbn [String.length] in Hn.
    destruct (Strings.isSpace3 c1 c2 c3).
    { apply Forall_app. split; [apply Hflush | apply IH; lia]. }
    apply IH. cbn. lia.
Qed.

(** No word that [strings.Fields] returns is empty. *)
Lemma Fields_nonempty s : Forall (fun w => w <> "") (Strings.Fields s).
Proof. apply (fieldsFrom_nonempty (String.length s)). lia. Qed.

Lemma findPodName_none (words : list string) :
  (forall i, words !! i = Some "logs" -> words !! S i = None) ->
  explain.findPodName words = "".
Proof.
  induction words as [|word rest IH]; intros H; [reflexivity|].
  cbn [explain.findPodName]. destruct rest as [|next rest']; [reflexivity|].
  destruct (String.eqb_spec word "logs") as [->|Hne].
  - specialize (H 0%nat eq_refl). discriminate H.
  - apply IH. intros i Hi. exact (H (S i) Hi).
Qed.

Lemma findPodName_found (pre : list string) (name : string) (post : list string) :
  ~ In "logs" pre ->
  explain.findPodName (pre ++ "logs" :: name :: post) = name.
Proof.
  induction pre as [|word pre IH]; intros Hpre; [reflexivity|].
  cbn [app explain.findPodName].
  destruct (pre ++ "logs" :: name :: post) as [|next rest] eqn:E.
  { destruct pre; discriminate E. }
  destruct (String.eqb_spec word "logs") as [->|Hne].
  - exfalso. apply Hpre. now left.
  - apply IH. intros Hin. apply Hpre. now right.
Qed.

(** X29. [explainLogs] asks for a pod only when the word "logs", spelled
    exactly so, is followed by another word: otherwise it answers with a
    hint and calls neither the cluster nor the provider.  The pod asked for
    is the word after the first such "logs"; when its logs cannot be read
    the failure is turned into the answer, not into an error.  The only
    error [explainLogs] returns is the provider's. *)
Theorem explainLogs_outcome e query :
  ((forall i, Strings.Fields query !! i = Some "logs" ->
              Strings.Fields query !! S i = None) ->
   explain.explainLogs e query
   = Ok "Please specify a pod name. Example: kubectl-pilot explain logs mypod")
  /\ (forall pre name post err,
        Strings.Fields query = pre ++ "logs" :: name :: post ->
        ~ In "logs" pre ->
        explain.GetPodLogs (explain.k8sClient e) name "" (explain.namespace e) 50 = Err err ->
        explain.explainLogs e query = Ok ("Could not retrieve logs: " +:+ err))
  /\ (forall err,
        explain.explainLogs e query = Err err ->
        exists prompt, ai.Generate (explain.aiProvider e) prompt ai.DefaultOptions = Err err).
Proof.
  unfold explain.explainLogs. cbv zeta. split; [|split].
  - intros H. now rewrite (findPodName_none _ H).
  - intros pre name post err Hwords Hpre Hlogs.
    assert (Hname : name <> "").
    { pose proof (Fields_nonempty query) as Hall. rewrite Hwords in Hall.
      apply Forall_app in Hall as [_ Hall]. inversion Hall as [|? ? _ Hrest]; subst.
      now inversion Hrest. }
    rewrite Hwords, (findPodName_found pre name post Hpre).
    apply String.eqb_neq in Hname. now rewrite Hname, Hlogs.
  - intros err. destruct (String.eqb _ ""); [discriminate|].
    destruct (explain.GetPodLogs _ _ _ _ _); [|discriminate].
    unfold explain.askProvider.
    match goal with |- context [ai.Generate _ ?p _] => set (prompt := p) end.
    destruct (ai.Generate (explain.aiProvider e) prompt ai.DefaultOptions) eqn:E;
      [discriminate|]. intros [= <-]. now exists prompt.
Qed.

Lemma explainLogs_outcome_witness :
  explain.explainLogs (sampleExplainer []) "show LOGS of web"
  = Ok "Please specify a pod name. Example: kubectl-pilot explain logs mypod"
  /\ explain.explainLogs (sampleExplainer []) "show logs web now"
     = Ok ("Could not retrieve logs: " +:+ "pods web not found").
Proof.
  split.
  - apply (proj1 (explainLogs_outcome (sampleExplainer []) "show LOGS of web")).
    intros i. change (Strings.Fields "show LOGS of web") with ["show"; "LOGS"; "of"; "web"].
    destruct i as [|[|[|[|i]]]]; cbn; discriminate.
  - apply (proj1 (proj2 (explainLogs_outcome (sampleExplainer []) "show logs web now"))
             ["show"] "web" ["now"] "pods web not found").
    + reflexivity.
    + intros [H|[]]. discriminate H.
    + reflexivity.
Defined.



